(** * The student-API tool server: dispatch, sessions and REST routes

    A shallow embedding of [src/app.js] (the Express + SSE server with its
    Zod-validated tool dispatcher and the REST routes) and of
    [src/mcp-server.js] (the stdio server that proxies every tool to the
    REST API), followed by the properties of the tool-serving layer.

    [src/app.js] holds two versions of the server one after the other. The
    model follows the second, complete one (nine tools, each validated,
    and the REST routes); the first lists and dispatches two tools and has
    the same session endpoints. The REST routes modelled here are the same,
    line for line, in the other two server files of the repository.

    Conventions.
    - JavaScript values that cross the protocol boundary are JSON values
      ([JsValue]). A string is its sequence of UTF-8 bytes. The payload of
      a number is a parameter: the code passes numbers on, and the one
      place that computes with them (a mean, printed with two decimals) is
      left to the engine.
    - ECMAScript built-ins whose full definition is outside the repository
      ([String.prototype.trim], [toUpperCase], [Number::toString],
      [JSON.stringify]) are fields of the class [JsEngine]; every theorem
      holds for any engine.
    - The Data Store ([sqlite3]) and the HTTP client ([axios]) are oracles:
      a call is recorded in a trace and its answer is supplied from outside.
    - [async]/[await] with [try]/[catch] is sequential code in an exception
      monad that also accumulates the trace of observable events. *)

From Stdlib Require Import String Ascii List ZArith Bool DecimalString.
From stdpp Require Import base option list strings gmap.

Local Open Scope string_scope.
Local Open Scope list_scope.

(** ** JavaScript values *)

Local Unset Elimination Schemes.
Inductive JsValue (Num : Type) : Type :=
| JUndefined
| JNull
| JBool (b : bool)
| JNumber (n : Num)
| JString (s : string)
| JArray (items : list (JsValue Num))
| JObject (props : list (string * JsValue Num)).
Local Set Elimination Schemes.

Arguments JUndefined {Num}.
Arguments JNull {Num}.
Arguments JBool {Num} b.
Arguments JNumber {Num} n.
Arguments JString {Num} s.
Arguments JArray {Num} items.
Arguments JObject {Num} props.

(** The built-ins of the engine that the sources call. [JSON_stringify v]
    stands for [JSON.stringify(v, null, 2)]. *)
Class JsEngine (Num : Type) := {
  num_isNaN : Num → bool;
  num_isZero : Num → bool;
  num_toString : Num → string;
  str_trim : string → string;
  str_toUpperCase : string → string;
  JSON_stringify : JsValue Num → string;
  (** [rows.length > 0 ?
       rows.reduce((sum, row) => sum + row.ders_ortalama, 0) / rows.length : 0],
      a number for every list of store rows *)
  rows_mean : list (JsValue Num) → Num;
  (** [n.toFixed(2)] *)
  num_toFixed2 : Num → string;
  (** the number that a count ([this.changes]) is *)
  num_ofNat : nat → Num;
}.

(** [s.startsWith(p)] *)
Definition startsWith (s p : string) : bool := String.prefix p s.

(** [haystack] contains [needle] as a contiguous substring. *)
Definition contains (haystack needle : string) : Prop :=
  ∃ pre post, haystack = pre +:+ needle +:+ post.

(** ** Zod issues and the text of a [ZodError]

    The schemas of [src/app.js] only use [z.object], [z.string], [z.number],
    [z.array] and [.optional()], whose sole failure is an [invalid_type]
    issue. *)

Inductive ZodParsedType :=
| PTstring | PTnan | PTnumber | PTboolean | PTundefined | PTnull | PTarray | PTobject.

Definition ZodParsedType_name (t : ZodParsedType) : string :=
  match t with
  | PTstring => "string" | PTnan => "nan" | PTnumber => "number"
  | PTboolean => "boolean" | PTundefined => "undefined" | PTnull => "null"
  | PTarray => "array" | PTobject => "object"
  end.

Inductive PathElem := PKey (k : string) | PIndex (i : nat).

Record ZodIssue := {
  expected : ZodParsedType;
  received : ZodParsedType;
  path : list PathElem;
}.

Definition nl : string := String (ascii_of_nat 10) EmptyString.
Definition dquote : string := String (ascii_of_nat 34) EmptyString.
Definition backslash : string := String (ascii_of_nat 92) EmptyString.

Definition hex_digit (n : nat) : string :=
  String.substring n 1 "0123456789abcdef".

(** The escape of one character inside a JSON string literal. *)
Definition json_escape_char (c : ascii) : string :=
  let n := nat_of_ascii c in
  if Nat.eqb n 34 then backslash +:+ dquote
  else if Nat.eqb n 92 then backslash +:+ backslash
  else if Nat.eqb n 8 then backslash +:+ "b"
  else if Nat.eqb n 9 then backslash +:+ "t"
  else if Nat.eqb n 10 then backslash +:+ "n"
  else if Nat.eqb n 12 then backslash +:+ "f"
  else if Nat.eqb n 13 then backslash +:+ "r"
  else if Nat.ltb n 32 then backslash +:+ "u00" +:+ hex_digit (n / 16) +:+ hex_digit (n mod 16)
  else String c EmptyString.

Fixpoint json_escape (s : string) : string :=
  match s with
  | EmptyString => EmptyString
  | String c rest => json_escape_char c +:+ json_escape rest
  end.

Definition json_quote (s : string) : string := dquote +:+ json_escape s +:+ dquote.

Definition nat_toString (n : nat) : string := NilEmpty.string_of_uint (Nat.to_uint n).

Fixpoint join (sep : string) (l : list string) : string :=
  match l with
  | [] => ""
  | [x] => x
  | x :: rest => x +:+ sep +:+ join sep rest
  end.

Definition render_path_elem (p : PathElem) : string :=
  match p with
  | PKey k => json_quote k
  | PIndex i => nat_toString i
  end.

(** The [path] array of an issue, as it prints inside the issue object. *)
Definition render_path (p : list PathElem) : string :=
  match p with
  | [] => "[]"
  | _ => "[" +:+ nl +:+ join ("," +:+ nl) (map (λ e, "      " +:+ render_path_elem e) p)
         +:+ nl +:+ "    ]"
  end.

(** Zod's default error map for [invalid_type]. *)
Definition issue_message (i : ZodIssue) : string :=
  match received i with
  | PTundefined => "Required"
  | r => "Expected " +:+ ZodParsedType_name (expected i) +:+ ", received " +:+ ZodParsedType_name r
  end.

Definition render_issue (i : ZodIssue) : string :=
  "  {" +:+ nl +:+
  "    " +:+ json_quote "code" +:+ ": " +:+ json_quote "invalid_type" +:+ "," +:+ nl +:+
  "    " +:+ json_quote "expected" +:+ ": " +:+ json_quote (ZodParsedType_name (expected i)) +:+ "," +:+ nl +:+
  "    " +:+ json_quote "received" +:+ ": " +:+ json_quote (ZodParsedType_name (received i)) +:+ "," +:+ nl +:+
  "    " +:+ json_quote "path" +:+ ": " +:+ render_path (path i) +:+ "," +:+ nl +:+
  "    " +:+ json_quote "message" +:+ ": " +:+ json_quote (issue_message i) +:+ nl +:+
  "  }".

(** [ZodError.prototype.message]: the issues printed as
    [JSON.stringify(issues, replacer, 2)]. *)
Definition ZodError_message (issues : list ZodIssue) : string :=
  match issues with
  | [] => "[]"
  | _ => "[" +:+ nl +:+ join ("," +:+ nl) (map render_issue issues) +:+ nl +:+ "]"
  end.

(** ** Thrown values *)

Inductive Exn :=
| Error (message : string)
| TypeError (message : string)
| ReferenceError (message : string)
| ZodError (issues : list ZodIssue).

(** [error.message] *)
Definition message (e : Exn) : string :=
  match e with
  | Error m => m
  | TypeError m => m
  | ReferenceError m => m
  | ZodError issues => ZodError_message issues
  end.

(** ** Observable events, completions and the effect monad *)

Inductive DbMethod := DbAll | DbGet | DbRun.
Inductive HttpMethod := HttpGet | HttpPost | HttpPut | HttpDelete.

Section Runtime.
Context {Num : Type}.

Inductive Event :=
| HandlerCall (fn : string) (args : list (JsValue Num))
| DbCall (method : DbMethod) (sql : string) (params : JsValue Num)
| HttpCall (method : HttpMethod) (url : string) (body : JsValue Num)
| Respond (status : nat) (body : JsValue Num)
| ConsoleError (args : list (JsValue Num))
| Connect (sessionId : string)
| HandlePostMessage (sessionId : string) (body : JsValue Num)
| Cleanup.

(** How a piece of code ends: with a value, or by throwing. *)
Inductive Completion (A : Type) :=
| Normal (a : A)
| Abrupt (e : Exn).
Global Arguments Normal {A} a.
Global Arguments Abrupt {A} e.

Definition M (A : Type) : Type := list Event * Completion A.

Definition ret {A} (a : A) : M A := ([], Normal a).

Definition bind {A B} (m : M A) (k : A → M B) : M B :=
  match m with
  | (t, Normal a) => let '(t', r) := k a in (t ++ t', r)
  | (t, Abrupt e) => (t, Abrupt e)
  end.

Definition throw {A} (e : Exn) : M A := ([], Abrupt e).

Definition emit (ev : Event) : M unit := ([ev], Normal tt).

(** [try { m } catch (error) { h error }] *)
Definition try_catch {A} (m : M A) (h : Exn → M A) : M A :=
  match m with
  | (t, Abrupt e) => let '(t', r) := h e in (t ++ t', r)
  | (t, Normal a) => (t, Normal a)
  end.

(** ** Property access and conversions *)

(** Own-property lookup in the property list of an object; the keys of an
    object are pairwise distinct. *)
Fixpoint lookup_prop (k : string) (props : list (string * JsValue Num)) : JsValue Num :=
  match props with
  | [] => JUndefined
  | (k', v) :: rest => if String.eqb k k' then v else lookup_prop k rest
  end.

(** [v.k] for a key [k] that no prototype defines: throws on [undefined]
    and [null], and is [undefined] on the other non-objects. *)
Definition get (v : JsValue Num) (k : string) : M (JsValue Num) :=
  match v with
  | JUndefined =>
      throw (TypeError ("Cannot read properties of undefined (reading '" +:+ k +:+ "')"))
  | JNull =>
      throw (TypeError ("Cannot read properties of null (reading '" +:+ k +:+ "')"))
  | JObject props => ret (lookup_prop k props)
  | _ => ret JUndefined
  end.

(** [const { k } = v], where [source] is the text of the initializer: as
    [get], with the error V8 raises for a destructuring. *)
Definition destructure (v : JsValue Num) (k source : string) : M (JsValue Num) :=
  match v with
  | JUndefined =>
      throw (TypeError ("Cannot destructure property '" +:+ k +:+ "' of '" +:+ source
                        +:+ "' as it is undefined."))
  | JNull =>
      throw (TypeError ("Cannot destructure property '" +:+ k +:+ "' of '" +:+ source
                        +:+ "' as it is null."))
  | JObject props => ret (lookup_prop k props)
  | _ => ret JUndefined
  end.

(** [ToString(v)], as a template literal applies it. An array joins its
    elements with commas, [undefined] and [null] elements printing as
    nothing. A plain object prints through [Object.prototype.toString]
    unless it has an own [toString] property, which for a JSON value is
    never callable and leaves no way to a primitive. *)
Fixpoint ToString `{!JsEngine Num} (v : JsValue Num) : Exn + string :=
  match v with
  | JUndefined => inr "undefined"
  | JNull => inr "null"
  | JBool b => inr (if b then "true" else "false")
  | JNumber n => inr (num_toString n)
  | JString s => inr s
  | JArray items =>
      match
        (fix elements (l : list (JsValue Num)) : Exn + list string :=
           match l with
           | [] => inr []
           | x :: rest =>
               match (match x with JUndefined | JNull => inr "" | _ => ToString x end) with
               | inl e => inl e
               | inr sx =>
                   match elements rest with
                   | inl e => inl e
                   | inr ss => inr (sx :: ss)
                   end
               end
           end) items
      with
      | inl e => inl e
      | inr ss => inr (join "," ss)
      end
  | JObject props =>
      if existsb (λ kv, String.eqb (fst kv) "toString") props
      then inl (TypeError "Cannot convert object to primitive value")
      else inr "[object Object]"
  end.

(** [`${v}`] *)
Definition template `{!JsEngine Num} (v : JsValue Num) : M string :=
  match ToString v with
  | inl e => throw e
  | inr s => ret s
  end.

(** [ToBoolean(v)] *)
Definition truthy `{!JsEngine Num} (v : JsValue Num) : bool :=
  match v with
  | JUndefined | JNull => false
  | JBool b => b
  | JNumber n => negb (num_isZero n || num_isNaN n)
  | JString s => negb (String.eqb s "")
  | JArray _ | JObject _ => true
  end.

(** The receiver of a [String.prototype] method call [v.m()]: a string, or
    the call throws. *)
Definition string_receiver (v : JsValue Num) (m : string) : M string :=
  match v with
  | JString s => ret s
  | JUndefined =>
      throw (TypeError ("Cannot read properties of undefined (reading '" +:+ m +:+ "')"))
  | JNull =>
      throw (TypeError ("Cannot read properties of null (reading '" +:+ m +:+ "')"))
  | _ => throw (TypeError ("query." +:+ m +:+ " is not a function"))
  end.

(** ** Zod schemas and [schema.parse] *)

Local Unset Elimination Schemes.
Inductive ZodType :=
| ZodString
| ZodNumber
| ZodArray (element : ZodType)
| ZodOptional (inner : ZodType)
| ZodObject (shape : list (string * ZodType)).
Local Set Elimination Schemes.

Context `{!JsEngine Num}.

(** Zod's [getParsedType], on JSON values. *)
Definition getParsedType (v : JsValue Num) : ZodParsedType :=
  match v with
  | JUndefined => PTundefined
  | JNull => PTnull
  | JBool _ => PTboolean
  | JNumber n => if num_isNaN n then PTnan else PTnumber
  | JString _ => PTstring
  | JArray _ => PTarray
  | JObject _ => PTobject
  end.

Definition invalid_type (exp : ZodParsedType) (v : JsValue Num) (p : list PathElem) : ZodIssue :=
  {| expected := exp; received := getParsedType v; path := p |}.

(** The issues that parsing [v] against [t] at path [p] reports, in the
    order Zod adds them; the value is valid iff there is none. *)
Fixpoint zod_issues (t : ZodType) (p : list PathElem) (v : JsValue Num) {struct t} : list ZodIssue :=
  match t with
  | ZodString =>
      match v with JString _ => [] | _ => [invalid_type PTstring v p] end
  | ZodNumber =>
      match getParsedType v with PTnumber => [] | _ => [invalid_type PTnumber v p] end
  | ZodArray element =>
      match v with
      | JArray items =>
          concat (imap (λ i x, zod_issues element (p ++ [PIndex i]) x) items)
      | _ => [invalid_type PTarray v p]
      end
  | ZodOptional inner =>
      match v with JUndefined => [] | _ => zod_issues inner p v end
  | ZodObject shape =>
      match v with
      | JObject props =>
          (fix fields (shape : list (string * ZodType)) : list ZodIssue :=
             match shape with
             | [] => []
             | (k, tk) :: rest =>
                 zod_issues tk (p ++ [PKey k]) (lookup_prop k props) ++ fields rest
             end) shape
      | _ => [invalid_type PTobject v p]
      end
  end.

(** The value a successful parse returns: objects keep their declared keys
    only (Zod's default "strip" policy for unknown keys). *)
Fixpoint zod_output (t : ZodType) (v : JsValue Num) {struct t} : JsValue Num :=
  match t with
  | ZodString | ZodNumber => v
  | ZodArray element =>
      match v with JArray items => JArray (map (zod_output element) items) | _ => v end
  | ZodOptional inner =>
      match v with JUndefined => JUndefined | _ => zod_output inner v end
  | ZodObject shape =>
      match v with
      | JObject props =>
          JObject
            ((fix fields (shape : list (string * ZodType)) : list (string * JsValue Num) :=
                match shape with
                | [] => []
                | (k, tk) :: rest =>
                    match zod_output tk (lookup_prop k props) with
                    | JUndefined => fields rest
                    | o => (k, o) :: fields rest
                    end
                end) shape)
      | _ => v
      end
  end.

(** [schema.parse(v)]: the stripped value, or a thrown [ZodError]. *)
Definition parse (schema : ZodType) (v : JsValue Num) : M (JsValue Num) :=
  match zod_issues schema [] v with
  | [] => ret (zod_output schema v)
  | issues => throw (ZodError issues)
  end.

(** ** Tool results *)

Record ContentBlock := { type : string; text : string }.

(** [isError] is [None] when the result object has no such property. *)
Record CallToolResult := { content : list ContentBlock; isError : option bool }.

(** [{ content: [{ type: "text", text: JSON.stringify(v, null, 2) }] }] *)
Definition json_result (v : JsValue Num) : CallToolResult :=
  {| content := [ {| type := "text"; text := JSON_stringify v |} ]; isError := None |}.

(** ** The Data Store as an oracle

    [db.all] calls back with an error or the rows, [db.get] with an error
    or the first row ([None] for [undefined]: no row). An error is given by
    its [message]. *)
Record Database := {
  db_all : string → JsValue Num → string + list (JsValue Num);
  db_get : string → JsValue Num → string + option (JsValue Num);
}.

End Runtime.

Arguments Event Num : clear implicits.
Arguments M Num A : clear implicits.
Arguments Database Num : clear implicits.

#[export] Instance M_ret {Num} : MRet (M Num) := @ret Num.
#[export] Instance M_bind {Num} : MBind (M Num) := λ A B k m, bind m k.

(** * [src/app.js]: the SSE server with the full tool set *)

Module App.

(** ** Tool names and input schemas *)

Module ToolName.
Definition GET_ALL_STUDENTS : string := "get_all_students".
Definition GET_STUDENT_BY_ID : string := "get_student_by_id".
Definition GET_STUDENT_GRADES : string := "get_student_grades".
Definition GET_STUDENT_ATTENDANCE : string := "get_student_attendance".
Definition GET_STUDENT_PAYMENTS : string := "get_student_payments".
Definition GET_STUDENTS_BY_CLASS : string := "get_students_by_class".
Definition SEARCH_STUDENTS : string := "search_students".
Definition GET_STUDENT_AVERAGE : string := "get_student_average".
Definition ADD_STUDENT : string := "add_student".
Definition UPDATE_STUDENT : string := "update_student".
Definition DELETE_STUDENT : string := "delete_student".
Definition CUSTOM_QUERY : string := "custom_query".
End ToolName.

Definition StudentIdSchema : ZodType := ZodObject [("id", ZodNumber)].
Definition SearchSchema : ZodType := ZodObject [("search", ZodString)].
Definition ClassIdSchema : ZodType := ZodObject [("sinif_id", ZodNumber)].
Definition CustomQuerySchema : ZodType :=
  ZodObject [("query", ZodString); ("params", ZodOptional (ZodArray ZodString))].

(** ** The statements the tool functions submit, verbatim *)

Definition SQL_getAllStudents : string :=
"
      SELECT 
        o.*,
        s.sinif_adi,
        s.seviye
      FROM ogrenciler o
      LEFT JOIN siniflar s ON o.sinif_id = s.id
      WHERE o.aktif = 1
      ORDER BY o.ad, o.soyad
    ".

Definition SQL_getStudentById : string :=
"
      SELECT 
        o.*, 
        s.sinif_adi,
        s.seviye
      FROM ogrenciler o
      LEFT JOIN siniflar s ON o.sinif_id = s.id
      WHERE o.id = ?
    ".

Definition SQL_getStudentGrades : string :=
"
      SELECT 
        n.*, 
        d.ders_adi,
        d.kod as ders_kodu
      FROM notlar n
      JOIN dersler d ON n.ders_id = d.id
      WHERE n.ogrenci_id = ?
      ORDER BY n.tarih DESC
    ".

Definition SQL_getStudentAttendance : string :=
"
      SELECT 
        d.*, 
        dr.ders_adi,
        dr.kod as ders_kodu
      FROM devamsizlik d
      JOIN dersler dr ON d.ders_id = dr.id
      WHERE d.ogrenci_id = ?
      ORDER BY d.tarih DESC
    ".

Definition SQL_getStudentPayments : string :=
"
      SELECT *
      FROM odemeler
      WHERE ogrenci_id = ?
      ORDER BY tarih DESC
    ".

Definition SQL_getStudentsByClass : string :=
"
      SELECT 
        o.*, 
        s.sinif_adi,
        s.seviye
      FROM ogrenciler o
      JOIN siniflar s ON o.sinif_id = s.id
      WHERE o.sinif_id = ? AND o.aktif = 1
      ORDER BY o.ad, o.soyad
    ".

Definition SQL_searchStudents : string :=
"
      SELECT 
        o.*, 
        s.sinif_adi,
        s.seviye
      FROM ogrenciler o
      LEFT JOIN siniflar s ON o.sinif_id = s.id
      WHERE (o.ad LIKE ? OR o.soyad LIKE ? OR o.tc_no LIKE ?)
      AND o.aktif = 1
      ORDER BY o.ad, o.soyad
    ".

Definition SQL_getStudentAverage : string :=
"
      SELECT 
        AVG(CAST(not_degeri as FLOAT)) as genel_ortalama,
        COUNT(" +:+ "*) as toplam_not,
        d.ders_adi,
        AVG(CAST(n.not_degeri as FLOAT)) as ders_ortalama
      FROM notlar n
      JOIN dersler d ON n.ders_id = d.id
      WHERE n.ogrenci_id = ?
      GROUP BY d.id, d.ders_adi
      ORDER BY ders_ortalama DESC
    ".

(** The statements of the two REST routes modelled below. *)

Definition SQL_ortalama_route : string :=
"
    SELECT 
      AVG(CAST(not_degeri as FLOAT)) as genel_ortalama,
      COUNT(" +:+ "*) as toplam_not,
      d.ders_adi,
      AVG(CAST(n.not_degeri as FLOAT)) as ders_ortalama
    FROM notlar n
    JOIN dersler d ON n.ders_id = d.id
    WHERE n.ogrenci_id = ?
    GROUP BY d.id, d.ders_adi
    ORDER BY ders_ortalama DESC
  ".

Definition SQL_put_route : string :=
"
    UPDATE ogrenciler 
    SET tc_no = ?, ad = ?, soyad = ?, dogum_tarihi = ?, cinsiyet = ?, 
        telefon = ?, email = ?, adres = ?, veli_adi = ?, veli_telefonu = ?, 
        sinif_id = ?, aktif = ?
    WHERE id = ?
  ".

Section Server.
Context {Num : Type} `{!JsEngine Num}.
Variable db : Database Num.

Abbreviation Value := (JsValue Num).
Abbreviation Eff := (M Num).

(** [{ data: v }] *)
Definition data_object (v : Value) : Value := JObject [("data", v)].

(** ** Student API functions

    Each function is a promise around one store call: [reject(e)] is a
    throw at the [await], [resolve(r)] a return. The first event of a
    function records that it was entered. *)

(** The body shared by the functions that [resolve] every row set. *)
Definition all_rows (sql : string) (params : list Value) : Eff CallToolResult :=
  emit (DbCall DbAll sql (JArray params));;
  match db_all db sql (JArray params) with
  | inl err => throw (Error err)
  | inr rows => mret (json_result (data_object (JArray rows)))
  end.

Definition getAllStudents : Eff CallToolResult :=
  emit (HandlerCall "getAllStudents" []);;
  all_rows SQL_getAllStudents [].

Definition getStudentById (id : Value) : Eff CallToolResult :=
  emit (HandlerCall "getStudentById" [id]);;
  emit (DbCall DbGet SQL_getStudentById (JArray [id]));;
  match db_get db SQL_getStudentById (JArray [id]) with
  | inl err => throw (Error err)
  | inr None => throw (Error "Öğrenci bulunamadı")
  | inr (Some row) => mret (json_result (data_object row))
  end.

Definition getStudentGrades (id : Value) : Eff CallToolResult :=
  emit (HandlerCall "getStudentGrades" [id]);;
  all_rows SQL_getStudentGrades [id].

Definition getStudentAttendance (id : Value) : Eff CallToolResult :=
  emit (HandlerCall "getStudentAttendance" [id]);;
  all_rows SQL_getStudentAttendance [id].

Definition getStudentPayments (id : Value) : Eff CallToolResult :=
  emit (HandlerCall "getStudentPayments" [id]);;
  all_rows SQL_getStudentPayments [id].

Definition getStudentsByClass (sinifId : Value) : Eff CallToolResult :=
  emit (HandlerCall "getStudentsByClass" [sinifId]);;
  all_rows SQL_getStudentsByClass [sinifId].

Definition searchStudents (searchTerm : Value) : Eff CallToolResult :=
  emit (HandlerCall "searchStudents" [searchTerm]);;
  term ← template searchTerm;
  let searchPattern := JString ("%" +:+ term +:+ "%") in
  all_rows SQL_searchStudents [searchPattern; searchPattern; searchPattern].

Definition getStudentAverage (id : Value) : Eff CallToolResult :=
  emit (HandlerCall "getStudentAverage" [id]);;
  emit (DbCall DbAll SQL_getStudentAverage (JArray [id]));;
  match db_all db SQL_getStudentAverage (JArray [id]) with
  | inl err => throw (Error err)
  | inr rows =>
      let genelOrtalama := rows_mean rows in
      mret (json_result (data_object (JObject
        [("genel_ortalama", JString (num_toFixed2 genelOrtalama));
         ("ders_ortalamalari", JArray rows)])))
  end.

(** [customQuery(query, params = [])]: the statement reaches the store only
    behind the prefix test. *)
Definition customQuery (query params : Value) : Eff CallToolResult :=
  emit (HandlerCall "customQuery" [query; params]);;
  let params := match params with JUndefined => JArray [] | _ => params end in
  q ← string_receiver query "trim";
  if negb (startsWith (str_toUpperCase (str_trim q)) "SELECT")
  then throw (Error "Sadece SELECT sorguları desteklenir")
  else
    emit (DbCall DbAll q params);;
    match db_all db q params with
    | inl err => throw (Error err)
    | inr rows => mret (json_result (data_object (JArray rows)))
    end.

(** ** The tool list *)

(** [inputSchema] of a listed tool: the literal [{}], or
    [zodToJsonSchema(schema)]. *)
Inductive InputSchema :=
| EmptyObject
| zodToJsonSchema (schema : ZodType).

Record Tool := { name : string; description : string; inputSchema : InputSchema }.

(** The [ListToolsRequestSchema] handler. *)
Definition tools : list Tool :=
  [ {| name := ToolName.GET_ALL_STUDENTS;
       description := "Tüm aktif öğrencileri sınıf bilgileriyle birlikte getir";
       inputSchema := EmptyObject |};
    {| name := ToolName.GET_STUDENT_BY_ID;
       description := "ID ile öğrenci bilgilerini getir";
       inputSchema := zodToJsonSchema StudentIdSchema |};
    {| name := ToolName.GET_STUDENT_GRADES;
       description := "Öğrencinin notlarını getir";
       inputSchema := zodToJsonSchema StudentIdSchema |};
    {| name := ToolName.GET_STUDENT_ATTENDANCE;
       description := "Öğrencinin devamsızlık bilgilerini getir";
       inputSchema := zodToJsonSchema StudentIdSchema |};
    {| name := ToolName.GET_STUDENT_PAYMENTS;
       description := "Öğrencinin ödeme bilgilerini getir";
       inputSchema := zodToJsonSchema StudentIdSchema |};
    {| name := ToolName.GET_STUDENTS_BY_CLASS;
       description := "Sınıfa göre öğrencileri getir";
       inputSchema := zodToJsonSchema ClassIdSchema |};
    {| name := ToolName.SEARCH_STUDENTS;
       description := "Öğrenci ara (isim, soyisim, TC)";
       inputSchema := zodToJsonSchema SearchSchema |};
    {| name := ToolName.GET_STUDENT_AVERAGE;
       description := "Öğrencinin not ortalamasını getir";
       inputSchema := zodToJsonSchema StudentIdSchema |};
    {| name := ToolName.CUSTOM_QUERY;
       description := "Özel SELECT sorgusu çalıştır";
       inputSchema := zodToJsonSchema CustomQuerySchema |} ].

(** ** The tool call handler *)

(** The [case] labels of the [switch (name)], in source order. *)
Inductive Case :=
| case_GET_ALL_STUDENTS
| case_GET_STUDENT_BY_ID
| case_GET_STUDENT_GRADES
| case_GET_STUDENT_ATTENDANCE
| case_GET_STUDENT_PAYMENTS
| case_GET_STUDENTS_BY_CLASS
| case_SEARCH_STUDENTS
| case_GET_STUDENT_AVERAGE
| case_CUSTOM_QUERY.

(** The label expression of each [case] clause, in source order. *)
Definition labels : list (string * Case) :=
  [ (ToolName.GET_ALL_STUDENTS, case_GET_ALL_STUDENTS);
    (ToolName.GET_STUDENT_BY_ID, case_GET_STUDENT_BY_ID);
    (ToolName.GET_STUDENT_GRADES, case_GET_STUDENT_GRADES);
    (ToolName.GET_STUDENT_ATTENDANCE, case_GET_STUDENT_ATTENDANCE);
    (ToolName.GET_STUDENT_PAYMENTS, case_GET_STUDENT_PAYMENTS);
    (ToolName.GET_STUDENTS_BY_CLASS, case_GET_STUDENTS_BY_CLASS);
    (ToolName.SEARCH_STUDENTS, case_SEARCH_STUDENTS);
    (ToolName.GET_STUDENT_AVERAGE, case_GET_STUDENT_AVERAGE);
    (ToolName.CUSTOM_QUERY, case_CUSTOM_QUERY) ].

(** Clause selection: the first clause whose label is strictly equal to
    [name], [None] for the [default] clause. *)
Definition switch (name : string) : option Case :=
  snd <$> List.find (λ l, String.eqb name (fst l)) labels.

(** The body of the [try] block. *)
Definition call_body (name : string) (args : Value) : Eff CallToolResult :=
  match switch name with
  | Some case_GET_ALL_STUDENTS => getAllStudents
  | Some case_GET_STUDENT_BY_ID =>
      validatedId ← parse StudentIdSchema args;
      id ← get validatedId "id";
      getStudentById id
  | Some case_GET_STUDENT_GRADES =>
      validatedGradesId ← parse StudentIdSchema args;
      id ← get validatedGradesId "id";
      getStudentGrades id
  | Some case_GET_STUDENT_ATTENDANCE =>
      validatedAttendanceId ← parse StudentIdSchema args;
      id ← get validatedAttendanceId "id";
      getStudentAttendance id
  | Some case_GET_STUDENT_PAYMENTS =>
      validatedPaymentsId ← parse StudentIdSchema args;
      id ← get validatedPaymentsId "id";
      getStudentPayments id
  | Some case_GET_STUDENTS_BY_CLASS =>
      validatedClassId ← parse ClassIdSchema args;
      sinif_id ← get validatedClassId "sinif_id";
      getStudentsByClass sinif_id
  | Some case_SEARCH_STUDENTS =>
      validatedSearch ← parse SearchSchema args;
      search ← get validatedSearch "search";
      searchStudents search
  | Some case_GET_STUDENT_AVERAGE =>
      validatedAverageId ← parse StudentIdSchema args;
      id ← get validatedAverageId "id";
      getStudentAverage id
  | Some case_CUSTOM_QUERY =>
      validatedQuery ← parse CustomQuerySchema args;
      query ← get validatedQuery "query";
      params ← get validatedQuery "params";
      customQuery query params
  | None => throw (Error ("Unknown tool: " +:+ name))
  end.

(** The [catch (error)] clause. *)
Definition error_result (error : Exn) : CallToolResult :=
  {| content := [ {| type := "text"; text := "Error: " +:+ message error |} ];
     isError := Some true |}.

(** The [CallToolRequestSchema] handler, for [request.params] equal to
    [{ name, arguments: args }]. *)
Definition callTool (name : string) (args : Value) : Eff CallToolResult :=
  try_catch (call_body name args) (λ error, mret (error_result error)).


(** ** REST routes *)

(** [res.status(status).json({ error: msg })] *)
Definition respond_error (status : nat) (msg : string) : Eff unit :=
  emit (Respond status (JObject [("error", JString msg)])).

(** [app.post('/api/custom-query')], for the parsed request body. *)
Definition post_custom_query (body : Value) : Eff unit :=
  query ← destructure body "query" "req.body";
  params ← destructure body "params" "req.body";
  let params := match params with JUndefined => JArray [] | _ => params end in
  q ← string_receiver query "trim";
  if negb (startsWith (str_toUpperCase (str_trim q)) "SELECT")
  then respond_error 400 "Sadece SELECT sorguları desteklenir"
  else
    emit (DbCall DbAll q params);;
    match db_all db q params with
    | inl err => respond_error 500 err
    | inr rows => emit (Respond 200 (data_object (JArray rows)))
    end.

(** Identifier resolution: the value bound to [x] in the scope chain, or a
    [ReferenceError]. *)
Definition resolve (scope : list (string * Value)) (x : string) : Eff Value :=
  match List.find (λ b, String.eqb (fst b) x) scope with
  | Some b => mret (snd b)
  | None => throw (ReferenceError (x +:+ " is not defined"))
  end.

(** A binding whose value is a function, a module or another object that
    no JSON value describes. *)
Definition opaque (x : string) : string * Value := (x, JObject []).

(** The top-level declarations of the module, all in scope in every route. *)
Definition module_scope : list (string * Value) :=
  map opaque
    [ "express"; "sqlite3"; "Server"; "SSEServerTransport";
      "CallToolRequestSchema"; "ListPromptsRequestSchema";
      "ListToolsRequestSchema"; "GetPromptRequestSchema";
      "fileURLToPath"; "dirname"; "join"; "readFileSync"; "z"; "zodToJsonSchema";
      "__filename"; "__dirname"; "instructions"; "app"; "db";
      "StudentSchema"; "ToolName"; "StudentIdSchema"; "SearchSchema";
      "ClassIdSchema"; "CustomQuerySchema"; "PromptName";
      "getAllStudents"; "getStudentById"; "getStudentGrades";
      "getStudentAttendance"; "getStudentPayments"; "getStudentsByClass";
      "searchStudents"; "getStudentAverage"; "customQuery";
      "createMCPServer"; "transports"; "PORT" ].

(** The scope chain at the [res.json] call of the average route: the
    callback's constant and parameters, the route handler's, the module's. *)
Definition ortalama_scope (rows : list Value) : list (string * Value) :=
  [ ("genelOrtalama", JNumber (rows_mean rows)); ("err", JNull); ("rows", JArray rows);
    ("query", JString SQL_ortalama_route); opaque "req"; opaque "res" ]
  ++ module_scope.

(** [n.toFixed(2)] on a resolved value. *)
Definition toFixed2 (v : Value) : Eff Value :=
  match v with
  | JNumber n => mret (JString (num_toFixed2 n))
  | JUndefined => throw (TypeError "Cannot read properties of undefined (reading 'toFixed')")
  | JNull => throw (TypeError "Cannot read properties of null (reading 'toFixed')")
  | _ => throw (TypeError "genel_ortalama.toFixed is not a function")
  end.

(** [app.get('/api/ogrenciler/:id/ortalama')], for [req.params.id]. The
    body object is built, and the response sent, only after the property
    value [genel_ortalama.toFixed(2)] has been evaluated. *)
Definition get_ortalama (id : string) : Eff unit :=
  emit (DbCall DbAll SQL_ortalama_route (JArray [JString id]));;
  match db_all db SQL_ortalama_route (JArray [JString id]) with
  | inl err => respond_error 500 err
  | inr rows =>
      let scope := ortalama_scope rows in
      genel_ortalama ← resolve scope "genel_ortalama";
      fixed ← toFixed2 genel_ortalama;
      rows' ← resolve scope "rows";
      emit (Respond 200 (data_object (JObject
        [("genel_ortalama", fixed); ("ders_ortalamalari", rows')])))
  end.

(** *** The update route and the table it writes

    What the store does with the statement of [app.put('/api/ogrenciler/:id')]
    is part of what the route does, so the [ogrenciler] table is modelled:
    a row holds the key and the twelve columns the statement assigns. The
    comparison [id = ?] of SQLite and the constraints of the schema are
    outside the repository and stay parameters. *)

Inductive SqlValue :=
| SqlNull
| SqlInteger (z : Z)
| SqlNumber (n : Num)
| SqlText (s : string).

Record Ogrenci := {
  id : SqlValue;
  tc_no : SqlValue;
  ad : SqlValue;
  soyad : SqlValue;
  dogum_tarihi : SqlValue;
  cinsiyet : SqlValue;
  telefon : SqlValue;
  email : SqlValue;
  adres : SqlValue;
  veli_adi : SqlValue;
  veli_telefonu : SqlValue;
  sinif_id : SqlValue;
  aktif : SqlValue;
}.

(** [WHERE id = ?]: whether the key of a row equals the bound parameter. *)
Variable sql_eq : SqlValue → SqlValue → bool.

(** The schema's verdict on the table a statement would leave: [Some msg]
    when a constraint fails. *)
Variable constraint_error : list Ogrenci → option string.

(** How [node-sqlite3] binds one element of the parameter array; it never
    throws. A parameter it leaves unbound ([undefined]) is read by SQLite
    as NULL, a boolean is bound as the integer 1 or 0, and an array or any
    other object as the text "[object Object]", whatever it holds. *)
Definition bindParameter (v : Value) : SqlValue :=
  match v with
  | JUndefined => SqlNull
  | JNull => SqlNull
  | JBool b => SqlInteger (if b then 1 else 0)
  | JNumber n => SqlNumber n
  | JString s => SqlText s
  | JArray _ | JObject _ => SqlText "[object Object]"
  end.

(** The row that [SET tc_no = ?, ..., aktif = ?] leaves in place of [r]. *)
Definition assign (p1 p2 p3 p4 p5 p6 p7 p8 p9 p10 p11 p12 : SqlValue) (r : Ogrenci) : Ogrenci :=
  {| id := id r;
     tc_no := p1; ad := p2; soyad := p3; dogum_tarihi := p4; cinsiyet := p5;
     telefon := p6; email := p7; adres := p8; veli_adi := p9; veli_telefonu := p10;
     sinif_id := p11; aktif := p12 |}.

(** [UPDATE ogrenciler SET ... WHERE id = ?] on a table. A column takes
    the bound value as it is: a conversion that the declared type of a
    column may apply is a matter of the schema, and NULL is never
    converted. *)
Definition update_ogrenciler (p1 p2 p3 p4 p5 p6 p7 p8 p9 p10 p11 p12 key : SqlValue)
    (table : list Ogrenci) : list Ogrenci :=
  map (λ r, if sql_eq (id r) key
            then assign p1 p2 p3 p4 p5 p6 p7 p8 p9 p10 p11 p12 r else r) table.

(** The number of rows the statement changed ([this.changes]). *)
Definition changes (key : SqlValue) (table : list Ogrenci) : nat :=
  length (filter (λ r, sql_eq (id r) key = true) table).

(** [app.put('/api/ogrenciler/:id')], for [req.params.id] and the parsed
    body; it returns the table the store holds afterwards. The route can
    throw at the destructuring of [req.body] only: once the body is
    destructured, the store is called and its callback answers. *)
Definition put_ogrenci (table : list Ogrenci) (id_param : string) (body : Value)
    : Eff (list Ogrenci) :=
  v_tc_no ← destructure body "tc_no" "req.body";
  v_ad ← destructure body "ad" "req.body";
  v_soyad ← destructure body "soyad" "req.body";
  v_dogum_tarihi ← destructure body "dogum_tarihi" "req.body";
  v_cinsiyet ← destructure body "cinsiyet" "req.body";
  v_telefon ← destructure body "telefon" "req.body";
  v_email ← destructure body "email" "req.body";
  v_adres ← destructure body "adres" "req.body";
  v_veli_adi ← destructure body "veli_adi" "req.body";
  v_veli_telefonu ← destructure body "veli_telefonu" "req.body";
  v_sinif_id ← destructure body "sinif_id" "req.body";
  v_aktif ← destructure body "aktif" "req.body";
  emit (DbCall DbRun SQL_put_route
          (JArray [v_tc_no; v_ad; v_soyad; v_dogum_tarihi; v_cinsiyet; v_telefon; v_email;
                   v_adres; v_veli_adi; v_veli_telefonu; v_sinif_id; v_aktif;
                   JString id_param]));;
  let p1 := bindParameter v_tc_no in
  let p2 := bindParameter v_ad in
  let p3 := bindParameter v_soyad in
  let p4 := bindParameter v_dogum_tarihi in
  let p5 := bindParameter v_cinsiyet in
  let p6 := bindParameter v_telefon in
  let p7 := bindParameter v_email in
  let p8 := bindParameter v_adres in
  let p9 := bindParameter v_veli_adi in
  let p10 := bindParameter v_veli_telefonu in
  let p11 := bindParameter v_sinif_id in
  let p12 := bindParameter v_aktif in
  let key := SqlText id_param in
  let table' := update_ogrenciler p1 p2 p3 p4 p5 p6 p7 p8 p9 p10 p11 p12 key table in
  match constraint_error table' with
  | Some err =>
      respond_error 500 err;;
      mret table
  | None =>
      emit (Respond 200 (JObject
        [("message", JString "Öğrenci başarıyla güncellendi");
         ("changes", JNumber (num_ofNat (changes key table)))]));;
      mret table'
  end.

(** ** Sessions: the [transports] map and the two SSE endpoints *)

(** A transport is known to this code by its [sessionId] only. *)
Record SSEServerTransport := { sessionId : string }.

(** [req.query.sessionId] when present: a string, or what the query parser
    builds from repeated and bracketed parameters, an array or a plain
    object. The parser never gives an object a [toString] of its own, and
    the endpoints observe of an object only that it is one. *)
Local Unset Elimination Schemes.
Inductive QueryValue :=
| QString (s : string)
| QArray (items : list QueryValue)
| QObject.
Local Set Elimination Schemes.

(** [req?.query?.sessionId]; [None] is [undefined]. *)
Abbreviation Query := (option QueryValue).

Definition query_truthy (q : Query) : bool :=
  match q with
  | None => false
  | Some (QString s) => negb (String.eqb s "")
  | Some _ => true
  end.

(** The value as the log and the template literal see it. *)
Fixpoint query_value (v : QueryValue) : Value :=
  match v with
  | QString s => JString s
  | QArray items => JArray (map query_value items)
  | QObject => JObject []
  end.

Definition query_js (q : Query) : Value :=
  match q with
  | None => JUndefined
  | Some v => query_value v
  end.

(** [transports.get(key)]: the keys of the map are the strings stored by
    [transports.set(transport.sessionId, transport)], and no other value is
    the same as a string. *)
Definition transports_get (transports : gmap string SSEServerTransport) (key : Query)
    : option SSEServerTransport :=
  match key with
  | Some (QString s) => transports !! s
  | _ => None
  end.

(** [transport?.sessionId] *)
Definition optional_sessionId (t : option SSEServerTransport) : Value :=
  match t with
  | Some t => JString (sessionId t)
  | None => JUndefined
  end.

(** [cleanup()]: the function returned by [createMCPServer] has an empty
    body; the event records that it ran. *)
Definition cleanup : Eff unit := emit Cleanup.

(** [app.get("/sse")]. [newSessionId] is the identifier that
    [new SSEServerTransport("/message", res)] draws. The result is the map
    after the request; on the first branch the handler ends without any
    response. *)
Definition get_sse (transports : gmap string SSEServerTransport) (q : Query)
    (newSessionId : string) : Eff (gmap string SSEServerTransport) :=
  if query_truthy q then
    let transport := transports_get transports q in
    emit (ConsoleError [JString "Client Reconnecting? This shouldn't happen";
                        optional_sessionId transport]);;
    mret transports
  else
    let transport := {| sessionId := newSessionId |} in
    let transports := <[sessionId transport := transport]> transports in
    emit (Connect (sessionId transport));;
    emit (ConsoleError [JString "Client Connected: "; JString (sessionId transport)]);;
    mret transports.

(** [server.onclose], as installed for [transport] by [get_sse]. *)
Definition onclose (transport : SSEServerTransport)
    (transports : gmap string SSEServerTransport) : Eff (gmap string SSEServerTransport) :=
  emit (ConsoleError [JString "Client Disconnected: "; JString (sessionId transport)]);;
  let transports := delete (sessionId transport) transports in
  cleanup;;
  mret transports.

(** [app.post("/message")] *)
Definition post_message (transports : gmap string SSEServerTransport) (q : Query)
    (body : Value) : Eff (gmap string SSEServerTransport) :=
  match transports_get transports q with
  | Some transport =>
      emit (ConsoleError [JString "Client Message from"; query_js q]);;
      emit (HandlePostMessage (sessionId transport) body);;
      mret transports
  | None =>
      s ← template (query_js q);
      emit (ConsoleError [JString ("No transport found for sessionId " +:+ s)]);;
      respond_error 404 "Session not found";;
      mret transports
  end.

End Server.

Arguments SqlValue Num : clear implicits.
Arguments Ogrenci Num : clear implicits.

End App.

(** * [src/mcp-server.js]: the stdio server that forwards to the REST API *)

Module McpServer.

(** ** The tool list *)

(** The [type] of a property in an [inputSchema] literal. *)
Inductive JsonType :=
| integer
| string_
| boolean
| array_of (items : JsonType).

Record Property := { key : string; type_ : JsonType; description_ : string }.

(** [{ type: 'object', properties, required }]; [required] is [None] where
    the literal has no such key. *)
Record ObjectSchema := { properties : list Property; required : option (list string) }.

Record Tool := { name : string; description : string; inputSchema : ObjectSchema }.

(** The [ListToolsRequestSchema] handler. *)
Definition tools : list Tool :=
  [
    {| name := "get_all_students";
       description := "Tüm aktif öğrencileri sınıf bilgileriyle birlikte getir";
       inputSchema :=
         {| properties :=
           [];
            required := None |} |};
    {| name := "get_student_by_id";
       description := "ID ile öğrenci bilgilerini getir";
       inputSchema :=
         {| properties :=
           [{| key := "id"; type_ := integer; description_ := "Öğrenci ID" |}];
            required := Some ["id"] |} |};
    {| name := "get_student_grades";
       description := "Öğrencinin notlarını getir";
       inputSchema :=
         {| properties :=
           [{| key := "id"; type_ := integer; description_ := "Öğrenci ID" |}];
            required := Some ["id"] |} |};
    {| name := "get_student_attendance";
       description := "Öğrencinin devamsızlık bilgilerini getir";
       inputSchema :=
         {| properties :=
           [{| key := "id"; type_ := integer; description_ := "Öğrenci ID" |}];
            required := Some ["id"] |} |};
    {| name := "get_student_payments";
       description := "Öğrencinin ödeme bilgilerini getir";
       inputSchema :=
         {| properties :=
           [{| key := "id"; type_ := integer; description_ := "Öğrenci ID" |}];
            required := Some ["id"] |} |};
    {| name := "get_students_by_class";
       description := "Sınıfa göre öğrencileri getir";
       inputSchema :=
         {| properties :=
           [{| key := "sinif_id"; type_ := integer; description_ := "Sınıf ID" |}];
            required := Some ["sinif_id"] |} |};
    {| name := "search_students";
       description := "Öğrenci ara (isim, soyisim, TC)";
       inputSchema :=
         {| properties :=
           [{| key := "search"; type_ := string_; description_ := "Arama terimi" |}];
            required := Some ["search"] |} |};
    {| name := "get_student_average";
       description := "Öğrencinin not ortalamasını getir";
       inputSchema :=
         {| properties :=
           [{| key := "id"; type_ := integer; description_ := "Öğrenci ID" |}];
            required := Some ["id"] |} |};
    {| name := "add_student";
       description := "Yeni öğrenci ekle";
       inputSchema :=
         {| properties :=
           [{| key := "tc_no"; type_ := string_; description_ := "TC Kimlik No" |};
            {| key := "ad"; type_ := string_; description_ := "Ad" |};
            {| key := "soyad"; type_ := string_; description_ := "Soyad" |};
            {| key := "dogum_tarihi"; type_ := string_; description_ := "Doğum Tarihi (YYYY-MM-DD)" |};
            {| key := "cinsiyet"; type_ := string_; description_ := "Cinsiyet (E/K)" |};
            {| key := "telefon"; type_ := string_; description_ := "Telefon" |};
            {| key := "email"; type_ := string_; description_ := "Email" |};
            {| key := "adres"; type_ := string_; description_ := "Adres" |};
            {| key := "veli_adi"; type_ := string_; description_ := "Veli Adı" |};
            {| key := "veli_telefonu"; type_ := string_; description_ := "Veli Telefonu" |};
            {| key := "sinif_id"; type_ := integer; description_ := "Sınıf ID" |}];
            required := Some ["tc_no"; "ad"; "soyad"; "dogum_tarihi"; "cinsiyet"] |} |};
    {| name := "update_student";
       description := "Öğrenci bilgilerini güncelle";
       inputSchema :=
         {| properties :=
           [{| key := "id"; type_ := integer; description_ := "Öğrenci ID" |};
            {| key := "tc_no"; type_ := string_; description_ := "TC Kimlik No" |};
            {| key := "ad"; type_ := string_; description_ := "Ad" |};
            {| key := "soyad"; type_ := string_; description_ := "Soyad" |};
            {| key := "dogum_tarihi"; type_ := string_; description_ := "Doğum Tarihi (YYYY-MM-DD)" |};
            {| key := "cinsiyet"; type_ := string_; description_ := "Cinsiyet (E/K)" |};
            {| key := "telefon"; type_ := string_; description_ := "Telefon" |};
            {| key := "email"; type_ := string_; description_ := "Email" |};
            {| key := "adres"; type_ := string_; description_ := "Adres" |};
            {| key := "veli_adi"; type_ := string_; description_ := "Veli Adı" |};
            {| key := "veli_telefonu"; type_ := string_; description_ := "Veli Telefonu" |};
            {| key := "sinif_id"; type_ := integer; description_ := "Sınıf ID" |};
            {| key := "aktif"; type_ := boolean; description_ := "Aktif durumu" |}];
            required := Some ["id"] |} |};
    {| name := "delete_student";
       description := "Öğrenci sil (soft delete)";
       inputSchema :=
         {| properties :=
           [{| key := "id"; type_ := integer; description_ := "Öğrenci ID" |}];
            required := Some ["id"] |} |};
    {| name := "custom_query";
       description := "Özel SELECT sorgusu çalıştır";
       inputSchema :=
         {| properties :=
           [{| key := "query"; type_ := string_; description_ := "SQL SELECT sorgusu" |};
            {| key := "params"; type_ := (array_of string_); description_ := "Sorgu parametreleri" |}];
            required := Some ["query"] |} |} ].


(** ** The tool call handler *)

(** The [case] labels of the [switch (name)], in source order. *)
Inductive Case :=
| case_get_all_students
| case_get_student_by_id
| case_get_student_grades
| case_get_student_attendance
| case_get_student_payments
| case_get_students_by_class
| case_search_students
| case_get_student_average
| case_add_student
| case_update_student
| case_delete_student
| case_custom_query.

(** The label of each [case] clause, in source order. *)
Definition labels : list (string * Case) :=
  [ ("get_all_students", case_get_all_students);
    ("get_student_by_id", case_get_student_by_id);
    ("get_student_grades", case_get_student_grades);
    ("get_student_attendance", case_get_student_attendance);
    ("get_student_payments", case_get_student_payments);
    ("get_students_by_class", case_get_students_by_class);
    ("search_students", case_search_students);
    ("get_student_average", case_get_student_average);
    ("add_student", case_add_student);
    ("update_student", case_update_student);
    ("delete_student", case_delete_student);
    ("custom_query", case_custom_query) ].

(** Clause selection: the first clause whose label is strictly equal to
    [name], [None] for the [default] clause. *)
Definition switch (name : string) : option Case :=
  snd <$> List.find (λ l, String.eqb name (fst l)) labels.

Section Server.
Context {Num : Type} `{!JsEngine Num}.

Abbreviation Value := (JsValue Num).
Abbreviation Eff := (M Num).

(** [process.env.API_BASE_URL || 'http://localhost:3000/api'] *)
Variable API_BASE_URL : string.

(** The HTTP client as an oracle: a request answers with [response.data],
    or fails with an error given by its [message]. A request without a body
    carries [undefined]. *)
Variable axios : HttpMethod → string → Value → string + Value.

Definition request (method : HttpMethod) (url : string) (body : Value) : Eff Value :=
  emit (HttpCall method url body);;
  match axios method url body with
  | inl err => throw (Error err)
  | inr data => mret data
  end.

(** The body of the [try] block. *)
Definition call_body (name : string) (args : Value) : Eff CallToolResult :=
  match switch name with
  | Some case_get_all_students =>
      allStudents ← request HttpGet (API_BASE_URL +:+ "/ogrenciler") JUndefined;
      mret (json_result allStudents)
  | Some case_get_student_by_id =>
      id ← get args "id";
      id ← template id;
      student ← request HttpGet (API_BASE_URL +:+ "/ogrenciler/" +:+ id) JUndefined;
      mret (json_result student)
  | Some case_get_student_grades =>
      id ← get args "id";
      id ← template id;
      grades ← request HttpGet (API_BASE_URL +:+ "/ogrenciler/" +:+ id +:+ "/notlar") JUndefined;
      mret (json_result grades)
  | Some case_get_student_attendance =>
      id ← get args "id";
      id ← template id;
      attendance ←
        request HttpGet (API_BASE_URL +:+ "/ogrenciler/" +:+ id +:+ "/devamsizlik") JUndefined;
      mret (json_result attendance)
  | Some case_get_student_payments =>
      id ← get args "id";
      id ← template id;
      payments ←
        request HttpGet (API_BASE_URL +:+ "/ogrenciler/" +:+ id +:+ "/odemeler") JUndefined;
      mret (json_result payments)
  | Some case_get_students_by_class =>
      sinif_id ← get args "sinif_id";
      sinif_id ← template sinif_id;
      classStudents ←
        request HttpGet (API_BASE_URL +:+ "/siniflar/" +:+ sinif_id +:+ "/ogrenciler") JUndefined;
      mret (json_result classStudents)
  | Some case_search_students =>
      search ← get args "search";
      search ← template search;
      searchResults ←
        request HttpGet (API_BASE_URL +:+ "/ogrenciler/ara/" +:+ search) JUndefined;
      mret (json_result searchResults)
  | Some case_get_student_average =>
      id ← get args "id";
      id ← template id;
      average ←
        request HttpGet (API_BASE_URL +:+ "/ogrenciler/" +:+ id +:+ "/ortalama") JUndefined;
      mret (json_result average)
  | Some case_add_student =>
      newStudent ← request HttpPost (API_BASE_URL +:+ "/ogrenciler") args;
      mret (json_result newStudent)
  | Some case_update_student =>
      id ← get args "id";
      id ← template id;
      updatedStudent ← request HttpPut (API_BASE_URL +:+ "/ogrenciler/" +:+ id) args;
      mret (json_result updatedStudent)
  | Some case_delete_student =>
      id ← get args "id";
      id ← template id;
      deletedStudent ← request HttpDelete (API_BASE_URL +:+ "/ogrenciler/" +:+ id) JUndefined;
      mret (json_result deletedStudent)
  | Some case_custom_query =>
      query ← get args "query";
      params ← get args "params";
      let params := if truthy params then params else JArray [] in
      customResult ←
        request HttpPost (API_BASE_URL +:+ "/custom-query")
          (JObject [("query", query); ("params", params)]);
      mret (json_result customResult)
  | None => throw (Error ("Bilinmeyen araç: " +:+ name))
  end.

(** The [catch (error)] clause. *)
Definition error_result (error : Exn) : CallToolResult :=
  {| content := [ {| type := "text"; text := "Hata: " +:+ message error |} ];
     isError := Some true |}.

(** The [CallToolRequestSchema] handler, for [request.params] equal to
    [{ name, arguments: args }]. *)
Definition callTool (name : string) (args : Value) : Eff CallToolResult :=
  try_catch (call_body name args) (λ error, mret (error_result error)).

End Server.
End McpServer.

(** * An engine over the integers, to run the model on concrete inputs

    Numbers are integers, [trim] and [toUpperCase] act on ASCII, a mean is
    rounded down. The theorems below hold for every engine; this one
    evaluates the examples. *)

Module Engine.

Definition isSpace (c : ascii) : bool :=
  let n := nat_of_ascii c in
  (Nat.leb 9 n && Nat.leb n 13) || Nat.eqb n 32.

Fixpoint dropSpaces (l : list ascii) : list ascii :=
  match l with
  | c :: rest => if isSpace c then dropSpaces rest else l
  | [] => []
  end.

Definition trim (s : string) : string :=
  string_of_list_ascii
    (rev (dropSpaces (rev (dropSpaces (list_ascii_of_string s))))).

Definition upper (c : ascii) : ascii :=
  let n := nat_of_ascii c in
  if Nat.leb 97 n && Nat.leb n 122 then ascii_of_nat (n - 32) else c.

Fixpoint toUpperCase (s : string) : string :=
  match s with
  | EmptyString => EmptyString
  | String c rest => String (upper c) (toUpperCase rest)
  end.

Definition Z_toString (z : Z) : string := NilEmpty.string_of_int (Z.to_int z).

Fixpoint stringify (indent : string) (v : JsValue Z) {struct v} : string :=
  let inner := indent +:+ "  " in
  match v with
  | JUndefined | JNull => "null"
  | JBool b => if b then "true" else "false"
  | JNumber n => Z_toString n
  | JString s => json_quote s
  | JArray [] => "[]"
  | JArray items =>
      "[" +:+ nl +:+ join ("," +:+ nl) (map (λ x, inner +:+ stringify inner x) items)
      +:+ nl +:+ indent +:+ "]"
  | JObject props =>
      match
        (fix members (l : list (string * JsValue Z)) : list string :=
           match l with
           | [] => []
           | (k, JUndefined) :: rest => members rest
           | (k, x) :: rest =>
               (inner +:+ json_quote k +:+ ": " +:+ stringify inner x) :: members rest
           end) props
      with
      | [] => "{}"
      | ms => "{" +:+ nl +:+ join ("," +:+ nl) ms +:+ nl +:+ indent +:+ "}"
      end
  end.

Definition ders_ortalama (row : JsValue Z) : Z :=
  match row with
  | JObject props =>
      match lookup_prop "ders_ortalama" props with JNumber n => n | _ => 0%Z end
  | _ => 0%Z
  end.

Definition mean (rows : list (JsValue Z)) : Z :=
  match rows with
  | [] => 0%Z
  | _ => (fold_left (λ sum row, sum + ders_ortalama row) rows 0 / Z.of_nat (length rows))%Z
  end.

#[global] Instance engine : JsEngine Z := {|
  num_isNaN := λ _, false;
  num_isZero := λ n, Z.eqb n 0;
  num_toString := Z_toString;
  str_trim := trim;
  str_toUpperCase := toUpperCase;
  JSON_stringify := stringify "";
  rows_mean := mean;
  num_toFixed2 := λ n, Z_toString n +:+ ".00";
  num_ofNat := Z.of_nat;
|}.

(** A store without rows, and one whose every statement fails. *)
Definition no_rows : Database Z :=
  {| db_all := λ _ _, inr []; db_get := λ _ _, inr None |}.

Definition failing : Database Z :=
  {| db_all := λ _ _, inl "SQLITE_ERROR"; db_get := λ _ _, inl "SQLITE_ERROR" |}.

(** A REST API that answers every request with [{ data: [] }]. *)
Definition api_ok : HttpMethod → string → JsValue Z → string + JsValue Z :=
  λ _ _ _, inr (JObject [("data", JArray [])]).

(** A REST API that answers every request with the status 404, as the HTTP
    client reports it. *)
Definition api_404 : HttpMethod → string → JsValue Z → string + JsValue Z :=
  λ _ _ _, inl "Request failed with status code 404".

End Engine.

(** * [src/app.js]: the other REST routes and the routing table *)

Module Rest.

(** ** The statements of the routes, verbatim *)

Definition SQL_ogrenciler : string :=
"
    SELECT 
      o.*,
      s.sinif_adi,
      s.seviye
    FROM ogrenciler o
    LEFT JOIN siniflar s ON o.sinif_id = s.id
    WHERE o.aktif = 1
    ORDER BY o.ad, o.soyad
  ".

Definition SQL_ogrenci : string :=
"
    SELECT 
      o.*, 
      s.sinif_adi,
      s.seviye
    FROM ogrenciler o
    LEFT JOIN siniflar s ON o.sinif_id = s.id
    WHERE o.id = ?
  ".

Definition SQL_notlar : string :=
"
    SELECT 
      n.*, 
      d.ders_adi,
      d.kod as ders_kodu
    FROM notlar n
    JOIN dersler d ON n.ders_id = d.id
    WHERE n.ogrenci_id = ?
    ORDER BY n.tarih DESC
  ".

Definition SQL_devamsizlik : string :=
"
    SELECT 
      d.*, 
      dr.ders_adi,
      dr.kod as ders_kodu
    FROM devamsizlik d
    JOIN dersler dr ON d.ders_id = dr.id
    WHERE d.ogrenci_id = ?
    ORDER BY d.tarih DESC
  ".

Definition SQL_odemeler : string :=
"
    SELECT *
    FROM odemeler
    WHERE ogrenci_id = ?
    ORDER BY tarih DESC
  ".

Definition SQL_sinif_ogrenciler : string :=
"
    SELECT 
      o.*, 
      s.sinif_adi,
      s.seviye
    FROM ogrenciler o
    JOIN siniflar s ON o.sinif_id = s.id
    WHERE o.sinif_id = ? AND o.aktif = 1
    ORDER BY o.ad, o.soyad
  ".

Definition SQL_ara : string :=
"
    SELECT 
      o.*, 
      s.sinif_adi,
      s.seviye
    FROM ogrenciler o
    LEFT JOIN siniflar s ON o.sinif_id = s.id
    WHERE (o.ad LIKE ? OR o.soyad LIKE ? OR o.tc_no LIKE ?)
    AND o.aktif = 1
    ORDER BY o.ad, o.soyad
  ".

Definition SQL_sil : string :=
"UPDATE ogrenciler SET aktif = 0 WHERE id = ?".

Section Routes.
Context {Num : Type} `{!JsEngine Num}.
Variable db : Database Num.

(** The callback that six of the read routes pass to [db.all]. *)
Definition rows_route (sql : string) (params : list (JsValue Num)) : M Num unit :=
  emit (DbCall DbAll sql (JArray params));;
  match db_all db sql (JArray params) with
  | inl err => App.respond_error 500 err
  | inr rows => emit (Respond 200 (App.data_object (JArray rows)))
  end.

(** [app.get('/api/ogrenciler')] *)
Definition get_ogrenciler : M Num unit := rows_route SQL_ogrenciler [].

(** [app.get('/api/ogrenciler/:id')], for [req.params.id] *)
Definition get_ogrenci (id : string) : M Num unit :=
  emit (DbCall DbGet SQL_ogrenci (JArray [JString id]));;
  match db_get db SQL_ogrenci (JArray [JString id]) with
  | inl err => App.respond_error 500 err
  | inr None => App.respond_error 404 "Öğrenci bulunamadı"
  | inr (Some row) => emit (Respond 200 (App.data_object row))
  end.

(** [app.get('/api/ogrenciler/:id/notlar')] *)
Definition get_notlar (id : string) : M Num unit := rows_route SQL_notlar [JString id].

(** [app.get('/api/ogrenciler/:id/devamsizlik')] *)
Definition get_devamsizlik (id : string) : M Num unit :=
  rows_route SQL_devamsizlik [JString id].

(** [app.get('/api/ogrenciler/:id/odemeler')] *)
Definition get_odemeler (id : string) : M Num unit := rows_route SQL_odemeler [JString id].

(** [app.get('/api/siniflar/:sinifId/ogrenciler')] *)
Definition get_sinif_ogrenciler (sinifId : string) : M Num unit :=
  rows_route SQL_sinif_ogrenciler [JString sinifId].

(** [app.get('/api/ogrenciler/ara/:search')] *)
Definition get_ara (search : string) : M Num unit :=
  let searchTerm := JString ("%" +:+ search +:+ "%") in
  rows_route SQL_ara [searchTerm; searchTerm; searchTerm].

(** [app.get('/')] *)
Definition get_root : M Num unit :=
  emit (Respond 200 (JObject [("status", JString "ok"); ("name", JString "student-api-mcp")])).

(** [app.post('/register')] *)
Definition post_register : M Num unit :=
  emit (Respond 200 (JObject [("result", JString "ok")])).

(** [app.get('/.well-known/oauth-authorization-server')] *)
Definition get_oauth_authorization_server : M Num unit :=
  emit (Respond 200 (JObject [])).

(** *** The soft delete, on the table of the update route *)

Variable sql_eq : App.SqlValue Num → App.SqlValue Num → bool.
Variable constraint_error : list (App.Ogrenci Num) → option string.

(** The row that [SET aktif = 0] leaves in place of [r]. *)
Definition deactivate (r : App.Ogrenci Num) : App.Ogrenci Num :=
  {| App.id := App.id r;
     App.tc_no := App.tc_no r; App.ad := App.ad r; App.soyad := App.soyad r;
     App.dogum_tarihi := App.dogum_tarihi r; App.cinsiyet := App.cinsiyet r;
     App.telefon := App.telefon r; App.email := App.email r; App.adres := App.adres r;
     App.veli_adi := App.veli_adi r; App.veli_telefonu := App.veli_telefonu r;
     App.sinif_id := App.sinif_id r; App.aktif := App.SqlInteger 0 |}.

(** [UPDATE ogrenciler SET aktif = 0 WHERE id = ?] on a table. *)
Definition update_aktif (key : App.SqlValue Num) (table : list (App.Ogrenci Num))
    : list (App.Ogrenci Num) :=
  map (λ r, if sql_eq (App.id r) key then deactivate r else r) table.

(** [app.delete('/api/ogrenciler/:id')], for [req.params.id]; it returns the
    table the store holds afterwards. *)
Definition delete_ogrenci (table : list (App.Ogrenci Num)) (id_param : string)
    : M Num (list (App.Ogrenci Num)) :=
  emit (DbCall DbRun SQL_sil (JArray [JString id_param]));;
  let key := App.SqlText id_param in
  let table' := update_aktif key table in
  match constraint_error table' with
  | Some err =>
      App.respond_error 500 err;;
      mret table
  | None =>
      emit (Respond 200 (JObject
        [("message", JString "Öğrenci başarıyla silindi");
         ("changes", JNumber (num_ofNat (App.changes sql_eq key table)))]));;
      mret table'
  end.

End Routes.

(** ** The routing table

    Express tries the registered routes in the order of their registration.
    A route is first matched on the path alone: a pattern is a list of
    segments; a literal segment matches the same segment of the request
    path, letters compared without regard to ASCII case (the default of
    Express), and a parameter matches any segment that is not empty. When
    the path matches, the captured segments are decoded with
    [decodeURIComponent]; a segment that does not decode ends the routing
    with the status 400, whatever the method of the route, and no handler
    runs. A route whose path matched and decoded is run when its method is
    that of the request, and otherwise passed over. The request path is
    given by its segments as they were sent, without a trailing slash. *)

Inductive Segment :=
| lit (s : string)
| param (name : string).

(** The registrations of the file, named after their paths. *)
Inductive Endpoint :=
| ep_ogrenciler
| ep_ogrenci
| ep_notlar
| ep_devamsizlik
| ep_odemeler
| ep_sinif_ogrenciler
| ep_ara
| ep_ortalama
| ep_ogrenci_ekle
| ep_ogrenci_guncelle
| ep_ogrenci_sil
| ep_custom_query
| ep_sse
| ep_message
| ep_root
| ep_register
| ep_oauth_authorization_server.

(** [app.get], [app.post], [app.put] and [app.delete], in source order. *)
Definition registrations : list (HttpMethod * list Segment * Endpoint) :=
  [ (HttpGet, [lit "api"; lit "ogrenciler"], ep_ogrenciler);
    (HttpGet, [lit "api"; lit "ogrenciler"; param "id"], ep_ogrenci);
    (HttpGet, [lit "api"; lit "ogrenciler"; param "id"; lit "notlar"], ep_notlar);
    (HttpGet, [lit "api"; lit "ogrenciler"; param "id"; lit "devamsizlik"], ep_devamsizlik);
    (HttpGet, [lit "api"; lit "ogrenciler"; param "id"; lit "odemeler"], ep_odemeler);
    (HttpGet, [lit "api"; lit "siniflar"; param "sinifId"; lit "ogrenciler"],
     ep_sinif_ogrenciler);
    (HttpGet, [lit "api"; lit "ogrenciler"; lit "ara"; param "search"], ep_ara);
    (HttpGet, [lit "api"; lit "ogrenciler"; param "id"; lit "ortalama"], ep_ortalama);
    (HttpPost, [lit "api"; lit "ogrenciler"], ep_ogrenci_ekle);
    (HttpPut, [lit "api"; lit "ogrenciler"; param "id"], ep_ogrenci_guncelle);
    (HttpDelete, [lit "api"; lit "ogrenciler"; param "id"], ep_ogrenci_sil);
    (HttpPost, [lit "api"; lit "custom-query"], ep_custom_query);
    (HttpGet, [lit "sse"], ep_sse);
    (HttpPost, [lit "message"], ep_message);
    (HttpGet, [], ep_root);
    (HttpPost, [lit "register"], ep_register);
    (HttpGet, [lit ".well-known"; lit "oauth-authorization-server"],
     ep_oauth_authorization_server) ].

Definition fold_ascii (c : ascii) : ascii :=
  let n := nat_of_ascii c in
  if Nat.leb 65 n && Nat.leb n 90 then ascii_of_nat (n + 32) else c.

Fixpoint fold_case (s : string) : string :=
  match s with
  | EmptyString => EmptyString
  | String c rest => String (fold_ascii c) (fold_case rest)
  end.

Definition same_literal (literal segment : string) : bool :=
  String.eqb (fold_case literal) (fold_case segment).

(** What matching one route on a path gives: no match, a match with a
    segment that does not decode, or [req.params]. *)
Inductive Match :=
| no_match
| bad_param
| matched (params : list (string * string)).

(** Where a request ends: in a handler, with its [req.params]; with the
    status 400 of a parameter that does not decode; or with no route. *)
Inductive Routing :=
| routed (endpoint : Endpoint) (params : list (string * string))
| bad_request
| not_found.

Definition method_eqb (a b : HttpMethod) : bool :=
  match a, b with
  | HttpGet, HttpGet | HttpPost, HttpPost | HttpPut, HttpPut | HttpDelete, HttpDelete => true
  | _, _ => false
  end.

Section Routing.

(** [decodeURIComponent] of the engine; [None] when it throws. *)
Variable decodeURIComponent : string → option string.

Fixpoint match_path (pattern : list Segment) (path : list string) : Match :=
  match pattern, path with
  | [], [] => matched []
  | lit s :: pattern', x :: path' =>
      if same_literal s x then match_path pattern' path' else no_match
  | param name :: pattern', x :: path' =>
      if String.eqb x "" then no_match
      else
        match match_path pattern' path' with
        | no_match => no_match
        | bad_param => bad_param
        | matched params =>
            match decodeURIComponent x with
            | Some v => matched ((name, v) :: params)
            | None => bad_param
            end
        end
  | _, _ => no_match
  end.

Fixpoint first_match (rs : list (HttpMethod * list Segment * Endpoint))
    (method : HttpMethod) (path : list string) : Routing :=
  match rs with
  | [] => not_found
  | (m, pattern, ep) :: rest =>
      match match_path pattern path with
      | no_match => first_match rest method path
      | bad_param => bad_request
      | matched params =>
          if method_eqb m method then routed ep params
          else first_match rest method path
      end
  end.

(** Where a request with this method and path ends. *)
Definition route (method : HttpMethod) (path : list string) : Routing :=
  first_match registrations method path.

End Routing.

End Rest.

(** * [src/unnamed/part_000]: the server with the two sample tools

    This file has the REST routes and the session endpoints of
    [src/app.js]; its tool handlers differ. They refer to [EchoSchema] and
    [AddSchema], which the file neither declares nor imports. *)

Module Part000.

Module ToolName.
Definition ECHO : string := "echo".
Definition ADD : string := "add".
Definition GET_ALL_STUDENTS : string := "get_all_students".
Definition GET_STUDENT_BY_ID : string := "get_student_by_id".
Definition GET_STUDENT_GRADES : string := "get_student_grades".
Definition GET_STUDENT_ATTENDANCE : string := "get_student_attendance".
Definition GET_STUDENT_PAYMENTS : string := "get_student_payments".
Definition GET_STUDENTS_BY_CLASS : string := "get_students_by_class".
Definition SEARCH_STUDENTS : string := "search_students".
Definition GET_STUDENT_AVERAGE : string := "get_student_average".
Definition ADD_STUDENT : string := "add_student".
Definition UPDATE_STUDENT : string := "update_student".
Definition DELETE_STUDENT : string := "delete_student".
Definition CUSTOM_QUERY : string := "custom_query".
End ToolName.

Module PromptName.
Definition SIMPLE : string := "simple_prompt".
End PromptName.

Section Server.
Context {Num : Type} `{!JsEngine Num}.
Variable db : Database Num.

(** The operator [+] of the engine, on two values. *)
Variable plus : JsValue Num → JsValue Num → JsValue Num.

(** The top-level declarations of the file. *)
Definition module_scope : list (string * JsValue Num) :=
  map App.opaque
    [ "express"; "sqlite3"; "Server"; "SSEServerTransport";
      "CallToolRequestSchema"; "ListPromptsRequestSchema";
      "ListToolsRequestSchema"; "GetPromptRequestSchema";
      "fileURLToPath"; "dirname"; "join"; "readFileSync"; "z"; "zodToJsonSchema";
      "__filename"; "__dirname"; "instructions"; "app"; "db";
      "StudentSchema"; "ToolName"; "PromptName"; "getAllStudents";
      "createMCPServer"; "transports"; "PORT" ].

(** The scope chain inside a request handler: its own names, those of
    [createMCPServer], the module's. *)
Definition handler_scope (locals : list (string * JsValue Num)) : list (string * JsValue Num) :=
  locals ++ map App.opaque ["server"; "cleanup"] ++ module_scope.

(** The argument of [zodToJsonSchema]: a schema written in place, or the
    value of an identifier. *)
Inductive SchemaArgument :=
| inline (schema : ZodType)
| value (v : JsValue Num).

Inductive InputSchema :=
| EmptyObject
| zodToJsonSchema (schema : SchemaArgument).

Record Tool := { name : string; description : string; inputSchema : InputSchema }.

(** The [ListToolsRequestSchema] handler: the array literal is built
    element by element, each identifier resolved when it is reached. *)
Definition listTools : M Num (list Tool) :=
  let scope := handler_scope [] in
  EchoSchema ← App.resolve scope "EchoSchema";
  AddSchema ← App.resolve scope "AddSchema";
  mret
    [ {| name := ToolName.ECHO;
         description := "Echoes back the input";
         inputSchema := zodToJsonSchema (value EchoSchema) |};
      {| name := ToolName.ADD;
         description := "Adds two numbers";
         inputSchema := zodToJsonSchema (value AddSchema) |};
      {| name := ToolName.GET_ALL_STUDENTS;
         description := "Tüm aktif öğrencileri sınıf bilgileriyle birlikte getir";
         inputSchema := EmptyObject |};
      {| name := ToolName.GET_STUDENT_BY_ID;
         description := "ID ile öğrenci bilgilerini getir";
         inputSchema := zodToJsonSchema (inline (ZodObject [("id", ZodNumber)])) |} ].

(** [v.m(...)] for a value [v] that is described by JSON: it has no
    property that can be called. *)
Definition call_method (v : JsValue Num) (expression m : string) : M Num (JsValue Num) :=
  match v with
  | JUndefined =>
      throw (TypeError ("Cannot read properties of undefined (reading '" +:+ m +:+ "')"))
  | JNull =>
      throw (TypeError ("Cannot read properties of null (reading '" +:+ m +:+ "')"))
  | _ => throw (TypeError (expression +:+ "." +:+ m +:+ " is not a function"))
  end.

Inductive Case :=
| case_ECHO
| case_ADD
| case_GET_ALL_STUDENTS.

(** The label expression of each [case] clause, in source order. *)
Definition labels : list (string * Case) :=
  [ (ToolName.ECHO, case_ECHO);
    (ToolName.ADD, case_ADD);
    (ToolName.GET_ALL_STUDENTS, case_GET_ALL_STUDENTS) ].

Definition switch (name : string) : option Case :=
  snd <$> List.find (λ l, String.eqb name (fst l)) labels.

(** The body of the [try] block of the [CallToolRequestSchema] handler. *)
Definition call_body (name : string) (args : JsValue Num) : M Num CallToolResult :=
  let scope :=
    handler_scope [("request", JObject [("params",
                      JObject [("name", JString name); ("arguments", args)])]);
                   ("name", JString name); ("args", args)] in
  match switch name with
  | Some case_ECHO =>
      EchoSchema ← App.resolve scope "EchoSchema";
      validatedEchoArgs ← call_method EchoSchema "EchoSchema" "parse";
      message ← get validatedEchoArgs "message";
      message ← template message;
      mret {| content := [ {| type := "text"; text := "Echo: " +:+ message |} ];
              isError := None |}
  | Some case_ADD =>
      AddSchema ← App.resolve scope "AddSchema";
      validatedAddArgs ← call_method AddSchema "AddSchema" "parse";
      a ← get validatedAddArgs "a";
      b ← get validatedAddArgs "b";
      let sum := plus a b in
      a ← template a;
      b ← template b;
      sum ← template sum;
      mret {| content := [ {| type := "text";
                              text := "The sum of " +:+ a +:+ " and " +:+ b
                                      +:+ " is " +:+ sum +:+ "." |} ];
              isError := None |}
  | Some case_GET_ALL_STUDENTS => App.getAllStudents db
  | None => throw (Error ("Unknown tool: " +:+ name))
  end.

(** The [CallToolRequestSchema] handler; its [catch] clause is that of
    [src/app.js]. *)
Definition callTool (name : string) (args : JsValue Num) : M Num CallToolResult :=
  try_catch (call_body name args) (λ error, mret (App.error_result error)).

(** ** Prompts *)

Record Prompt := { prompt_name : string; prompt_description : string }.

(** The [ListPromptsRequestSchema] handler. *)
Definition listPrompts : list Prompt :=
  [ {| prompt_name := PromptName.SIMPLE;
       prompt_description := "A prompt without arguments" |} ].

Record PromptMessage := { role : string; message_content : ContentBlock }.

(** The [GetPromptRequestSchema] handler, for [request.params.name]. It has
    no [try]: what it throws leaves the handler. *)
Definition getPrompt (name : string) : M Num (list PromptMessage) :=
  if String.eqb name PromptName.SIMPLE then
    mret [ {| role := "user";
              message_content :=
                {| type := "text";
                   text := "This is a simple prompt without arguments." |} |} ]
  else throw (Error ("Unknown prompt: " +:+ name)).

End Server.
End Part000.

(** Sample data for the routes: a store that holds one row whatever is
    asked, an addition on numbers, and a decoder of path segments. *)
Module Fixture.

Definition one_row : Database Z :=
  {| db_all := λ _ _, inr [JObject [("id", JNumber 1%Z)]];
     db_get := λ _ _, inr (Some (JObject [("id", JNumber 1%Z)])) |}.

Definition plus (a b : JsValue Z) : JsValue Z :=
  match a, b with
  | JNumber x, JNumber y => JNumber (x + y)%Z
  | _, _ => JUndefined
  end.

(** [decodeURIComponent] on strings of bytes: an escape [%XX] gives a
    byte, and the bytes of escapes outside ASCII must form well-formed
    UTF-8; any other character stands for itself. *)
Definition hex_value (c : ascii) : option nat :=
  let n := nat_of_ascii c in
  if Nat.leb 48 n && Nat.leb n 57 then Some (n - 48)
  else if Nat.leb 65 n && Nat.leb n 70 then Some (n - 55)
  else if Nat.leb 97 n && Nat.leb n 102 then Some (n - 87)
  else None.

Inductive Unit :=
| raw (c : ascii)
| escaped (byte : nat).

Fixpoint unescape (s : string) : option (list Unit) :=
  match s with
  | EmptyString => Some []
  | String "%" (String h (String l rest)) =>
      match hex_value h, hex_value l, unescape rest with
      | Some x, Some y, Some units => Some (escaped (16 * x + y) :: units)
      | _, _, _ => None
      end
  | String "%" _ => None
  | String c rest =>
      match unescape rest with
      | Some units => Some (raw c :: units)
      | None => None
      end
  end.

Definition between (lo hi b : nat) : bool := Nat.leb lo b && Nat.leb b hi.

Definition continuation (b : nat) : bool := between 128 191 b.

Definition two_bytes (b1 b2 : nat) : bool := between 194 223 b1 && continuation b2.

Definition three_bytes (b1 b2 b3 : nat) : bool :=
  (Nat.eqb b1 224 && between 160 191 b2
   || between 225 236 b1 && continuation b2
   || Nat.eqb b1 237 && between 128 159 b2
   || between 238 239 b1 && continuation b2)
  && continuation b3.

Definition four_bytes (b1 b2 b3 b4 : nat) : bool :=
  (Nat.eqb b1 240 && between 144 191 b2
   || between 241 243 b1 && continuation b2
   || Nat.eqb b1 244 && between 128 143 b2)
  && continuation b3 && continuation b4.

Fixpoint utf8 (units : list Unit) : option string :=
  match units with
  | [] => Some EmptyString
  | raw c :: rest => String c <$> utf8 rest
  | escaped b1 :: rest =>
      if Nat.ltb b1 128 then String (ascii_of_nat b1) <$> utf8 rest
      else
        match rest with
        | escaped b2 :: rest2 =>
            if two_bytes b1 b2
            then (λ s, String (ascii_of_nat b1) (String (ascii_of_nat b2) s)) <$> utf8 rest2
            else
              match rest2 with
              | escaped b3 :: rest3 =>
                  if three_bytes b1 b2 b3
                  then (λ s, String (ascii_of_nat b1) (String (ascii_of_nat b2)
                               (String (ascii_of_nat b3) s))) <$> utf8 rest3
                  else
                    match rest3 with
                    | escaped b4 :: rest4 =>
                        if four_bytes b1 b2 b3 b4
                        then (λ s, String (ascii_of_nat b1) (String (ascii_of_nat b2)
                                     (String (ascii_of_nat b3)
                                        (String (ascii_of_nat b4) s)))) <$> utf8 rest4
                        else None
                    | _ => None
                    end
              | _ => None
              end
        | _ => None
        end
  end.

Definition decodeURIComponent (s : string) : option string :=
  match unescape s with
  | Some units => utf8 units
  | None => None
  end.

End Fixture.

(** * Vocabulary of the statements *)

(** A decision procedure for [contains], to settle concrete texts. *)
Fixpoint occurs (needle hay : string) : bool :=
  String.prefix needle hay ||
  match hay with
  | EmptyString => false
  | String _ rest => occurs needle rest
  end.

(** What a schema declares, read as a predicate on values: a string, a
    number, an array of conforming elements, an optional value that may be
    [undefined], an object whose every declared key holds a conforming
    value (a missing key holds [undefined]). *)
Fixpoint conforms {Num} `{!JsEngine Num} (t : ZodType) (v : JsValue Num) {struct t} : bool :=
  match t with
  | ZodString => match v with JString _ => true | _ => false end
  | ZodNumber => match v with JNumber n => negb (num_isNaN n) | _ => false end
  | ZodArray element =>
      match v with JArray items => forallb (conforms element) items | _ => false end
  | ZodOptional inner =>
      match v with JUndefined => true | _ => conforms inner v end
  | ZodObject shape =>
      match v with
      | JObject props =>
          (fix fields (shape : list (string * ZodType)) : bool :=
             match shape with
             | [] => true
             | (k, tk) :: rest => conforms tk (lookup_prop k props) && fields rest
             end) shape
      | _ => false
      end
  end.

Definition is_Cleanup {Num} (ev : Event Num) : bool :=
  match ev with
  | Cleanup => true
  | _ => false
  end.

Definition is_DbCall {Num} (ev : Event Num) : bool :=
  match ev with
  | DbCall _ _ _ => true
  | _ => false
  end.

Definition is_Respond {Num} (status : nat) (ev : Event Num) : bool :=
  match ev with
  | Respond s _ => Nat.eqb s status
  | _ => false
  end.

(** The twelve columns that the update statement assigns. *)
Inductive Column :=
| c_tc_no | c_ad | c_soyad | c_dogum_tarihi | c_cinsiyet | c_telefon
| c_email | c_adres | c_veli_adi | c_veli_telefonu | c_sinif_id | c_aktif.

(** The body field that the route binds to a column. *)
Definition column_name (c : Column) : string :=
  match c with
  | c_tc_no => "tc_no" | c_ad => "ad" | c_soyad => "soyad"
  | c_dogum_tarihi => "dogum_tarihi" | c_cinsiyet => "cinsiyet"
  | c_telefon => "telefon" | c_email => "email" | c_adres => "adres"
  | c_veli_adi => "veli_adi" | c_veli_telefonu => "veli_telefonu"
  | c_sinif_id => "sinif_id" | c_aktif => "aktif"
  end.

Definition column {Num} (c : Column) (r : App.Ogrenci Num) : App.SqlValue Num :=
  match c with
  | c_tc_no => App.tc_no r | c_ad => App.ad r | c_soyad => App.soyad r
  | c_dogum_tarihi => App.dogum_tarihi r | c_cinsiyet => App.cinsiyet r
  | c_telefon => App.telefon r | c_email => App.email r | c_adres => App.adres r
  | c_veli_adi => App.veli_adi r | c_veli_telefonu => App.veli_telefonu r
  | c_sinif_id => App.sinif_id r | c_aktif => App.aktif r
  end.

(** A table of two students, a comparison that matches an integer key
    against its decimal text, and a schema without constraints. *)
Module Sample.

Definition row (key : Z) (name : string) : App.Ogrenci Z :=
  {| App.id := App.SqlInteger key;
     App.tc_no := App.SqlText "10000000000"; App.ad := App.SqlText name;
     App.soyad := App.SqlText "Kaya"; App.dogum_tarihi := App.SqlText "2010-01-01";
     App.cinsiyet := App.SqlText "E"; App.telefon := App.SqlNull;
     App.email := App.SqlNull; App.adres := App.SqlNull; App.veli_adi := App.SqlNull;
     App.veli_telefonu := App.SqlNull; App.sinif_id := App.SqlInteger 3;
     App.aktif := App.SqlInteger 1 |}.

Definition table : list (App.Ogrenci Z) := [row 1 "Ali"; row 2 "Ece"].

Definition sql_eq (a b : App.SqlValue Z) : bool :=
  match a, b with
  | App.SqlInteger x, App.SqlText s => String.eqb (Engine.Z_toString x) s
  | App.SqlInteger x, App.SqlInteger y => Z.eqb x y
  | App.SqlText s, App.SqlText s' => String.eqb s s'
  | _, _ => false
  end.

Definition unconstrained : list (App.Ogrenci Z) → option string := λ _, None.

(** A schema that declares [ad] NOT NULL. *)
Definition ad_not_null (table : list (App.Ogrenci Z)) : option string :=
  if forallb (λ r, match App.ad r with App.SqlNull => false | _ => true end) table
  then None
  else Some "SQLITE_CONSTRAINT: NOT NULL constraint failed: ogrenciler.ad".

(** [PUT /api/ogrenciler/1] with the body [{ "ad": "Veli" }]. *)
Definition put_result : M Z (list (App.Ogrenci Z)) :=
  Eval vm_compute in
    App.put_ogrenci sql_eq unconstrained table "1" (JObject [("ad", JString "Veli")]).

(** The session map with the one session "a1". *)
Definition one_session : gmap string App.SSEServerTransport :=
  <["a1" := {| App.sessionId := "a1" |}]> ∅.

End Sample.

(** * Vocabulary of the further properties *)

(** The calls of the tool functions that the dispatcher of [src/app.js]
    can make: each argument has the type its schema declares. *)
Inductive validated_call {Num} `{!JsEngine Num} (db : Database Num)
    : M Num CallToolResult → Prop :=
| call_getAllStudents :
    validated_call db (App.getAllStudents db)
| call_getStudentById n :
    num_isNaN n = false → validated_call db (App.getStudentById db (JNumber n))
| call_getStudentGrades n :
    num_isNaN n = false → validated_call db (App.getStudentGrades db (JNumber n))
| call_getStudentAttendance n :
    num_isNaN n = false → validated_call db (App.getStudentAttendance db (JNumber n))
| call_getStudentPayments n :
    num_isNaN n = false → validated_call db (App.getStudentPayments db (JNumber n))
| call_getStudentsByClass n :
    num_isNaN n = false → validated_call db (App.getStudentsByClass db (JNumber n))
| call_searchStudents s :
    validated_call db (App.searchStudents db (JString s))
| call_getStudentAverage n :
    num_isNaN n = false → validated_call db (App.getStudentAverage db (JNumber n))
| call_customQuery q params :
    params = JUndefined ∨ (∃ items, params = JArray (map JString items)) →
    validated_call db (App.customQuery db (JString q) params).

(** The entry of a tool function of [src/app.js] with arguments of the
    declared types. *)
Definition typed_entry {Num} `{!JsEngine Num} (fn : string) (fargs : list (JsValue Num))
    : Prop :=
  (fn = "getAllStudents" ∧ fargs = [])
  ∨ (In fn [ "getStudentById"; "getStudentGrades"; "getStudentAttendance";
             "getStudentPayments"; "getStudentsByClass"; "getStudentAverage" ]
     ∧ ∃ n, fargs = [JNumber n] ∧ num_isNaN n = false)
  ∨ (fn = "searchStudents" ∧ ∃ s, fargs = [JString s])
  ∨ (fn = "customQuery"
     ∧ ∃ q params,
         fargs = [JString q; params]
         ∧ (params = JUndefined ∨ ∃ items, params = JArray (map JString items))).

(** The eight statements that the tool functions of [src/app.js] hold. *)
Definition fixed_statements : list string :=
  [ App.SQL_getAllStudents; App.SQL_getStudentById; App.SQL_getStudentGrades;
    App.SQL_getStudentAttendance; App.SQL_getStudentPayments;
    App.SQL_getStudentsByClass; App.SQL_searchStudents; App.SQL_getStudentAverage ].

Definition is_any_Respond {Num} (ev : Event Num) : bool :=
  match ev with
  | Respond _ _ => true
  | _ => false
  end.

(** The parameters [customQuery] and the route hand to [db.all]: those of
    the caller, an empty array by default. *)
Definition query_params {Num} (params : JsValue Num) : JsValue Num :=
  match params with
  | JUndefined => JArray []
  | _ => params
  end.

(** The routes of [src/app.js] that read the store, or nothing, and answer:
    the seven read routes, the query route when the body has a query
    string, and the three fixed answers. *)
Inductive answering_route {Num} `{!JsEngine Num} (db : Database Num)
    : M Num unit → Prop :=
| route_ogrenciler : answering_route db (Rest.get_ogrenciler db)
| route_ogrenci id : answering_route db (Rest.get_ogrenci db id)
| route_notlar id : answering_route db (Rest.get_notlar db id)
| route_devamsizlik id : answering_route db (Rest.get_devamsizlik db id)
| route_odemeler id : answering_route db (Rest.get_odemeler db id)
| route_sinif_ogrenciler sinifId : answering_route db (Rest.get_sinif_ogrenciler db sinifId)
| route_ara search : answering_route db (Rest.get_ara db search)
| route_custom_query props q :
    lookup_prop "query" props = JString q →
    answering_route db (App.post_custom_query db (JObject props))
| route_root : answering_route db Rest.get_root
| route_register : answering_route db Rest.post_register
| route_oauth_authorization_server :
    answering_route db Rest.get_oauth_authorization_server.

(** The error a store call of a read method ends with, if any. *)
Definition store_error {Num} (db : Database Num) (ev : Event Num) : option string :=
  match ev with
  | DbCall DbAll sql ps =>
      match db_all db sql ps with inl msg => Some msg | inr _ => None end
  | DbCall DbGet sql ps =>
      match db_get db sql ps with inl msg => Some msg | inr _ => None end
  | _ => None
  end.

(** The session map is keyed by the identifiers of its transports. *)
Definition registry_ok (transports : gmap string App.SSEServerTransport) : Prop :=
  ∀ k t, transports !! k = Some t → App.sessionId t = k.

(** The session maps that the two endpoints and the close handler can
    produce from the empty map the process starts with. *)
Inductive reachable {Num} `{!JsEngine Num} : gmap string App.SSEServerTransport → Prop :=
| reach_start : reachable ∅
| reach_get_sse transports q newSessionId (events : list (Event Num)) transports' :
    reachable transports →
    App.get_sse transports q newSessionId = (events, Normal transports') →
    reachable transports'
| reach_onclose transports transport (events : list (Event Num)) transports' :
    reachable transports →
    App.onclose transport transports = (events, Normal transports') →
    reachable transports'
| reach_post_message transports q (body : JsValue Num) events transports' :
    reachable transports →
    App.post_message transports q body = (events, Normal transports') →
    reachable transports'.

Definition is_Connect {Num} (ev : Event Num) : bool :=
  match ev with
  | Connect _ => true
  | _ => false
  end.

(** The tools of [src/mcp-server.js] that only read. *)
Definition read_tools : list string :=
  [ "get_all_students"; "get_student_by_id"; "get_student_grades";
    "get_student_attendance"; "get_student_payments"; "get_students_by_class";
    "search_students"; "get_student_average" ].

(** What a request of the proxy for the tool [name], called with [args],
    can be: the method decides the tool and the body. *)
Definition request_shape {Num} `{!JsEngine Num} (name : string) (args : JsValue Num)
    (m : HttpMethod) (body : JsValue Num) : Prop :=
  match m with
  | HttpGet => In name read_tools ∧ body = JUndefined
  | HttpPost =>
      (name = "add_student" ∧ body = args)
      ∨ (name = "custom_query"
         ∧ ∃ query params,
             body = JObject [("query", query); ("params", params)]
             ∧ truthy params = true)
  | HttpPut => name = "update_student" ∧ body = args
  | HttpDelete => name = "delete_student" ∧ body = JUndefined
  end.

(** * Properties *)

(** ** The model at work *)

Example get_all_students_runs :
  App.callTool Engine.no_rows "get_all_students" JUndefined
  = ([ HandlerCall "getAllStudents" [];
       DbCall DbAll App.SQL_getAllStudents (JArray []) ],
     Normal (json_result (JObject [("data", JArray [])]))).
Proof. reflexivity. Qed.

Example store_error_is_wrapped :
  App.callTool Engine.failing "get_student_grades" (JObject [("id", JNumber 7%Z)])
  = ([ HandlerCall "getStudentGrades" [JNumber 7%Z];
       DbCall DbAll App.SQL_getStudentGrades (JArray [JNumber 7%Z]) ],
     Normal {| content := [ {| type := "text"; text := "Error: SQLITE_ERROR" |} ];
               isError := Some true |}).
Proof. reflexivity. Qed.

Example select_reaches_the_store :
  App.post_custom_query Engine.no_rows (JObject [("query", JString " select 1")])
  = ([ DbCall DbAll " select 1" (JArray []);
       Respond 200 (JObject [("data", JArray [])]) ],
     Normal tt).
Proof. reflexivity. Qed.

Example post_message_delivers :
  App.post_message Sample.one_session (Some (App.QString "a1")) (JNumber 1%Z)
  = ([ ConsoleError [JString "Client Message from"; JString "a1"];
       HandlePostMessage "a1" (JNumber 1%Z) ],
     Normal Sample.one_session).
Proof. reflexivity. Qed.

(** ** Strings *)

Lemma append_cons (x : ascii) (a b : string) : String x a +:+ b = String x (a +:+ b).
Proof. reflexivity. Qed.

Lemma append_nil_l (a : string) : "" +:+ a = a.
Proof. reflexivity. Qed.

Lemma append_assoc (a b c : string) : (a +:+ b) +:+ c = a +:+ (b +:+ c).
Proof.
  induction a as [|x a IH]; [reflexivity|]. by rewrite !append_cons, IH.
Qed.

Lemma append_nil_r (a : string) : a +:+ "" = a.
Proof.
  induction a as [|x a IH]; [reflexivity|]. by rewrite append_cons, IH.
Qed.

Lemma contains_refl (a : string) : contains a a.
Proof. exists "", "". by rewrite append_nil_l, append_nil_r. Qed.

Lemma contains_app_r (a b x : string) : contains b x → contains (a +:+ b) x.
Proof.
  intros (pre & post & ->). exists (a +:+ pre), post. by rewrite append_assoc.
Qed.

Lemma contains_app_l (a b x : string) : contains a x → contains (a +:+ b) x.
Proof.
  intros (pre & post & ->). exists pre, (post +:+ b). by rewrite !append_assoc.
Qed.

Lemma contains_trans (a b c : string) : contains a b → contains b c → contains a c.
Proof.
  intros (pre & post & ->) (pre' & post' & ->).
  exists (pre +:+ pre'), (post' +:+ post). by rewrite !append_assoc.
Qed.

Lemma contains_join (sep x : string) (l : list string) :
  In x l → contains (join sep l) x.
Proof.
  induction l as [|y l IH]; [intros []|].
  intros [-> | Hin].
  - destruct l; simpl; [apply contains_refl | apply contains_app_l, contains_refl].
  - destruct l as [|z l]; [destruct Hin|].
    change (join sep (y :: z :: l)) with (y +:+ sep +:+ join sep (z :: l)).
    by apply contains_app_r, contains_app_r, IH.
Qed.

Lemma prefix_app (n h : string) : String.prefix n h = true ↔ ∃ post, h = n +:+ post.
Proof.
  revert h. induction n as [|c n IH]; intros h.
  - split; [intros _; by exists h | intros _; by destruct h].
  - destruct h as [|d h]; simpl.
    + split; [done | intros (post & Hp); discriminate].
    + destruct (ascii_dec c d) as [-> | Hne].
      * rewrite IH. split; intros (post & Hp); exists post;
          rewrite ?append_cons in *; congruence.
      * split; [done | intros (post & Hp); rewrite append_cons in Hp; congruence].
Qed.

Lemma occurs_contains (needle hay : string) :
  occurs needle hay = true ↔ contains hay needle.
Proof.
  induction hay as [|c hay IH].
  - change (occurs needle "") with (String.prefix needle "" || false).
    rewrite orb_false_r, prefix_app. split.
    + intros (post & ->). by exists "", post.
    + intros ([|? pre] & post & Hp); [by exists post | discriminate].
  - change (occurs needle (String c hay))
      with (String.prefix needle (String c hay) || occurs needle hay).
    rewrite orb_true_iff, prefix_app, IH. split.
    + intros [(post & ->) | (pre & post & ->)];
        [by exists "", post | by exists (String c pre), post].
    + intros ([|d pre] & post & Hp); [left; by exists post | right].
      rewrite append_cons in Hp. injection Hp as _ ->. by exists pre, post.
Qed.

(** ** The effect monad *)

Lemma bind_Normal_inv {Num A B} (m : M Num A) (k : A → M Num B)
    (events : list (Event Num)) (b : B) :
  mbind k m = (events, Normal b) →
  ∃ t1 a t2, m = (t1, Normal a) ∧ k a = (t2, Normal b) ∧ events = t1 ++ t2.
Proof.
  unfold mbind, M_bind, bind. destruct m as [t1 [a|e]]; [|discriminate].
  destruct (k a) as [t2 r] eqn:Hk. intros [= <- ->]. by exists t1, a, t2.
Qed.

(** ** Clause selection *)

Lemma find_label_is_Some {C} (labels : list (string * C)) (n : string) :
  is_Some (List.find (λ l, String.eqb n (fst l)) labels) ↔ In n (map fst labels).
Proof.
  induction labels as [|[k c] labels IH]; simpl.
  - split; [intros [? [=]] | done].
  - destruct (String.eqb_spec n k) as [-> | Hne].
    + split; [by left | by eexists].
    + rewrite IH. split; [by right | intros [? | ?]; congruence].
Qed.

Lemma app_switch_is_Some (n : string) :
  is_Some (App.switch n) ↔ In n (map fst App.labels).
Proof. unfold App.switch. rewrite fmap_is_Some. apply find_label_is_Some. Qed.

Lemma mcp_switch_is_Some (n : string) :
  is_Some (McpServer.switch n) ↔ In n (map fst McpServer.labels).
Proof. unfold McpServer.switch. rewrite fmap_is_Some. apply find_label_is_Some. Qed.

Lemma app_switch_None (n : string) :
  ¬ In n (map App.name App.tools) → App.switch n = None.
Proof.
  intros Hn. apply eq_None_not_Some. rewrite app_switch_is_Some. exact Hn.
Qed.

Lemma mcp_switch_None (n : string) :
  ¬ In n (map McpServer.name McpServer.tools) → McpServer.switch n = None.
Proof.
  intros Hn. apply eq_None_not_Some. rewrite mcp_switch_is_Some. exact Hn.
Qed.

(** ** The tool list and the dispatcher agree *)

(** C7. A tool-list request returns the tools in the order the array
    literal declares them; the names are those of the [case] clauses of the
    dispatcher, in the same order; so every name the dispatcher resolves is
    listed, exactly once, and nothing else is. This holds for [src/app.js]
    and for [src/mcp-server.js]. Each entry is a record of name, description
    (never empty) and input schema. *)
Theorem tool_list_names :
  (map App.name App.tools
     = [ "get_all_students"; "get_student_by_id"; "get_student_grades";
         "get_student_attendance"; "get_student_payments"; "get_students_by_class";
         "search_students"; "get_student_average"; "custom_query" ]
   ∧ map App.name App.tools = map fst App.labels
   ∧ NoDup (map App.name App.tools)
   ∧ (∀ n, In n (map App.name App.tools) ↔ is_Some (App.switch n))
   ∧ Forall (λ t, App.description t ≠ "") App.tools)
  ∧
  (map McpServer.name McpServer.tools
     = [ "get_all_students"; "get_student_by_id"; "get_student_grades";
         "get_student_attendance"; "get_student_payments"; "get_students_by_class";
         "search_students"; "get_student_average"; "add_student"; "update_student";
         "delete_student"; "custom_query" ]
   ∧ map McpServer.name McpServer.tools = map fst McpServer.labels
   ∧ NoDup (map McpServer.name McpServer.tools)
   ∧ (∀ n, In n (map McpServer.name McpServer.tools) ↔ is_Some (McpServer.switch n))
   ∧ Forall (λ t, McpServer.description t ≠ "") McpServer.tools).
Proof.
  split; (split; [reflexivity | split; [reflexivity | split; [|split]]]).
  - apply NoDup_ListNoDup. repeat (constructor; [simpl; intuition discriminate|]).
    constructor.
  - intros n. by rewrite app_switch_is_Some.
  - repeat (constructor; [discriminate|]). constructor.
  - apply NoDup_ListNoDup. repeat (constructor; [simpl; intuition discriminate|]).
    constructor.
  - intros n. by rewrite mcp_switch_is_Some.
  - repeat (constructor; [discriminate|]). constructor.
Qed.

(** ** Unknown tools *)

(** C1, as the code has it. For a name that is not the name of a listed
    tool, either dispatcher throws in its [default] clause and its [catch]
    clause returns the error result: one text block, [isError: true], no
    store or HTTP call, no exception. The text is
    "Error: Unknown tool: <name>" in [src/app.js] and
    "Hata: Bilinmeyen araç: <name>" in [src/mcp-server.js]. *)
Theorem unknown_tool_error_result {Num} `{!JsEngine Num}
    (db : Database Num) (API_BASE_URL : string)
    (axios : HttpMethod → string → JsValue Num → string + JsValue Num)
    (name : string) (args : JsValue Num) :
  (¬ In name (map App.name App.tools) →
   App.callTool db name args
   = ([], Normal {| content := [ {| type := "text";
                                    text := "Error: Unknown tool: " +:+ name |} ];
                    isError := Some true |}))
  ∧
  (¬ In name (map McpServer.name McpServer.tools) →
   McpServer.callTool API_BASE_URL axios name args
   = ([], Normal {| content := [ {| type := "text";
                                    text := "Hata: Bilinmeyen araç: " +:+ name |} ];
                    isError := Some true |})).
Proof.
  split; intros Hn.
  - unfold App.callTool, App.call_body. by rewrite (app_switch_None _ Hn).
  - unfold McpServer.callTool, McpServer.call_body. by rewrite (mcp_switch_None _ Hn).
Qed.

Lemma unknown_tool_error_result_witness :
  App.callTool Engine.no_rows "add_student" JUndefined
  = ([], Normal {| content := [ {| type := "text";
                                   text := "Error: Unknown tool: add_student" |} ];
                   isError := Some true |})
  ∧
  McpServer.callTool "http://localhost:3000/api" Engine.api_ok "echo" JUndefined
  = ([], Normal {| content := [ {| type := "text";
                                   text := "Hata: Bilinmeyen araç: echo" |} ];
                   isError := Some true |}).
Proof.
  split.
  - apply (proj1 (unknown_tool_error_result Engine.no_rows "" Engine.api_ok
                    "add_student" JUndefined)).
    simpl. intuition discriminate.
  - apply (proj2 (unknown_tool_error_result Engine.no_rows "http://localhost:3000/api"
                    Engine.api_ok "echo" JUndefined)).
    simpl. intuition discriminate.
Defined.

(** C1, as stated, fails on the text: for the unknown name "foo" neither
    dispatcher returns a block that contains "unknown tool: foo". *)
Lemma unknown_tool_text_counterexample :
  ∃ r r' : CallToolResult,
    App.callTool Engine.no_rows "foo" JUndefined = ([], Normal r)
    ∧ McpServer.callTool "http://localhost:3000/api" Engine.api_ok "foo" JUndefined
      = ([], Normal r')
    ∧ map text (content r) = ["Error: Unknown tool: foo"]
    ∧ map text (content r') = ["Hata: Bilinmeyen araç: foo"]
    ∧ (∀ b, In b (content r ++ content r') → ¬ contains (text b) "unknown tool: foo").
Proof.
  eexists _, _. split; [reflexivity|]. split; [reflexivity|].
  split; [reflexivity|]. split; [reflexivity|].
  intros b Hb. rewrite <- occurs_contains.
  destruct Hb as [<- | [<- | []]]; vm_compute; discriminate.
Qed.

(** ** Argument validation *)

Lemma ZodType_induction (P : ZodType → Prop) :
  P ZodString →
  P ZodNumber →
  (∀ element, P element → P (ZodArray element)) →
  (∀ inner, P inner → P (ZodOptional inner)) →
  (∀ shape, Forall (λ kt, P (snd kt)) shape → P (ZodObject shape)) →
  ∀ t, P t.
Proof.
  intros HString HNumber HArray HOptional HObject.
  fix IH 1. intros [| |element|inner|shape].
  - exact HString.
  - exact HNumber.
  - apply HArray, IH.
  - apply HOptional, IH.
  - apply HObject. induction shape as [|[k tk] shape IHshape].
    + apply List.Forall_nil.
    + apply List.Forall_cons; [apply IH | exact IHshape].
Qed.

Section Validation.
Context {Num : Type} `{!JsEngine Num}.

(** [parse] reports no issue exactly on the values that conform. *)
Lemma zod_issues_nil (t : ZodType) :
  ∀ p (v : JsValue Num), zod_issues t p v = [] ↔ conforms t v = true.
Proof.
  induction t as [| |element IH|inner IH|shape IH] using ZodType_induction; intros p v.
  - destruct v; simpl; split; congruence.
  - destruct v; simpl; try (split; congruence).
    destruct (num_isNaN n); simpl; split; congruence.
  - destruct v as [| | | | |items|]; simpl; try (split; congruence).
    enough (Hg : ∀ g : nat → list PathElem,
               concat (imap (λ i x, zod_issues element (g i) x) items) = []
               ↔ forallb (conforms element) items = true)
      by apply (Hg (λ i, p ++ [PIndex i])).
    induction items as [|x items IHitems]; intros g; simpl; [done|].
    rewrite andb_true_iff, <- (IH (g 0) x), <- (IHitems (g ∘ S)).
    split; [intros [? ?]%app_eq_nil; split; assumption | intros [-> Hr]; exact Hr].
  - destruct v; simpl; try apply IH; done.
  - destruct v as [| | | | | |props]; simpl; try (split; congruence).
    induction IH as [|[k tk] rest Hk _ IHrest]; simpl in *; [done|].
    rewrite andb_true_iff, <- (Hk (p ++ [PKey k])), <- IHrest.
    split; [intros [? ?]%app_eq_nil; split; assumption | intros [-> Hr]; exact Hr].
Qed.

(** Every issue is reported below the path the parse started at. *)
Lemma zod_issues_path (t : ZodType) :
  ∀ p (v : JsValue Num) i, In i (zod_issues t p v) → ∃ rest, path i = p ++ rest.
Proof.
  assert (Hone : ∀ (p : list PathElem) (e i : ZodIssue),
             path e = p → In i [e] → ∃ rest, path i = p ++ rest).
  { intros p e i Hp [<- | []]. exists []. by rewrite app_nil_r. }
  induction t as [| |element IH|inner IH|shape IH] using ZodType_induction; intros p v i.
  - destruct v; simpl; first [by intros [] | by apply Hone].
  - unfold zod_issues. destruct (getParsedType v) eqn:Hv; simpl;
      first [by intros [] | by apply Hone].
  - destruct v as [| | | | |items|]; simpl; try (by apply Hone).
    enough (Hg : ∀ g : nat → list PathElem, (∀ n, ∃ rest, g n = p ++ rest) →
               In i (concat (imap (λ i x, zod_issues element (g i) x) items)) →
               ∃ rest, path i = p ++ rest)
      by (apply (Hg (λ i, p ++ [PIndex i])); intros n; by eexists).
    induction items as [|x items IHitems]; intros g Hg; simpl; [intros []|].
    rewrite in_app_iff. intros [Hi | Hi].
    + destruct (IH _ _ _ Hi) as (rest & ->). destruct (Hg 0) as (rest' & ->).
      exists (rest' ++ rest). by rewrite app_assoc.
    + apply (IHitems (g ∘ S)); [|exact Hi]. intros n. apply Hg.
  - destruct v; simpl; first [by intros [] | apply IH].
  - destruct v as [| | | | | |props]; simpl; try (by apply Hone).
    induction IH as [|[k tk] rest Hk _ IHrest]; simpl in *; [intros []|].
    rewrite in_app_iff. intros [Hi | Hi]; [|by apply IHrest].
    destruct (Hk _ _ _ Hi) as (rest' & ->). exists ([PKey k] ++ rest').
    by rewrite app_assoc.
Qed.

(** The issues of an object name declared keys whose values do not
    conform. *)
Lemma zod_issues_object (shape : list (string * ZodType))
    (props : list (string * JsValue Num)) (i : ZodIssue) :
  In i (zod_issues (ZodObject shape) [] (JObject props)) →
  ∃ k tk rest,
    In (k, tk) shape ∧ conforms tk (lookup_prop k props) = false
    ∧ path i = PKey k :: rest.
Proof.
  simpl. induction shape as [|[k tk] shape IH]; [intros []|].
  rewrite in_app_iff. intros [Hi | Hi].
  - exists k, tk. destruct (zod_issues_path _ _ _ _ Hi) as (rest & Hp).
    exists rest. split; [by left|]. split; [|exact Hp].
    destruct (conforms tk (lookup_prop k props)) eqn:Hc; [|done].
    apply (zod_issues_nil tk [PKey k]) in Hc. rewrite Hc in Hi. destruct Hi.
  - destruct (IH Hi) as (k' & tk' & rest & Hin & Hc & Hp).
    exists k', tk', rest. split; [by right | done].
Qed.

Lemma parse_invalid (schema : ZodType) (v : JsValue Num) :
  conforms schema v = false →
  zod_issues schema [] v ≠ []
  ∧ parse schema v = throw (ZodError (zod_issues schema [] v)).
Proof.
  intros Hc. unfold parse.
  destruct (zod_issues schema [] v) eqn:Hi; [|done].
  apply zod_issues_nil in Hi. congruence.
Qed.

Lemma parse_valid (schema : ZodType) (v : JsValue Num) :
  conforms schema v = true → parse schema v = ret (zod_output schema v).
Proof.
  intros Hc. unfold parse. by rewrite (proj2 (zod_issues_nil schema [] v) Hc).
Qed.

(** In [src/app.js] a failed parse is all that a call does. *)
Lemma callTool_parse_throws (db : Database Num) (tool : App.Tool) (schema : ZodType)
    (args : JsValue Num) (issues : list ZodIssue) :
  In tool App.tools →
  App.inputSchema tool = App.zodToJsonSchema schema →
  parse schema args = throw (ZodError issues) →
  App.callTool db (App.name tool) args
  = ([], Normal (App.error_result (ZodError issues))).
Proof.
  intros Htool Hschema Hthrow. simpl in Htool.
  repeat (destruct Htool as [<- | Htool];
    [simpl in Hschema;
     first [ discriminate
           | injection Hschema as <-;
             unfold App.callTool, App.call_body; simpl; by rewrite Hthrow ]|]).
  destruct Htool.
Qed.

Lemma listed_schema_is_object (tool : App.Tool) (schema : ZodType) :
  In tool App.tools →
  App.inputSchema tool = App.zodToJsonSchema schema →
  ∃ shape, schema = ZodObject shape.
Proof.
  intros Htool Hschema. simpl in Htool.
  repeat (destruct Htool as [<- | Htool];
    [simpl in Hschema;
     first [discriminate | injection Hschema as <-; by eexists]|]).
  destruct Htool.
Qed.

End Validation.

Lemma render_path_key (k : string) (rest : list PathElem) :
  contains (render_path (PKey k :: rest)) (json_quote k).
Proof.
  unfold render_path. do 2 apply contains_app_r. apply contains_app_l.
  eapply contains_trans; [apply contains_join; by left|].
  apply contains_app_r, contains_refl.
Qed.

Lemma render_issue_path (i : ZodIssue) : contains (render_issue i) (render_path (path i)).
Proof.
  unfold render_issue. do 23 apply contains_app_r. apply contains_app_l, contains_refl.
Qed.

(** The text of a [ZodError] shows the first key on the path of each of its
    issues. *)
Lemma ZodError_message_key (issues : list ZodIssue) (i : ZodIssue) (k : string)
    (rest : list PathElem) :
  In i issues → path i = PKey k :: rest → contains (ZodError_message issues) (json_quote k).
Proof.
  intros Hi Hp. destruct issues as [|i0 issues]; [destruct Hi|].
  unfold ZodError_message. do 2 apply contains_app_r. apply contains_app_l.
  eapply contains_trans; [apply contains_join, (in_map render_issue), Hi|].
  eapply contains_trans; [apply render_issue_path|].
  rewrite Hp. apply render_path_key.
Qed.

(** C2, as the code has it ([src/app.js] only). For every listed tool whose
    input schema is a Zod schema, and every argument value that does not
    conform to it, the dispatcher returns the error result of the
    [ZodError]: [isError: true], and an empty trace, so that the tool
    function was not entered and the store not called. When the arguments
    are an object (a declared field of the wrong type, a required field
    missing), every issue is about a declared field whose value does not
    conform, and the text shows the name of that field, quoted. *)
Theorem invalid_arguments_rejected {Num} `{!JsEngine Num} (db : Database Num)
    (tool : App.Tool) (schema : ZodType) (args : JsValue Num) :
  In tool App.tools →
  App.inputSchema tool = App.zodToJsonSchema schema →
  conforms schema args = false →
  ∃ issues,
    issues ≠ []
    ∧ App.callTool db (App.name tool) args
      = ([], Normal {| content := [ {| type := "text";
                                       text := "Error: " +:+ ZodError_message issues |} ];
                       isError := Some true |})
    ∧ ∀ props, args = JObject props →
        ∃ shape,
          schema = ZodObject shape
          ∧ ∀ i, In i issues →
              ∃ k tk rest,
                In (k, tk) shape ∧ conforms tk (lookup_prop k props) = false
                ∧ path i = PKey k :: rest
                ∧ contains ("Error: " +:+ ZodError_message issues) (json_quote k).
Proof.
  intros Htool Hschema Hc.
  destruct (parse_invalid _ _ Hc) as (Hne & Hthrow).
  exists (zod_issues schema [] args). split; [exact Hne|]. split.
  - by apply callTool_parse_throws with (schema := schema).
  - intros props ->.
    destruct (listed_schema_is_object _ _ Htool Hschema) as (shape & ->).
    exists shape. split; [reflexivity|]. intros i Hi.
    destruct (zod_issues_object _ _ _ Hi) as (k & tk & rest & Hk & Hck & Hp).
    exists k, tk, rest. repeat split; try done.
    by eapply contains_app_r, ZodError_message_key.
Qed.

Lemma invalid_arguments_rejected_witness :
  ∃ issues,
    issues ≠ []
    ∧ App.callTool Engine.no_rows "get_student_by_id" (JObject [("id", JString "abc")])
      = ([], Normal {| content := [ {| type := "text";
                                       text := "Error: " +:+ ZodError_message issues |} ];
                       isError := Some true |})
    ∧ ∀ props, JObject [("id", JString "abc")] = JObject props →
        ∃ shape,
          App.StudentIdSchema = ZodObject shape
          ∧ ∀ i, In i issues →
              ∃ k tk rest,
                In (k, tk) shape ∧ conforms tk (lookup_prop k props) = false
                ∧ path i = PKey k :: rest
                ∧ contains ("Error: " +:+ ZodError_message issues) (json_quote k).
Proof.
  apply (invalid_arguments_rejected Engine.no_rows
           {| App.name := App.ToolName.GET_STUDENT_BY_ID;
              App.description := "ID ile öğrenci bilgilerini getir";
              App.inputSchema := App.zodToJsonSchema App.StudentIdSchema |}
           App.StudentIdSchema (JObject [("id", JString "abc")])).
  - right. left. reflexivity.
  - reflexivity.
  - reflexivity.
Defined.

(** What the caller reads in that case. *)
Example invalid_id_text :
  App.callTool Engine.no_rows "get_student_by_id" (JObject [("id", JString "abc")])
  = ([], Normal {| content := [ {| type := "text"; text :=
       "Error: [" +:+ nl +:+
       "  {" +:+ nl +:+
       "    " +:+ json_quote "code" +:+ ": " +:+ json_quote "invalid_type" +:+ "," +:+ nl +:+
       "    " +:+ json_quote "expected" +:+ ": " +:+ json_quote "number" +:+ "," +:+ nl +:+
       "    " +:+ json_quote "received" +:+ ": " +:+ json_quote "string" +:+ "," +:+ nl +:+
       "    " +:+ json_quote "path" +:+ ": [" +:+ nl +:+
       "      " +:+ json_quote "id" +:+ nl +:+
       "    ]," +:+ nl +:+
       "    " +:+ json_quote "message" +:+ ": "
              +:+ json_quote "Expected number, received string" +:+ nl +:+
       "  }" +:+ nl +:+
       "]" |} ];
     isError := Some true |}).
Proof. reflexivity. Qed.

(** C2, as stated, fails in [src/mcp-server.js], which forwards the
    arguments unchecked. [get_student_by_id] declares [id] as a required
    integer. Called with the string "5" for [id], it sends the request
    whatever the API will answer, and when the API answers, the result
    carries no [isError]. Called without [id], it requests the student
    "undefined"; against an API that answers 404 the result is an error
    whose text is the HTTP client's and does not name the field. *)
Lemma unvalidated_arguments_counterexample :
  (∃ tool,
     In tool McpServer.tools ∧ McpServer.name tool = "get_student_by_id"
     ∧ McpServer.properties (McpServer.inputSchema tool)
       = [ {| McpServer.key := "id"; McpServer.type_ := McpServer.integer;
              McpServer.description_ := "Öğrenci ID" |} ]
     ∧ McpServer.required (McpServer.inputSchema tool) = Some ["id"])
  ∧ (∀ axios : HttpMethod → string → JsValue Z → string + JsValue Z,
       fst (McpServer.callTool "http://localhost:3000/api" axios "get_student_by_id"
              (JObject [("id", JString "5")]))
       = [HttpCall HttpGet "http://localhost:3000/api/ogrenciler/5" JUndefined])
  ∧ McpServer.callTool "http://localhost:3000/api" Engine.api_ok "get_student_by_id"
      (JObject [("id", JString "5")])
    = ([HttpCall HttpGet "http://localhost:3000/api/ogrenciler/5" JUndefined],
       Normal {| content := [ {| type := "text";
                                 text := Engine.stringify "" (JObject [("data", JArray [])]) |} ];
                 isError := None |})
  ∧ McpServer.callTool "http://localhost:3000/api" Engine.api_404 "get_student_by_id"
      (JObject [])
    = ([HttpCall HttpGet "http://localhost:3000/api/ogrenciler/undefined" JUndefined],
       Normal {| content := [ {| type := "text";
                                 text := "Hata: Request failed with status code 404" |} ];
                 isError := Some true |})
  ∧ ¬ contains "Hata: Request failed with status code 404" "id".
Proof.
  split; [eexists; split; [right; left; reflexivity|]; by repeat split|].
  split.
  - intros axios. unfold McpServer.callTool, McpServer.call_body, McpServer.request.
    simpl. by destruct (axios _ _ _).
  - split; [reflexivity|]. split; [reflexivity|].
    rewrite <- occurs_contains. vm_compute. discriminate.
Qed.

(** ** Sessions *)

(** Converting a query value to a string never throws. *)
Lemma ToString_query_value {Num} `{!JsEngine Num} (v : App.QueryValue) :
  ∃ s, ToString (App.query_value (Num := Num) v) = inr s.
Proof.
  revert v. fix IH 1. intros [s|items|]; simpl; [by eexists| |by eexists].
  assert (Hitems : ∃ ss,
    (fix elements (l : list (JsValue Num)) : Exn + list string :=
       match l with
       | [] => inr []
       | x :: rest =>
           match (match x with JUndefined | JNull => inr "" | _ => ToString x end) with
           | inl e => inl e
           | inr sx =>
               match elements rest with
               | inl e => inl e
               | inr ss => inr (sx :: ss)
               end
           end
       end) (map App.query_value items) = inr ss).
  { induction items as [|x items IHitems]; simpl; [by eexists|].
    destruct IHitems as (ss & ->).
    destruct (IH x) as (sx & Hx).
    destruct (App.query_value x) eqn:Hq; try (by eexists);
      rewrite Hx; by eexists. }
  destruct Hitems as (ss & ->). by eexists.
Qed.

Lemma template_query {Num} `{!JsEngine Num} (q : option App.QueryValue) :
  ∃ s, template (App.query_js (Num := Num) q) = ret s.
Proof.
  unfold template. destruct q as [v|]; simpl; [|by eexists].
  destruct (ToString_query_value v) as (s & ->). by eexists.
Qed.

(** C3. A POST to [/message] whose [sessionId] is not a key of the session
    map is answered 404 with [{ error: "Session not found" }]. Besides
    that response the handler only writes a log line: no message is handed
    to a transport, no tool function or store is reached, no session is
    created, and the session map is returned as it was. *)
Theorem post_message_unknown_session {Num} `{!JsEngine Num}
    (transports : gmap string App.SSEServerTransport)
    (q : option App.QueryValue) (body : JsValue Num) :
  (∀ s, q = Some (App.QString s) → transports !! s = None) →
  ∃ s,
    App.post_message transports q body
    = ([ ConsoleError [JString ("No transport found for sessionId " +:+ s)];
         Respond 404 (JObject [("error", JString "Session not found")]) ],
       Normal transports).
Proof.
  intros Hq.
  assert (Hget : App.transports_get transports q = None).
  { destruct q as [[s| |]|]; simpl; auto. }
  unfold App.post_message. rewrite Hget.
  destruct (template_query q) as (s & ->). by exists s.
Qed.

Lemma post_message_unknown_session_witness :
  ∃ s,
    App.post_message Sample.one_session
      (Some (App.QString "b2")) (JObject [("jsonrpc", JString "2.0")])
    = ([ ConsoleError [JString ("No transport found for sessionId " +:+ s) : JsValue Z];
         Respond 404 (JObject [("error", JString "Session not found")]) ],
       Normal Sample.one_session).
Proof.
  apply (post_message_unknown_session Sample.one_session
           (Some (App.QString "b2")) (JObject [("jsonrpc", JString "2.0")])).
  intros s [= <-]. reflexivity.
Defined.

(** C4, as the code has it. When the transport of a session closes,
    [server.onclose] deletes the session's entry, so that looking the id up
    finds nothing, leaves every other entry alone, and calls the cleanup
    hook once for that close event. A second close event for the same id
    runs the same code again, log line and hook included, without a fault,
    and leaves the map as the first one left it: deleting an absent key
    does nothing. *)
Theorem onclose_removes_session {Num} (transport : App.SSEServerTransport)
    (transports : gmap string App.SSEServerTransport) :
  let sid := App.sessionId transport in
  let events : list (Event Num) :=
    [ ConsoleError [JString "Client Disconnected: "; JString sid]; Cleanup ] in
  ∃ transports',
    App.onclose transport transports = (events, Normal transports')
    ∧ transports' !! sid = None
    ∧ App.transports_get transports' (Some (App.QString sid)) = None
    ∧ (∀ sid', sid' ≠ sid → transports' !! sid' = transports !! sid')
    ∧ length (filter (λ ev, is_Cleanup ev = true) events) = 1
    ∧ App.onclose transport transports' = (events, Normal transports').
Proof.
  intros sid events. exists (delete sid transports).
  split; [reflexivity|].
  split; [apply lookup_delete_eq|].
  split; [apply lookup_delete_eq|].
  split; [intros sid' Hne; by apply lookup_delete_ne|].
  split; [reflexivity|].
  unfold App.onclose. fold sid. simpl.
  rewrite (delete_id (delete sid transports) sid) by apply lookup_delete_eq.
  reflexivity.
Qed.

(** C4, as stated, fails on (b) and (c): a second close event for the
    same session runs the handler again. It leaves the map as the first
    close left it and throws nothing, but it is not a no-op: it writes the
    log line and calls the cleanup hook once more, so that the hook has run
    twice for the one session. *)
Lemma second_close_runs_cleanup_again_counterexample :
  ∃ (first second : list (Event Z)) closed,
    App.onclose {| App.sessionId := "a1" |} Sample.one_session = (first, Normal closed)
    ∧ closed !! "a1" = None
    ∧ App.onclose {| App.sessionId := "a1" |} closed = (second, Normal closed)
    ∧ second = [ ConsoleError [JString "Client Disconnected: "; JString "a1"]; Cleanup ]
    ∧ length (filter (λ ev, is_Cleanup ev = true) (first ++ second)) = 2.
Proof.
  eexists _, _, _. split; [reflexivity|].
  split; [apply lookup_delete_eq|].
  split.
  { unfold App.onclose. simpl.
    rewrite (delete_id (delete "a1" Sample.one_session) "a1") by apply lookup_delete_eq.
    reflexivity. }
  split; reflexivity.
Qed.

(** C5, as the code has it. A GET to [/sse] whose [sessionId] parameter is
    truthy (a non-empty string, or an array or object) writes one log line
    and returns the session map as it was: no transport is created or
    connected. *)
Theorem get_sse_with_sessionId {Num}
    (transports : gmap string App.SSEServerTransport)
    (q : option App.QueryValue) (newSessionId : string) :
  App.query_truthy q = true →
  App.get_sse transports q newSessionId
  = ([ ConsoleError [ JString "Client Reconnecting? This shouldn't happen";
                      App.optional_sessionId (Num := Num)
                        (App.transports_get transports q) ] ],
     Normal transports).
Proof. intros Hq. unfold App.get_sse. by rewrite Hq. Qed.

Lemma get_sse_with_sessionId_witness :
  App.get_sse Sample.one_session (Some (App.QString "b2")) "c3"
  = ([ ConsoleError [ JString "Client Reconnecting? This shouldn't happen";
                      App.optional_sessionId (Num := Z)
                        (App.transports_get Sample.one_session
                           (Some (App.QString "b2"))) ] ],
     Normal Sample.one_session).
Proof.
  apply (get_sse_with_sessionId Sample.one_session (Some (App.QString "b2")) "c3").
  reflexivity.
Defined.

(** C5, as stated, fails for a request that carries the parameter with an
    empty value ([GET /sse?sessionId=]): the empty string is falsy, the
    handler takes the other branch and registers a new session. *)
Lemma get_sse_empty_sessionId_counterexample :
  ∃ transports' : gmap string App.SSEServerTransport,
    App.get_sse (Num := Z) Sample.one_session (Some (App.QString "")) "c3"
    = ([ Connect "c3"; ConsoleError [JString "Client Connected: "; JString "c3"] ],
       Normal transports')
    ∧ Sample.one_session !! "c3" = None
    ∧ transports' !! "c3" = Some {| App.sessionId := "c3" |}
    ∧ transports' ≠ Sample.one_session.
Proof.
  eexists. split; [reflexivity|].
  split; [reflexivity|].
  split; [apply lookup_insert_eq|].
  intros Heq. apply (f_equal (λ m : gmap string App.SSEServerTransport, m !! "c3")) in Heq.
  rewrite lookup_insert_eq in Heq. discriminate.
Qed.

(** ** Tool calls that the store or the prefix test turns down *)

(** C6. [get_student_by_id], called with a numeric [id] for which the store
    has no row: [getStudentById] rejects with the error "Öğrenci bulunamadı"
    ("student not found"), and the dispatcher's [catch] clause returns it
    as the result. The result has [isError: true] and the text
    "Error: Öğrenci bulunamadı"; the call completes normally, after one
    store call. *)
Theorem get_student_by_id_not_found {Num} `{!JsEngine Num} (db : Database Num)
    (props : list (string * JsValue Num)) (n : Num) :
  lookup_prop "id" props = JNumber n →
  num_isNaN n = false →
  db_get db App.SQL_getStudentById (JArray [JNumber n]) = inr None →
  App.callTool db "get_student_by_id" (JObject props)
  = ([ HandlerCall "getStudentById" [JNumber n];
       DbCall DbGet App.SQL_getStudentById (JArray [JNumber n]) ],
     Normal {| content := [ {| type := "text"; text := "Error: Öğrenci bulunamadı" |} ];
               isError := Some true |})
  ∧ contains "Error: Öğrenci bulunamadı" "bulunamadı".
Proof.
  intros Hid Hnan Hrow. split.
  - unfold App.callTool, App.call_body, parse. simpl.
    rewrite Hid. simpl. rewrite Hnan. simpl.
    unfold App.getStudentById. rewrite Hrow. reflexivity.
  - apply occurs_contains. reflexivity.
Qed.

Lemma get_student_by_id_not_found_witness :
  App.callTool Engine.no_rows "get_student_by_id" (JObject [("id", JNumber 42%Z)])
  = ([ HandlerCall "getStudentById" [JNumber 42%Z];
       DbCall DbGet App.SQL_getStudentById (JArray [JNumber 42%Z]) ],
     Normal {| content := [ {| type := "text"; text := "Error: Öğrenci bulunamadı" |} ];
               isError := Some true |})
  ∧ contains "Error: Öğrenci bulunamadı" "bulunamadı".
Proof.
  apply (get_student_by_id_not_found Engine.no_rows [("id", JNumber 42%Z)] 42%Z);
    reflexivity.
Defined.

Lemma customQuery_rejects {Num} `{!JsEngine Num} (db : Database Num) (q : string)
    (params : JsValue Num) :
  startsWith (str_toUpperCase (str_trim q)) "SELECT" = false →
  App.customQuery db (JString q) params
  = ([HandlerCall "customQuery" [JString q; params]],
     Abrupt (Error "Sadece SELECT sorguları desteklenir")).
Proof.
  intros Hq. unfold App.customQuery. simpl. by rewrite Hq.
Qed.

(** C8. A query string that, trimmed and upper-cased, does not start with
    "SELECT" never reaches the store: [customQuery] rejects before its
    store call, so the [custom_query] tool returns an error result and its
    trace has no store call, whatever the other arguments; and the route
    [/api/custom-query] answers 400 and does nothing else. *)
Theorem custom_query_rejects_non_select {Num} `{!JsEngine Num} (db : Database Num)
    (q : string) (props : list (string * JsValue Num)) :
  startsWith (str_toUpperCase (str_trim q)) "SELECT" = false →
  lookup_prop "query" props = JString q →
  (∀ params,
     App.customQuery db (JString q) params
     = ([HandlerCall "customQuery" [JString q; params]],
        Abrupt (Error "Sadece SELECT sorguları desteklenir")))
  ∧ (∃ events result,
       App.callTool db "custom_query" (JObject props) = (events, Normal result)
       ∧ isError result = Some true
       ∧ Forall (λ ev, is_DbCall ev = false) events)
  ∧ App.post_custom_query db (JObject props)
    = ([Respond 400 (JObject [("error", JString "Sadece SELECT sorguları desteklenir")])],
       Normal tt).
Proof.
  intros Hq Hprops. split; [intros params; by apply customQuery_rejects|]. split.
  - unfold App.callTool, App.call_body. simpl.
    destruct (conforms App.CustomQuerySchema (JObject props)) eqn:Hc.
    + rewrite (parse_valid _ _ Hc). simpl. rewrite Hprops.
      match goal with
      | |- context [App.customQuery db ?a ?b] =>
          change a with (JString q : JsValue Num);
          rewrite (customQuery_rejects db q b Hq)
      end.
      eexists _, _. split; [reflexivity|]. split; [reflexivity|].
      repeat constructor.
    + destruct (parse_invalid _ _ Hc) as (_ & ->). simpl.
      eexists _, _. split; [reflexivity|]. split; [reflexivity|]. constructor.
  - unfold App.post_custom_query. simpl. rewrite Hprops. simpl. by rewrite Hq.
Qed.

Lemma custom_query_rejects_non_select_witness :
  (∀ params,
     App.customQuery Engine.no_rows (JString "  delete from ogrenciler") params
     = ([HandlerCall "customQuery" [JString "  delete from ogrenciler"; params]],
        Abrupt (Error "Sadece SELECT sorguları desteklenir")))
  ∧ (∃ events result,
       App.callTool Engine.no_rows "custom_query"
         (JObject [("query", JString "  delete from ogrenciler")])
       = (events, Normal result)
       ∧ isError result = Some true
       ∧ Forall (λ ev, is_DbCall ev = false) events)
  ∧ App.post_custom_query Engine.no_rows
      (JObject [("query", JString "  delete from ogrenciler")])
    = ([Respond 400 (JObject [("error", JString "Sadece SELECT sorguları desteklenir")])],
       Normal tt).
Proof.
  apply (custom_query_rejects_non_select Engine.no_rows "  delete from ogrenciler"
           [("query", JString "  delete from ogrenciler")]); reflexivity.
Defined.

(** ** REST routes *)

(** C9. Whenever the store answers the query of
    [/api/ogrenciler/:id/ortalama] with rows, any rows, the handler ends in
    a [ReferenceError]: the response expression reads [genel_ortalama],
    which no scope binds (the constant is [genelOrtalama]). The error is
    raised while the body is being built, so no response is sent: the store
    call is the only event. *)
Theorem ortalama_route_reference_error {Num} `{!JsEngine Num} (db : Database Num)
    (id : string) (rows : list (JsValue Num)) :
  db_all db App.SQL_ortalama_route (JArray [JString id]) = inr rows →
  App.get_ortalama db id
  = ([DbCall DbAll App.SQL_ortalama_route (JArray [JString id])],
     Abrupt (ReferenceError "genel_ortalama is not defined")).
Proof.
  intros Hrows. unfold App.get_ortalama. rewrite Hrows. reflexivity.
Qed.

Lemma ortalama_route_reference_error_witness :
  App.get_ortalama Engine.no_rows "7"
  = ([DbCall DbAll App.SQL_ortalama_route (JArray [JString "7"])],
     Abrupt (ReferenceError "genel_ortalama is not defined")).
Proof.
  apply (ortalama_route_reference_error Engine.no_rows "7" []). reflexivity.
Defined.

(** With the identifier the constant has, the same code answers. *)
Example genelOrtalama_is_bound :
  App.resolve (App.ortalama_scope []) "genelOrtalama"
  = (([], Normal (JNumber 0%Z)) : M Z (JsValue Z)).
Proof. reflexivity. Qed.

Section Update.
Context {Num : Type} `{!JsEngine Num}.
Variable sql_eq : App.SqlValue Num → App.SqlValue Num → bool.
Variable constraint_error : list (App.Ogrenci Num) → option string.

(** What the update route does with a body that is an object: one store
    call with the twelve fields and the identifier, then the answer the
    schema's verdict on the updated table decides. *)
Lemma put_ogrenci_object (table : list (App.Ogrenci Num)) (id_param : string)
    (props : list (string * JsValue Num)) :
  let p := λ c, App.bindParameter (lookup_prop (column_name c) props) in
  let table' :=
    App.update_ogrenciler sql_eq
      (p c_tc_no) (p c_ad) (p c_soyad) (p c_dogum_tarihi) (p c_cinsiyet)
      (p c_telefon) (p c_email) (p c_adres) (p c_veli_adi)
      (p c_veli_telefonu) (p c_sinif_id) (p c_aktif)
      (App.SqlText id_param) table in
  App.put_ogrenci sql_eq constraint_error table id_param (JObject props)
  = (DbCall DbRun App.SQL_put_route
       (JArray (map (λ c, lookup_prop (column_name c) props)
                  [c_tc_no; c_ad; c_soyad; c_dogum_tarihi; c_cinsiyet; c_telefon;
                   c_email; c_adres; c_veli_adi; c_veli_telefonu; c_sinif_id; c_aktif]
                ++ [JString id_param]))
     :: match constraint_error table' with
        | Some err => [Respond 500 (JObject [("error", JString err)])]
        | None =>
            [Respond 200 (JObject
               [("message", JString "Öğrenci başarıyla güncellendi");
                ("changes",
                 JNumber (num_ofNat (App.changes sql_eq (App.SqlText id_param) table)))])]
        end,
     Normal match constraint_error table' with
            | Some _ => table
            | None => table'
            end).
Proof.
  intros p table'. subst p table'. unfold App.put_ogrenci. simpl.
  by destruct (constraint_error _).
Qed.

Lemma lookup_map {A B} (f : A → B) (l : list A) (i : nat) (x : A) :
  l !! i = Some x → map f l !! i = Some (f x).
Proof.
  revert i. induction l as [|y l IH]; intros [|i]; simpl; try done.
  - by intros [= ->].
  - apply IH.
Qed.

(** C10, as the code has it. When the update route answers 200, the table
    it leaves has, at the place of every row whose key matches
    [req.params.id], a row with the same key in which each of the twelve
    columns holds what the body field of the same name is bound to,
    whatever the column held before: NULL for a field that is absent or
    [null], the text of a string, the number, 1 or 0 for a boolean, and the
    text "[object Object]" for an array or an object. A body without any of
    the fields therefore leaves twelve NULLs. Rows with another key are
    unchanged. *)
Theorem put_overwrites_every_column (table table' : list (App.Ogrenci Num))
    (id_param : string) (props : list (string * JsValue Num))
    (events : list (Event Num)) :
  App.put_ogrenci sql_eq constraint_error table id_param (JObject props)
    = (events, Normal table') →
  Exists (λ ev, is_Respond 200 ev = true) events →
  length table' = length table
  ∧ ∀ (i : nat) (r : App.Ogrenci Num),
      table !! i = Some r →
      ∃ r',
        table' !! i = Some r' ∧ App.id r' = App.id r
        ∧ (sql_eq (App.id r) (App.SqlText id_param) = true →
           ∀ c : Column,
             column c r'
             = match lookup_prop (column_name c) props with
               | JUndefined | JNull => App.SqlNull
               | JBool b => App.SqlInteger (if b then 1 else 0)
               | JNumber n => App.SqlNumber n
               | JString s => App.SqlText s
               | JArray _ | JObject _ => App.SqlText "[object Object]"
               end)
        ∧ (sql_eq (App.id r) (App.SqlText id_param) = false → r' = r).
Proof.
  intros Hput H200. rewrite put_ogrenci_object in Hput. cbv zeta in Hput.
  destruct (constraint_error _) as [err|] in Hput.
  { injection Hput as <- <-. exfalso.
    apply Exists_cons in H200 as [H200 | H200]; [discriminate|].
    apply Exists_cons in H200 as [H200 | H200]; [discriminate|].
    by apply Exists_nil in H200. }
  injection Hput as <- <-.
  split; [apply length_map|].
  intros i r Hr. eexists. split; [by apply lookup_map|].
  destruct (sql_eq (App.id r) (App.SqlText id_param)); simpl.
  - split; [reflexivity|]. split; [|discriminate].
    intros _ c. destruct c; simpl;
      match goal with |- context [lookup_prop ?k props] =>
        by destruct (lookup_prop k props)
      end.
  - split; [reflexivity|]. split; [discriminate|done].
Qed.

End Update.

Lemma put_overwrites_every_column_witness :
  length (match snd Sample.put_result with Normal t => t | Abrupt _ => [] end)
    = length Sample.table
  ∧ ∀ (i : nat) (r : App.Ogrenci Z),
      Sample.table !! i = Some r →
      ∃ r',
        match snd Sample.put_result with Normal t => t | Abrupt _ => [] end !! i
          = Some r'
        ∧ App.id r' = App.id r
        ∧ (Sample.sql_eq (App.id r) (App.SqlText "1") = true →
           ∀ c : Column,
             column c r'
             = match lookup_prop (column_name c) [("ad", JString "Veli" : JsValue Z)] with
               | JUndefined | JNull => App.SqlNull
               | JBool b => App.SqlInteger (if b then 1 else 0)
               | JNumber n => App.SqlNumber n
               | JString s => App.SqlText s
               | JArray _ | JObject _ => App.SqlText "[object Object]"
               end)
        ∧ (Sample.sql_eq (App.id r) (App.SqlText "1") = false → r' = r).
Proof.
  apply (put_overwrites_every_column Sample.sql_eq Sample.unconstrained
           Sample.table _ "1" [("ad", JString "Veli")] (fst Sample.put_result)).
  - reflexivity.
  - apply List.Exists_cons_tl, List.Exists_cons_hd. reflexivity.
Defined.

(** The example, spelled out: the matched row keeps its key, takes "Veli"
    for [ad] and NULL for the eleven fields the body omits; the other row
    is untouched. *)
Example put_result_table :
  snd Sample.put_result
  = Normal
      [ {| App.id := App.SqlInteger 1;
           App.tc_no := App.SqlNull; App.ad := App.SqlText "Veli";
           App.soyad := App.SqlNull; App.dogum_tarihi := App.SqlNull;
           App.cinsiyet := App.SqlNull; App.telefon := App.SqlNull;
           App.email := App.SqlNull; App.adres := App.SqlNull;
           App.veli_adi := App.SqlNull; App.veli_telefonu := App.SqlNull;
           App.sinif_id := App.SqlNull; App.aktif := App.SqlNull |};
        Sample.row 2 "Ece" ].
Proof. reflexivity. Qed.

(** C10, as stated, fails for a request the store turns down: under a
    schema that declares [ad] NOT NULL, a PUT for student 1 whose body
    holds [soyad] only is answered 500 and the table is left as it was: the
    row keeps its [soyad] "Kaya" and every other column, none is NULL for
    being omitted. *)
Lemma put_rejected_update_counterexample :
  App.put_ogrenci Sample.sql_eq Sample.ad_not_null Sample.table "1"
    (JObject [("soyad", JString "Demir")])
  = ([ DbCall DbRun App.SQL_put_route
         (JArray [ JUndefined; JUndefined; JString "Demir"; JUndefined; JUndefined;
                   JUndefined; JUndefined; JUndefined; JUndefined; JUndefined;
                   JUndefined; JUndefined; JString "1" ]);
       Respond 500
         (JObject [("error",
                    JString "SQLITE_CONSTRAINT: NOT NULL constraint failed: ogrenciler.ad")]) ],
     Normal Sample.table)
  ∧ Sample.table !! 0%nat = Some (Sample.row 1 "Ali")
  ∧ Sample.sql_eq (App.id (Sample.row 1 "Ali")) (App.SqlText "1") = true
  ∧ App.soyad (Sample.row 1 "Ali") = App.SqlText "Kaya"
  ∧ App.ad (Sample.row 1 "Ali") = App.SqlText "Ali".
Proof. repeat split; reflexivity. Qed.

(** ** A session from open to close *)

(** A GET to [/sse] without a truthy [sessionId] registers the new
    transport under the identifier it drew, and the close of that
    transport takes the entry out again: if the identifier was new, the map
    is back to what it was. *)
Lemma session_lifecycle {Num} (transports : gmap string App.SSEServerTransport)
    (q : option App.QueryValue) (newSessionId : string) :
  App.query_truthy q = false →
  transports !! newSessionId = None →
  ∃ opened,
    App.get_sse (Num := Num) transports q newSessionId
    = ([ Connect newSessionId;
         ConsoleError [JString "Client Connected: "; JString newSessionId] ],
       Normal opened)
    ∧ opened !! newSessionId = Some {| App.sessionId := newSessionId |}
    ∧ App.onclose (Num := Num) {| App.sessionId := newSessionId |} opened
      = ([ ConsoleError [JString "Client Disconnected: "; JString newSessionId];
           Cleanup ],
         Normal transports).
Proof.
  intros Hq Hnew. unfold App.get_sse. rewrite Hq. simpl.
  eexists. split; [reflexivity|]. split; [apply lookup_insert_eq|].
  unfold App.onclose. simpl. by rewrite delete_insert_id.
Qed.

(** * Further properties *)

(** ** The effect monad, continued *)

Lemma bind_ret {Num A B} (a : A) (k : A → M Num B) : mbind k (ret a) = k a.
Proof. unfold mbind, M_bind, bind, ret. by destruct (k a). Qed.

Lemma bind_mret {Num A B} (a : A) (k : A → M Num B) : mbind k (mret a) = k a.
Proof. apply bind_ret. Qed.

Lemma bind_throw {Num A B} (e : Exn) (k : A → M Num B) : mbind k (throw e) = throw e.
Proof. reflexivity. Qed.

Lemma bind_emit {Num B} (ev : Event Num) (k : unit → M Num B) :
  mbind k (emit ev) = (ev :: fst (k tt), snd (k tt)).
Proof. unfold mbind, M_bind, bind, emit. by destruct (k tt). Qed.

Lemma try_catch_Normal {Num A} (events : list (Event Num)) (a : A) (h : Exn → M Num A) :
  try_catch (events, Normal a) h = (events, Normal a).
Proof. reflexivity. Qed.

Lemma try_catch_mret {Num A} (events : list (Event Num)) (e : Exn) (f : Exn → A) :
  try_catch ((events, Abrupt e) : M Num A) (λ error, mret (f error))
  = (events, Normal (f e)).
Proof. unfold try_catch. simpl. by rewrite app_nil_r. Qed.

(** ** The tool dispatcher of [src/app.js] *)

Section Dispatcher.
Context {Num : Type} `{!JsEngine Num}.
Variable db : Database Num.

Lemma conforms_number_field (k : string) (props : list (string * JsValue Num)) :
  conforms (ZodObject [(k, ZodNumber)]) (JObject props) = true →
  ∃ n, lookup_prop k props = JNumber n ∧ num_isNaN n = false.
Proof.
  simpl. destruct (lookup_prop k props); try discriminate.
  rewrite andb_true_r. intros Hn%negb_true_iff. by eexists.
Qed.

Lemma conforms_is_object (shape : list (string * ZodType)) (v : JsValue Num) :
  conforms (ZodObject shape) v = true → ∃ props, v = JObject props.
Proof. destruct v; try discriminate. by eexists. Qed.

Lemma parse_cases (schema : ZodType) (v : JsValue Num) :
  (conforms schema v = true ∧ parse schema v = ret (zod_output schema v))
  ∨ (conforms schema v = false ∧ ∃ issues, parse schema v = throw (ZodError issues)).
Proof.
  destruct (conforms schema v) eqn:Hc.
  - left. split; [done | by apply parse_valid].
  - right. split; [done|]. destruct (parse_invalid _ _ Hc) as (_ & ->). by eexists.
Qed.

Lemma strings_only (items : list (JsValue Num)) :
  forallb (conforms ZodString) items = true → ∃ strs, items = map JString strs.
Proof.
  induction items as [|x items IH]; simpl; [by exists []|].
  destruct x; try discriminate. intros Hi. destruct (IH Hi) as (strs & ->).
  by exists (s :: strs).
Qed.

Lemma number_call (k : string) (f : JsValue Num → M Num CallToolResult)
    (args : JsValue Num) :
  (∃ e, (validated ← parse (ZodObject [(k, ZodNumber)]) args;
         x ← get validated k; f x) = throw e)
  ∨ (∃ n, num_isNaN n = false
          ∧ (validated ← parse (ZodObject [(k, ZodNumber)]) args;
             x ← get validated k; f x) = f (JNumber n)).
Proof.
  destruct (parse_cases (ZodObject [(k, ZodNumber)]) args)
    as [(Hc & ->) | (_ & issues & ->)]; [|left; by eexists].
  right. destruct (conforms_is_object _ _ Hc) as (props & ->).
  destruct (conforms_number_field _ _ Hc) as (n & Hk & Hn).
  exists n. split; [done|].
  rewrite bind_ret. simpl. rewrite Hk. simpl. rewrite String.eqb_refl.
  by destruct (f (JNumber n)).
Qed.

Lemma custom_call (args : JsValue Num) :
  (∃ e, (validatedQuery ← parse App.CustomQuerySchema args;
         query ← get validatedQuery "query";
         params ← get validatedQuery "params";
         App.customQuery db query params) = throw e)
  ∨ (∃ q params,
       (params = JUndefined ∨ ∃ items, params = JArray (map JString items))
       ∧ (∃ props, args = JObject props ∧ lookup_prop "query" props = JString q
                   ∧ lookup_prop "params" props = params)
       ∧ (validatedQuery ← parse App.CustomQuerySchema args;
          query ← get validatedQuery "query";
          params ← get validatedQuery "params";
          App.customQuery db query params) = App.customQuery db (JString q) params).
Proof.
  destruct (parse_cases App.CustomQuerySchema args)
    as [(Hc & ->) | (_ & issues & ->)]; [|left; by eexists].
  right. destruct (conforms_is_object _ _ Hc) as (props & ->).
  simpl in Hc. rewrite andb_true_r in Hc. apply andb_true_iff in Hc as [Hq Hp].
  destruct (lookup_prop "query" props) as [| | | |q| |] eqn:Hquery; try discriminate.
  exists q, (lookup_prop "params" props). split; [|split].
  - destruct (lookup_prop "params" props) as [| | | | |items|];
      try discriminate; [by left | right].
    destruct (strings_only items Hp) as (strs & ->). by exists strs.
  - by exists props.
  - rewrite bind_ret. simpl. rewrite Hquery.
    destruct (lookup_prop "params" props) as [| | | | |items|] eqn:Hparams;
      try discriminate; simpl.
    + by destruct (App.customQuery db (JString q) JUndefined).
    + destruct (strings_only _ Hp) as (strs & ->).
      rewrite List.map_id. by destruct (App.customQuery db (JString q) _).
Qed.

Lemma search_call (args : JsValue Num) :
  (∃ e, (validatedSearch ← parse App.SearchSchema args;
         search ← get validatedSearch "search";
         App.searchStudents db search) = throw e)
  ∨ (∃ s, (validatedSearch ← parse App.SearchSchema args;
           search ← get validatedSearch "search";
           App.searchStudents db search) = App.searchStudents db (JString s)).
Proof.
  destruct (parse_cases App.SearchSchema args)
    as [(Hc & ->) | (_ & issues & ->)]; [|left; by eexists].
  right. destruct (conforms_is_object _ _ Hc) as (props & ->).
  simpl in Hc. rewrite andb_true_r in Hc.
  destruct (lookup_prop "search" props) as [| | | |s| |] eqn:Hs; try discriminate.
  exists s. rewrite bind_ret. simpl. rewrite Hs. simpl.
  by destruct (App.searchStudents db (JString s)).
Qed.

(** What the body of the [try] block does: it throws before any tool
    function is entered, or it is one validated call. *)
Lemma call_body_cases (name : string) (args : JsValue Num) :
  (∃ e, App.call_body db name args = throw e)
  ∨ validated_call db (App.call_body db name args).
Proof.
  unfold App.call_body. destruct (App.switch name) as [[]|]; [..|left; by eexists].
  - right. constructor.
  - destruct (number_call "id" (App.getStudentById db) args)
      as [(e & He) | (n & Hn & He)];
      [left; exists e; exact He | right; unfold App.StudentIdSchema; rewrite He; by constructor].
  - destruct (number_call "id" (App.getStudentGrades db) args)
      as [(e & He) | (n & Hn & He)];
      [left; exists e; exact He | right; unfold App.StudentIdSchema; rewrite He; by constructor].
  - destruct (number_call "id" (App.getStudentAttendance db) args)
      as [(e & He) | (n & Hn & He)];
      [left; exists e; exact He | right; unfold App.StudentIdSchema; rewrite He; by constructor].
  - destruct (number_call "id" (App.getStudentPayments db) args)
      as [(e & He) | (n & Hn & He)];
      [left; exists e; exact He | right; unfold App.StudentIdSchema; rewrite He; by constructor].
  - destruct (number_call "sinif_id" (App.getStudentsByClass db) args)
      as [(e & He) | (n & Hn & He)];
      [left; exists e; exact He | right; unfold App.ClassIdSchema; rewrite He; by constructor].
  - destruct (search_call args) as [(e & He) | (s & He)];
      [left; exists e; exact He | right; rewrite He; by constructor].
  - destruct (number_call "id" (App.getStudentAverage db) args)
      as [(e & He) | (n & Hn & He)];
      [left; exists e; exact He | right; unfold App.StudentIdSchema; rewrite He; by constructor].
  - destruct (custom_call args) as [(e & He) | (q & params & Hp & _ & He)];
      [left; exists e; exact He | right; rewrite He; by constructor].
Qed.

(** What a validated call does: the rejection of [customQuery], or one
    store call that reads, followed by the rows as a result or by the
    store's error. *)
Lemma validated_call_outcome (h : M Num CallToolResult) :
  validated_call db h →
  ∃ fn fargs,
    h = ([HandlerCall fn fargs], Abrupt (Error "Sadece SELECT sorguları desteklenir"))
    ∨ ∃ m sql ps,
        m ≠ DbRun
        ∧ (In sql fixed_statements
           ∨ startsWith (str_toUpperCase (str_trim sql)) "SELECT" = true)
        ∧ ((∃ v, h = ([HandlerCall fn fargs; DbCall m sql ps], Normal (json_result v)))
           ∨ (∃ msg, h = ([HandlerCall fn fargs; DbCall m sql ps], Abrupt (Error msg)))).
Proof.
  assert (Hrows : ∀ fn fargs sql ps,
    In sql fixed_statements →
    ∃ m sql' ps',
      m ≠ DbRun
      ∧ (In sql' fixed_statements
         ∨ startsWith (str_toUpperCase (str_trim sql')) "SELECT" = true)
      ∧ ((∃ v, (emit (HandlerCall fn fargs);; App.all_rows db sql ps)
               = ([HandlerCall fn fargs; DbCall m sql' ps'], Normal (json_result v)))
         ∨ (∃ msg, (emit (HandlerCall fn fargs);; App.all_rows db sql ps)
                   = ([HandlerCall fn fargs; DbCall m sql' ps'], Abrupt (Error msg))))).
  { intros fn fargs sql ps Hsql. exists DbAll, sql, (JArray ps).
    split; [done|]. split; [by left|].
    unfold App.all_rows. simpl. destruct (db_all db sql (JArray ps)) as [msg|rows].
    - right. by exists msg.
    - left. by eexists. }
  intros [ |n Hn|n Hn|n Hn|n Hn|n Hn|s|n Hn|q params Hp].
  - eexists _, _. right. apply Hrows. simpl. tauto.
  - eexists _, _. right. exists DbGet, App.SQL_getStudentById, (JArray [JNumber n]).
    split; [done|]. split; [left; simpl; tauto|].
    unfold App.getStudentById. simpl.
    destruct (db_get db _ _) as [msg|[row|]];
      [right; by eexists | left; by eexists | right; by eexists].
  - eexists _, _. right. apply Hrows. simpl. tauto.
  - eexists _, _. right. apply Hrows. simpl. tauto.
  - eexists _, _. right. apply Hrows. simpl. tauto.
  - eexists _, _. right. apply Hrows. simpl. tauto.
  - eexists _, _. right.
    exists DbAll, App.SQL_searchStudents,
      (JArray [JString ("%" +:+ s +:+ "%"); JString ("%" +:+ s +:+ "%");
               JString ("%" +:+ s +:+ "%")]).
    split; [done|]. split; [left; simpl; tauto|].
    unfold App.searchStudents, App.all_rows. simpl.
    destruct (db_all db _ _) as [msg|rows]; [right | left]; by eexists.
  - eexists _, _. right. exists DbAll, App.SQL_getStudentAverage, (JArray [JNumber n]).
    split; [done|]. split; [left; simpl; tauto|].
    unfold App.getStudentAverage. simpl.
    destruct (db_all db _ _) as [msg|rows]; [right | left]; by eexists.
  - eexists _, _. unfold App.customQuery. simpl.
    destruct (startsWith (str_toUpperCase (str_trim q)) "SELECT") eqn:Hq; simpl.
    + right. eexists DbAll, q, _. split; [done|]. split; [by right|].
      destruct (db_all db q _) as [msg|rows]; [right | left]; by eexists.
    + by left.
Qed.

(** A call either returns the error result of what was thrown before any
    tool function was entered (an unknown name, a [ZodError]), with an
    empty trace, or it is one validated call inside the [try] block. *)
Lemma callTool_cases (name : string) (args : JsValue Num) :
  (∃ e, App.callTool db name args = ([], Normal (App.error_result e)))
  ∨ (∃ h, validated_call db h
          ∧ App.callTool db name args
            = try_catch h (λ error, mret (App.error_result error))).
Proof.
  unfold App.callTool.
  destruct (call_body_cases name args) as [(e & ->) | Hv].
  - left. by exists e.
  - right. by eexists.
Qed.

(** A validated call records its entry first, with typed arguments, and
    then only calls the store. *)
Lemma validated_call_entry (h : M Num CallToolResult) :
  validated_call db h →
  ∃ fn fargs rest c,
    h = (HandlerCall fn fargs :: rest, c)
    ∧ typed_entry fn fargs
    ∧ Forall (λ ev, is_DbCall ev = true) rest.
Proof.
  intros [ |n Hn|n Hn|n Hn|n Hn|n Hn|s|n Hn|q params Hp];
    unfold App.getAllStudents, App.getStudentById, App.getStudentGrades,
      App.getStudentAttendance, App.getStudentPayments, App.getStudentsByClass,
      App.searchStudents, App.getStudentAverage, App.customQuery, App.all_rows;
    simpl.
  - destruct (db_all db _ _); eexists _, _, _, _;
      (split; [reflexivity|]); (split; [left; by split | by repeat constructor]).
  - destruct (db_get db _ _) as [?|[?|]]; eexists _, _, _, _;
      (split; [reflexivity|]);
      (split; [right; left; split; [simpl; tauto | by eexists]
              | by repeat constructor]).
  - destruct (db_all db _ _); eexists _, _, _, _;
      (split; [reflexivity|]);
      (split; [right; left; split; [simpl; tauto | by eexists]
              | by repeat constructor]).
  - destruct (db_all db _ _); eexists _, _, _, _;
      (split; [reflexivity|]);
      (split; [right; left; split; [simpl; tauto | by eexists]
              | by repeat constructor]).
  - destruct (db_all db _ _); eexists _, _, _, _;
      (split; [reflexivity|]);
      (split; [right; left; split; [simpl; tauto | by eexists]
              | by repeat constructor]).
  - destruct (db_all db _ _); eexists _, _, _, _;
      (split; [reflexivity|]);
      (split; [right; left; split; [simpl; tauto | by eexists]
              | by repeat constructor]).
  - destruct (db_all db _ _); eexists _, _, _, _;
      (split; [reflexivity|]);
      (split; [right; right; left; split; [done | by eexists]
              | by repeat constructor]).
  - destruct (db_all db _ _); eexists _, _, _, _;
      (split; [reflexivity|]);
      (split; [right; left; split; [simpl; tauto | by eexists]
              | by repeat constructor]).
  - destruct (startsWith _ _); simpl; [destruct (db_all db _ _)|];
      eexists _, _, _, _; (split; [reflexivity|]);
      (split; [right; right; right; split; [done | by eexists _, _]
              | by repeat constructor]).
Qed.

(** X1. The dispatcher of [src/app.js] enters a tool function only with
    arguments of the types its schema declares: whatever the name and the
    arguments of the call, an entry that the trace records is that of one
    of the nine tool functions, with a number that is not NaN for an
    identifier, a string for a search term, and for [customQuery] a string
    and parameters that are absent or an array of strings. *)
Theorem dispatcher_enters_validated (name : string) (args : JsValue Num)
    (fn : string) (fargs : list (JsValue Num)) :
  In (HandlerCall fn fargs) (fst (App.callTool db name args)) →
  typed_entry fn fargs.
Proof.
  destruct (callTool_cases name args) as [(e & ->) | (h & Hv & ->)]; [by intros []|].
  destruct (validated_call_entry h Hv) as (fn' & fargs' & rest & c & -> & Ht & Hrest).
  assert (Hin : In (HandlerCall fn fargs) (HandlerCall fn' fargs' :: rest) →
                typed_entry fn fargs).
  { intros [[= <- <-] | Hin]; [done|].
    rewrite List.Forall_forall in Hrest. by apply Hrest in Hin. }
  destruct c as [r|e]; simpl; [done|].
  by rewrite app_nil_r.
Qed.

(** What a validated call does, in full: the rejection of [customQuery],
    or one store call that reads, followed by what the tool function makes
    of the store's answer. *)
Lemma validated_call_result (h : M Num CallToolResult) :
  validated_call db h →
  ∃ fn fargs,
    h = ([HandlerCall fn fargs], Abrupt (Error "Sadece SELECT sorguları desteklenir"))
    ∨ (∃ sql ps,
         h = ([HandlerCall fn fargs; DbCall DbAll sql ps],
              match db_all db sql ps with
              | inr rows =>
                  Normal (json_result (App.data_object
                    (if String.eqb fn "getStudentAverage"
                     then JObject [("genel_ortalama",
                                    JString (num_toFixed2 (rows_mean rows)));
                                   ("ders_ortalamalari", JArray rows)]
                     else JArray rows)))
              | inl msg => Abrupt (Error msg)
              end))
    ∨ (∃ sql ps,
         h = ([HandlerCall fn fargs; DbCall DbGet sql ps],
              match db_get db sql ps with
              | inr (Some row) => Normal (json_result (App.data_object row))
              | inr None => Abrupt (Error "Öğrenci bulunamadı")
              | inl msg => Abrupt (Error msg)
              end)).
Proof.
  intros [ |n Hn|n Hn|n Hn|n Hn|n Hn|s|n Hn|q params Hp];
    unfold App.getAllStudents, App.getStudentById, App.getStudentGrades,
      App.getStudentAttendance, App.getStudentPayments, App.getStudentsByClass,
      App.searchStudents, App.getStudentAverage, App.customQuery, App.all_rows;
    simpl.
  all: try match goal with
    | |- context [db_all db ?sql ?ps] =>
        eexists _, _; right; left; exists sql, ps; by destruct (db_all db sql ps)
    | |- context [db_get db ?sql ?ps] =>
        eexists _, _; right; right; exists sql, ps;
        by destruct (db_get db sql ps) as [?|[?|]]
    end.
  destruct (startsWith _ _); simpl.
  - eexists _, _. right. left.
    match goal with
    | |- context [db_all db ?sql ?ps] => exists sql, ps; by destruct (db_all db sql ps)
    end.
  - eexists _, _. by left.
Qed.

(** X2. The dispatcher of [src/app.js] never throws, whatever the name, the
    arguments and the store, and its result is decided by the store's
    answer. A call ends in one of four ways: with the error result of what
    was thrown before any tool function was entered, and an empty trace;
    with the error result of the rejection of [customQuery], after its
    entry alone; after one [db.all], with the JSON text of [{ data: rows }]
    for the rows the store answered ([getStudentAverage] puts their mean,
    with two decimals, and the rows into [data]) or with the error result
    of the store's message; after one [db.get], with the JSON text of
    [{ data: row }] for the row the store answered, the error result
    "Öğrenci bulunamadı" when it answered no row, or the error result of
    the store's message. *)
Theorem dispatcher_outcomes (name : string) (args : JsValue Num) :
  ∃ events r,
    App.callTool db name args = (events, Normal r)
    ∧ ((∃ e, events = [] ∧ r = App.error_result e)
       ∨ (∃ fn fargs,
            events = [HandlerCall fn fargs]
            ∧ r = App.error_result (Error "Sadece SELECT sorguları desteklenir"))
       ∨ (∃ fn fargs sql ps,
            events = [HandlerCall fn fargs; DbCall DbAll sql ps]
            ∧ r = match db_all db sql ps with
                  | inr rows =>
                      json_result (App.data_object
                        (if String.eqb fn "getStudentAverage"
                         then JObject [("genel_ortalama",
                                        JString (num_toFixed2 (rows_mean rows)));
                                       ("ders_ortalamalari", JArray rows)]
                         else JArray rows))
                  | inl msg => App.error_result (Error msg)
                  end)
       ∨ (∃ fn fargs sql ps,
            events = [HandlerCall fn fargs; DbCall DbGet sql ps]
            ∧ r = match db_get db sql ps with
                  | inr (Some row) => json_result (App.data_object row)
                  | inr None => App.error_result (Error "Öğrenci bulunamadı")
                  | inl msg => App.error_result (Error msg)
                  end)).
Proof.
  destruct (callTool_cases name args) as [(e & ->) | (h & Hv & ->)].
  - eexists _, _. split; [reflexivity|]. left. by exists e.
  - destruct (validated_call_result h Hv)
      as (fn & fargs & [-> | [(sql & ps & ->) | (sql & ps & ->)]]).
    + eexists _, _. split; [reflexivity|]. right. left. by eexists _, _.
    + destruct (db_all db sql ps) as [msg|rows] eqn:Hdb.
      * eexists _, _. split; [reflexivity|]. right. right. left.
        eexists fn, fargs, sql, ps. by rewrite Hdb.
      * eexists _, _. split; [reflexivity|]. right. right. left.
        eexists fn, fargs, sql, ps. by rewrite Hdb.
    + destruct (db_get db sql ps) as [msg|[row|]] eqn:Hdb.
      * eexists _, _. split; [reflexivity|]. right. right. right.
        eexists fn, fargs, sql, ps. by rewrite Hdb.
      * eexists _, _. split; [reflexivity|]. right. right. right.
        eexists fn, fargs, sql, ps. by rewrite Hdb.
      * eexists _, _. split; [reflexivity|]. right. right. right.
        eexists fn, fargs, sql, ps. by rewrite Hdb.
Qed.

(** X3. What the dispatcher of [src/app.js] asks of the store: at most one
    call per tool call, never a [db.run], and a statement that is one of
    the eight the tool functions hold or, trimmed and upper-cased, starts
    with "SELECT". *)
Theorem dispatcher_store_calls (name : string) (args : JsValue Num) :
  let events := fst (App.callTool db name args) in
  (length (filter (λ ev, is_DbCall ev = true) events) ≤ 1)%nat
  ∧ ∀ m sql ps,
      In (DbCall m sql ps) events →
      m ≠ DbRun
      ∧ (In sql fixed_statements
         ∨ startsWith (str_toUpperCase (str_trim sql)) "SELECT" = true).
Proof.
  destruct (callTool_cases name args) as [(e & ->) | (h & Hv & ->)].
  - simpl. split; [lia | intros ? ? ? []].
  - destruct (validated_call_outcome h Hv)
      as (fn & fargs & [-> | (m & sql & ps & Hm & Hsql & [(v & ->) | (msg & ->)])]);
      simpl.
    + split; [lia|]. intros ? ? ? [[=] | []].
    + split; [reflexivity|]. intros ? ? ? [[=] | [[= <- <- <-] | []]]. done.
    + split; [reflexivity|]. intros ? ? ? [[=] | [[= <- <- <-] | []]]. done.
Qed.

(** X4. When the store fails, with the same message on every statement, a
    tool call that reached the store returns the error result of that
    message. *)
Theorem dispatcher_wraps_store_error (msg : string) (name : string)
    (args : JsValue Num) :
  (∀ sql ps, db_all db sql ps = inl msg) →
  (∀ sql ps, db_get db sql ps = inl msg) →
  Exists (λ ev, is_DbCall ev = true) (fst (App.callTool db name args)) →
  snd (App.callTool db name args)
  = Normal {| content := [ {| type := "text"; text := "Error: " +:+ msg |} ];
              isError := Some true |}.
Proof.
  intros Hall Hget.
  destruct (callTool_cases name args) as [(e & ->) | (h & Hv & ->)].
  - simpl. by intros ?%Exists_nil.
  - destruct Hv as [ |n Hn|n Hn|n Hn|n Hn|n Hn|s|n Hn|q params Hp];
      unfold App.getAllStudents, App.getStudentById, App.getStudentGrades,
        App.getStudentAttendance, App.getStudentPayments, App.getStudentsByClass,
        App.searchStudents, App.getStudentAverage, App.all_rows;
      simpl; rewrite ?Hall, ?Hget; try reflexivity.
    unfold App.customQuery. simpl.
    destruct (startsWith _ _) eqn:Hq; simpl; [by rewrite Hall|].
    intros [Hev | Hev%Exists_nil]%Exists_cons; [discriminate | done].
Qed.

Lemma zod_issues_agree (shape : list (string * ZodType)) (p : list PathElem)
    (props props' : list (string * JsValue Num)) :
  (∀ k tk, In (k, tk) shape → lookup_prop k props = lookup_prop k props') →
  zod_issues (ZodObject shape) p (JObject props)
  = zod_issues (ZodObject shape) p (JObject props').
Proof.
  simpl. induction shape as [|[k tk] shape IH]; intros Hagree; [reflexivity|].
  rewrite (Hagree k tk) by (by left). f_equal.
  apply IH. intros k' tk' Hin. apply (Hagree k' tk'). by right.
Qed.

Lemma zod_output_agree (shape : list (string * ZodType))
    (props props' : list (string * JsValue Num)) :
  (∀ k tk, In (k, tk) shape → lookup_prop k props = lookup_prop k props') →
  zod_output (ZodObject shape) (JObject props)
  = zod_output (ZodObject shape) (JObject props').
Proof.
  simpl. intros Hagree. f_equal.
  induction shape as [|[k tk] shape IH]; [reflexivity|].
  rewrite (Hagree k tk) by (by left).
  rewrite IH; [reflexivity|]. intros k' tk' Hin. apply (Hagree k' tk'). by right.
Qed.

Lemma parse_agree (shape : list (string * ZodType))
    (props props' : list (string * JsValue Num)) :
  (∀ k tk, In (k, tk) shape → lookup_prop k props = lookup_prop k props') →
  parse (ZodObject shape) (JObject props) = parse (ZodObject shape) (JObject props').
Proof.
  intros Hagree. unfold parse.
  by rewrite (zod_issues_agree _ _ _ _ Hagree), (zod_output_agree _ _ _ Hagree).
Qed.

(** X5. A tool call of [src/app.js] depends on its argument object through
    the declared fields only: two objects that agree on the fields of the
    tool's schema get the same result and the same trace, so that fields
    the schema does not declare are ignored, not rejected. *)
Theorem dispatcher_reads_declared_fields (tool : App.Tool)
    (shape : list (string * ZodType)) (props props' : list (string * JsValue Num)) :
  In tool App.tools →
  App.inputSchema tool = App.zodToJsonSchema (ZodObject shape) →
  (∀ k tk, In (k, tk) shape → lookup_prop k props = lookup_prop k props') →
  App.callTool db (App.name tool) (JObject props)
  = App.callTool db (App.name tool) (JObject props').
Proof.
  intros Htool Hschema Hagree. simpl in Htool.
  repeat (destruct Htool as [<- | Htool];
    [simpl in Hschema;
     first [ discriminate
           | unfold App.StudentIdSchema, App.ClassIdSchema, App.SearchSchema,
               App.CustomQuerySchema in Hschema;
             injection Hschema as <-;
             unfold App.callTool, App.call_body, App.StudentIdSchema,
               App.ClassIdSchema, App.SearchSchema, App.CustomQuerySchema; simpl;
             by rewrite (parse_agree _ props props' Hagree) ]|]).
  destruct Htool.
Qed.

(** X6. A query string that, trimmed and upper-cased, starts with "SELECT"
    is handed to the store as it was sent, untrimmed and whatever follows
    the prefix. The tool does so once its [params] passed the schema
    (absent, or an array of strings); the route hands over any [params] the
    body carries. Either returns the rows, or the store's error. *)
Theorem custom_query_submits_verbatim (q : string)
    (props : list (string * JsValue Num)) :
  startsWith (str_toUpperCase (str_trim q)) "SELECT" = true →
  lookup_prop "query" props = JString q →
  let params := lookup_prop "params" props in
  (conforms App.CustomQuerySchema (JObject props) = true →
   App.callTool db "custom_query" (JObject props)
   = ([ HandlerCall "customQuery" [JString q; params];
        DbCall DbAll q (query_params params) ],
      Normal match db_all db q (query_params params) with
             | inl msg => App.error_result (Error msg)
             | inr rows => json_result (App.data_object (JArray rows))
             end))
  ∧ App.post_custom_query db (JObject props)
    = ([ DbCall DbAll q (query_params params);
         match db_all db q (query_params params) with
         | inl msg => Respond 500 (JObject [("error", JString msg)])
         | inr rows => Respond 200 (App.data_object (JArray rows))
         end ],
       Normal tt).
Proof.
  intros Hq Hquery params. split.
  - intros Hc. unfold App.callTool, App.call_body. simpl.
    destruct (custom_call (JObject props))
      as [(e & He) | (q' & params' & _ & (props' & [= <-] & Hq' & Hp') & He)].
    + rewrite (parse_valid _ _ Hc) in He. rewrite bind_ret in He.
      exfalso. revert He. simpl. rewrite Hquery.
      destruct (match lookup_prop "params" props with
                | JUndefined => JUndefined | _ => _ end); simpl;
        unfold App.customQuery; simpl; rewrite Hq; simpl;
        destruct (db_all db q _); discriminate.
    + rewrite He. rewrite Hquery in Hq'. injection Hq' as <-. subst params'.
      unfold App.customQuery. simpl. rewrite Hq. simpl. fold params.
      change (match params with JUndefined => JArray [] | _ => params end)
        with (query_params params).
      by destruct (db_all db q (query_params params)).
  - unfold App.post_custom_query. simpl. rewrite Hquery. simpl. rewrite Hq. simpl.
    fold params.
    change (match params with JUndefined => JArray [] | _ => params end)
      with (query_params params).
    by destruct (db_all db q (query_params params)).
Qed.

End Dispatcher.

Lemma dispatcher_enters_validated_witness :
  typed_entry (Num := Z) "getStudentGrades" [JNumber 7%Z].
Proof.
  apply (dispatcher_enters_validated Engine.failing "get_student_grades"
           (JObject [("id", JNumber 7%Z)])).
  simpl. left. reflexivity.
Defined.

Lemma dispatcher_wraps_store_error_witness :
  snd (App.callTool Engine.failing "get_all_students" JUndefined)
  = Normal {| content := [ {| type := "text"; text := "Error: SQLITE_ERROR" |} ];
              isError := Some true |}.
Proof.
  apply (dispatcher_wraps_store_error Engine.failing "SQLITE_ERROR"
           "get_all_students" JUndefined).
  - intros sql ps. reflexivity.
  - intros sql ps. reflexivity.
  - simpl. apply List.Exists_cons_tl, List.Exists_cons_hd. reflexivity.
Defined.

Lemma dispatcher_reads_declared_fields_witness :
  App.callTool Engine.no_rows "get_student_by_id" (JObject [("id", JNumber 7%Z)])
  = App.callTool Engine.no_rows "get_student_by_id"
      (JObject [("id", JNumber 7%Z); ("admin", JBool true)]).
Proof.
  apply (dispatcher_reads_declared_fields Engine.no_rows
           {| App.name := "get_student_by_id";
              App.description := "ID ile öğrenci bilgilerini getir";
              App.inputSchema := App.zodToJsonSchema App.StudentIdSchema |}
           [("id", ZodNumber)]
           [("id", JNumber 7%Z)] [("id", JNumber 7%Z); ("admin", JBool true)]).
  - simpl. right. left. reflexivity.
  - reflexivity.
  - intros k tk [[= <- <-] | []]. reflexivity.
Defined.

Lemma custom_query_submits_verbatim_witness :
  App.post_custom_query Engine.no_rows
    (JObject [("query", JString " select 1 ; drop table notlar")])
  = ([ DbCall DbAll " select 1 ; drop table notlar" (JArray []);
       Respond 200 (JObject [("data", JArray [])]) ],
     Normal tt).
Proof.
  refine (proj2 (custom_query_submits_verbatim Engine.no_rows
                   " select 1 ; drop table notlar"
                   [("query", JString " select 1 ; drop table notlar")] _ _));
    reflexivity.
Defined.

(** ** The REST routes of [src/app.js] *)

Section RestRoutes.
Context {Num : Type} `{!JsEngine Num}.
Variable db : Database Num.

(** X7. Each of these routes completes without throwing and sends exactly
    one response, as its last action, after at most one store call, which
    reads. The status is 500, with the store's message as [error], exactly
    when that store call failed. *)
Theorem routes_answer_once (h : M Num unit) :
  answering_route db h →
  ∃ store status body,
    h = (store ++ [Respond status body], Normal tt)
    ∧ (store = [] ∨ ∃ m sql ps, store = [DbCall m sql ps] ∧ m ≠ DbRun)
    ∧ (status = 500 ↔
       ∃ ev msg, store = [ev] ∧ store_error db ev = Some msg
                 ∧ body = JObject [("error", JString msg)]).
Proof.
  assert (Hrows : ∀ sql ps,
    ∃ store status body,
      Rest.rows_route db sql ps = (store ++ [Respond status body], Normal tt)
      ∧ (store = [] ∨ ∃ m sql ps, store = [DbCall m sql ps] ∧ m ≠ DbRun)
      ∧ (status = 500 ↔
         ∃ ev msg, store = [ev] ∧ store_error db ev = Some msg
                   ∧ body = JObject [("error", JString msg)])).
  { intros sql ps. exists [DbCall DbAll sql (JArray ps)].
    unfold Rest.rows_route. simpl.
    destruct (db_all db sql (JArray ps)) as [msg|rows] eqn:Hdb; simpl.
    - eexists _, _. split; [reflexivity|]. split; [right; by eexists _, _, _|].
      split; [intros _|done]. eexists _, msg. split; [reflexivity|].
      simpl. by rewrite Hdb.
    - eexists _, _. split; [reflexivity|]. split; [right; by eexists _, _, _|].
      split; [done|]. intros (ev & msg & [= <-] & Hev & _). simpl in Hev.
      by rewrite Hdb in Hev. }
  assert (Hfixed : ∀ body,
    ∃ store status body',
      (emit (Respond 200 body) : M Num unit) = (store ++ [Respond status body'], Normal tt)
      ∧ (store = [] ∨ ∃ m sql ps, store = [DbCall m sql ps] ∧ m ≠ DbRun)
      ∧ (status = 500 ↔
         ∃ ev msg, store = [ev] ∧ store_error db ev = Some msg
                   ∧ body' = JObject [("error", JString msg)])).
  { intros body. exists [], 200, body. split; [reflexivity|]. split; [by left|].
    split; [done|]. by intros (? & ? & [=] & _). }
  intros [ |id|id|id|id|sinifId|search|props q Hq| | | ];
    try apply Hrows; try apply Hfixed.
  - exists [DbCall DbGet Rest.SQL_ogrenci (JArray [JString id])].
    unfold Rest.get_ogrenci. simpl.
    destruct (db_get db _ _) as [msg|[row|]] eqn:Hdb; simpl;
      (eexists _, _; split; [reflexivity|]; split; [right; by eexists _, _, _|]).
    + split; [intros _|done]. eexists _, msg. split; [reflexivity|].
      simpl. by rewrite Hdb.
    + split; [done|]. intros (ev & msg & [= <-] & Hev & _). simpl in Hev.
      by rewrite Hdb in Hev.
    + split; [done|]. intros (ev & msg & [= <-] & Hev & _). simpl in Hev.
      by rewrite Hdb in Hev.
  - unfold App.post_custom_query. simpl. rewrite Hq. simpl.
    destruct (startsWith _ _); simpl.
    + set (ps := match lookup_prop "params" props with JUndefined => JArray [] | _ => _ end).
      exists [DbCall DbAll q ps].
      destruct (db_all db q ps) as [msg|rows] eqn:Hdb; simpl;
        (eexists _, _; split; [reflexivity|]; split; [right; by eexists _, _, _|]).
      * split; [intros _|done]. eexists _, msg. split; [reflexivity|].
        simpl. by rewrite Hdb.
      * split; [done|]. intros (ev & msg & [= <-] & Hev & _). simpl in Hev.
        by rewrite Hdb in Hev.
    + exists [], 400, (JObject [("error", JString "Sadece SELECT sorguları desteklenir")]).
      split; [reflexivity|]. split; [by left|].
      split; [done|]. by intros (? & ? & [=] & _).
Qed.

(** X8. The average route never answers 200: it answers (with 500) exactly
    when the store fails, and otherwise ends in the [ReferenceError]
    without a response. *)
Theorem ortalama_route_never_succeeds (id : string) :
  Forall (λ ev, is_Respond 200 ev = false) (fst (App.get_ortalama db id))
  ∧ (snd (App.get_ortalama db id) = Normal tt
     ↔ ∃ msg, db_all db App.SQL_ortalama_route (JArray [JString id]) = inl msg)
  ∧ (Exists (λ ev, is_any_Respond ev = true) (fst (App.get_ortalama db id))
     ↔ ∃ msg, db_all db App.SQL_ortalama_route (JArray [JString id]) = inl msg).
Proof.
  unfold App.get_ortalama.
  destruct (db_all db App.SQL_ortalama_route (JArray [JString id])) as [msg|rows];
    simpl.
  - split; [by repeat constructor|]. split; (split; [by eexists|]); intros _;
      [reflexivity|]. apply Exists_cons. right. apply Exists_cons. by left.
  - split; [by repeat constructor|].
    split; (split; [|by intros (? & [=])]); [discriminate|].
    intros [? | ?%Exists_nil]%Exists_cons; [discriminate | done].
Qed.

(** X9. A request whose body has no query string makes the query route
    throw a [TypeError] before it answers or reaches the store: so does a
    body that is [undefined] or [null], and an object without a [query]
    that is a string. *)
Theorem custom_query_route_throws_without_query (body : JsValue Num) :
  (∀ props q, body = JObject props → lookup_prop "query" props ≠ JString q) →
  ∃ msg, App.post_custom_query db body = ([], Abrupt (TypeError msg)).
Proof.
  intros Hbody. unfold App.post_custom_query.
  destruct body as [| | | | | |props]; simpl; try (by eexists).
  destruct (lookup_prop "query" props) as [| | | |q| |] eqn:Hq; simpl;
    try (by eexists).
  by destruct (Hbody props q).
Qed.

End RestRoutes.

Lemma routes_answer_once_witness :
  ∃ store status body,
    Rest.get_ogrenci Fixture.one_row "1" = (store ++ [Respond status body], Normal tt)
    ∧ (store = [] ∨ ∃ m sql ps, store = [DbCall m sql ps] ∧ m ≠ DbRun)
    ∧ (status = 500 ↔
       ∃ ev msg, store = [ev] ∧ store_error Fixture.one_row ev = Some msg
                 ∧ body = JObject [("error", JString msg)]).
Proof.
  apply (routes_answer_once Fixture.one_row (Rest.get_ogrenci Fixture.one_row "1")).
  apply route_ogrenci.
Defined.

Lemma custom_query_route_throws_without_query_witness :
  ∃ msg,
    App.post_custom_query Engine.no_rows (JObject [("sql", JString "select 1")])
    = ([], Abrupt (TypeError msg)).
Proof.
  apply (custom_query_route_throws_without_query Engine.no_rows
           (JObject [("sql", JString "select 1")])).
  intros props q [= <-]. simpl. discriminate.
Defined.

(** ** The routes that write: update and soft delete *)

Section Writes.
Context {Num : Type} `{!JsEngine Num}.
Variable sql_eq : App.SqlValue Num → App.SqlValue Num → bool.
Variable constraint_error : list (App.Ogrenci Num) → option string.

Lemma update_aktif_idem (key : App.SqlValue Num) (table : list (App.Ogrenci Num)) :
  Rest.update_aktif sql_eq key (Rest.update_aktif sql_eq key table)
  = Rest.update_aktif sql_eq key table.
Proof.
  unfold Rest.update_aktif. rewrite List.map_map. apply List.map_ext.
  intros r. destruct (sql_eq (App.id r) key) eqn:Hr; simpl; by rewrite Hr.
Qed.

Lemma changes_map (key : App.SqlValue Num) (f : App.Ogrenci Num → App.Ogrenci Num)
    (table : list (App.Ogrenci Num)) :
  (∀ r, App.id (f r) = App.id r) →
  App.changes sql_eq key (map f table) = App.changes sql_eq key table.
Proof.
  intros Hf. unfold App.changes.
  induction table as [|r table IH]; simpl; [done|].
  rewrite !filter_cons, Hf.
  destruct (decide (sql_eq (App.id r) key = true)); simpl; by rewrite IH.
Qed.

Lemma changes_update_aktif (key : App.SqlValue Num) (table : list (App.Ogrenci Num)) :
  App.changes sql_eq key (Rest.update_aktif sql_eq key table)
  = App.changes sql_eq key table.
Proof.
  apply changes_map. intros r. by destruct (sql_eq (App.id r) key).
Qed.

Lemma changes_unmatched (key : App.SqlValue Num) (table : list (App.Ogrenci Num)) :
  (∀ r, In r table → sql_eq (App.id r) key = false) →
  App.changes sql_eq key table = 0.
Proof.
  unfold App.changes. induction table as [|r table IH]; simpl; [done|].
  intros Hno. rewrite filter_cons.
  destruct (decide (sql_eq (App.id r) key = true)) as [Hr|Hr].
  - rewrite Hno in Hr; [discriminate | by left].
  - apply IH. intros r' Hr'. apply Hno. by right.
Qed.

Lemma map_unmatched (key : App.SqlValue Num) (f : App.Ogrenci Num → App.Ogrenci Num)
    (table : list (App.Ogrenci Num)) :
  (∀ r, In r table → sql_eq (App.id r) key = false) →
  map (λ r, if sql_eq (App.id r) key then f r else r) table = table.
Proof.
  induction table as [|r table IH]; simpl; [done|].
  intros Hno. rewrite Hno; [|by left]. f_equal. apply IH.
  intros r' Hr'. apply Hno. by right.
Qed.

(** X10. The delete route never throws, and it is a soft delete: the table
    keeps its length, every row keeps its key and each column other than
    [aktif], a row whose key differs from [req.params.id] is unchanged, and
    when the route answers 200 the rows with that key have [aktif] 0; when
    it does not, the table is unchanged. *)
Theorem delete_is_soft (table : list (App.Ogrenci Num)) (id_param : string) :
  ∃ events table',
    Rest.delete_ogrenci sql_eq constraint_error table id_param = (events, Normal table')
    ∧ length table' = length table
    ∧ (¬ Exists (λ ev, is_Respond 200 ev = true) events → table' = table)
    ∧ ∀ (i : nat) (r : App.Ogrenci Num),
        table !! i = Some r →
        ∃ r',
          table' !! i = Some r' ∧ App.id r' = App.id r
          ∧ (∀ c : Column, c ≠ c_aktif → column c r' = column c r)
          ∧ (sql_eq (App.id r) (App.SqlText id_param) = false → r' = r)
          ∧ (sql_eq (App.id r) (App.SqlText id_param) = true →
             Exists (λ ev, is_Respond 200 ev = true) events →
             App.aktif r' = App.SqlInteger 0).
Proof.
  unfold Rest.delete_ogrenci. simpl.
  destruct (constraint_error _) as [err|]; simpl.
  - eexists _, _. split; [reflexivity|]. split; [done|]. split; [done|].
    intros i r Hr. exists r. repeat split; try done.
    intros _ [? | [? | ?%Exists_nil]%Exists_cons]%Exists_cons; done.
  - eexists _, _. split; [reflexivity|]. split; [apply length_map|].
    split.
    { intros Hno. destruct Hno. apply Exists_cons. right. apply Exists_cons. by left. }
    intros i r Hr. eexists. split; [by apply lookup_map|].
    destruct (sql_eq (App.id r) (App.SqlText id_param)); simpl.
    + split; [done|]. split; [by intros []|]. by split.
    + by repeat split.
Qed.

(** X11. The delete route is idempotent: run again on the table it left,
    for the same [req.params.id], it gives the same answer and leaves that
    table. *)
Theorem delete_is_idempotent (table table' : list (App.Ogrenci Num)) (id_param : string)
    (events : list (Event Num)) :
  Rest.delete_ogrenci sql_eq constraint_error table id_param = (events, Normal table') →
  Rest.delete_ogrenci sql_eq constraint_error table' id_param = (events, Normal table').
Proof.
  unfold Rest.delete_ogrenci. simpl.
  destruct (constraint_error (Rest.update_aktif _ _ table)) as [err|] eqn:Hce; simpl.
  - intros [= <- <-]. by rewrite Hce.
  - intros [= <- <-]. by rewrite update_aktif_idem, Hce, changes_update_aktif.
Qed.

(** X12. A delete for an identifier that no row has answers 200 with
    [changes] 0 and leaves the table as it was: the route has no 404. The
    table is one the schema accepts. *)
Theorem delete_unknown_id (table : list (App.Ogrenci Num)) (id_param : string) :
  (∀ r, In r table → sql_eq (App.id r) (App.SqlText id_param) = false) →
  constraint_error table = None →
  Rest.delete_ogrenci sql_eq constraint_error table id_param
  = ([ DbCall DbRun Rest.SQL_sil (JArray [JString id_param]);
       Respond 200 (JObject [("message", JString "Öğrenci başarıyla silindi");
                             ("changes", JNumber (num_ofNat 0))]) ],
     Normal table).
Proof.
  intros Hno Hce. unfold Rest.delete_ogrenci, Rest.update_aktif. simpl.
  rewrite map_unmatched by done. rewrite Hce. simpl.
  by rewrite changes_unmatched.
Qed.

(** A body that is neither [undefined] nor [null] is read as an object:
    one that is not an object has none of the fields. *)
Lemma put_ogrenci_body (table : list (App.Ogrenci Num)) (id_param : string)
    (body : JsValue Num) :
  body ≠ JUndefined → body ≠ JNull →
  App.put_ogrenci sql_eq constraint_error table id_param body
  = App.put_ogrenci sql_eq constraint_error table id_param
      (JObject match body with JObject props => props | _ => [] end).
Proof. intros Hu Hn. by destruct body. Qed.

Lemma update_ogrenciler_idem (p1 p2 p3 p4 p5 p6 p7 p8 p9 p10 p11 p12 key : App.SqlValue Num)
    (table : list (App.Ogrenci Num)) :
  App.update_ogrenciler sql_eq p1 p2 p3 p4 p5 p6 p7 p8 p9 p10 p11 p12 key
    (App.update_ogrenciler sql_eq p1 p2 p3 p4 p5 p6 p7 p8 p9 p10 p11 p12 key table)
  = App.update_ogrenciler sql_eq p1 p2 p3 p4 p5 p6 p7 p8 p9 p10 p11 p12 key table.
Proof.
  unfold App.update_ogrenciler. rewrite List.map_map. apply List.map_ext.
  intros r. destruct (sql_eq (App.id r) key) eqn:Hr; simpl; by rewrite Hr.
Qed.

(** X13. The update route is idempotent. For every body that is neither
    [undefined] nor [null] it completes, and the same request on the table
    it left gives the same store call and the same answer, the count of
    changed rows included, and leaves that table. *)
Theorem put_is_idempotent (table : list (App.Ogrenci Num)) (id_param : string)
    (body : JsValue Num) :
  body ≠ JUndefined → body ≠ JNull →
  ∃ events table',
    App.put_ogrenci sql_eq constraint_error table id_param body
      = (events, Normal table')
    ∧ App.put_ogrenci sql_eq constraint_error table' id_param body
      = (events, Normal table').
Proof.
  intros Hu Hn.
  pose proof (λ t, put_ogrenci_body t id_param body Hu Hn) as Hbody.
  eexists _, _. split.
  - rewrite Hbody. apply put_ogrenci_object.
  - cbv zeta.
    destruct (constraint_error (App.update_ogrenciler _ _ _ _ _ _ _ _ _ _ _ _ _ _ table))
      as [err|] eqn:Hce.
    + rewrite Hbody, put_ogrenci_object. cbv zeta. by rewrite Hce.
    + rewrite Hbody, put_ogrenci_object. cbv zeta.
      rewrite update_ogrenciler_idem, Hce.
      unfold App.update_ogrenciler at 1. rewrite changes_map; [done|].
      intros r. by destruct (sql_eq (App.id r) _).
Qed.

(** X14. An update for an identifier that no row has answers 200 with
    [changes] 0 and leaves the table as it was, whatever the fields of the
    body: the route has no 404. The table is one the schema accepts. *)
Theorem put_unknown_id (table : list (App.Ogrenci Num)) (id_param : string)
    (props : list (string * JsValue Num)) :
  (∀ r, In r table → sql_eq (App.id r) (App.SqlText id_param) = false) →
  constraint_error table = None →
  App.put_ogrenci sql_eq constraint_error table id_param (JObject props)
  = ([ DbCall DbRun App.SQL_put_route
         (JArray (map (λ c, lookup_prop (column_name c) props)
                    [c_tc_no; c_ad; c_soyad; c_dogum_tarihi; c_cinsiyet; c_telefon;
                     c_email; c_adres; c_veli_adi; c_veli_telefonu; c_sinif_id; c_aktif]
                  ++ [JString id_param]));
       Respond 200 (JObject [("message", JString "Öğrenci başarıyla güncellendi");
                             ("changes", JNumber (num_ofNat 0))]) ],
     Normal table).
Proof.
  intros Hno Hce. rewrite put_ogrenci_object. cbv zeta.
  unfold App.update_ogrenciler. rewrite map_unmatched by done.
  by rewrite Hce, changes_unmatched.
Qed.

(** X15. The update route answers exactly once, unless the body is
    missing. For a body that is [undefined] or [null] it throws a
    [TypeError] at the destructuring of [req.body]: the store is not
    reached and no response is sent. For any other body it completes: it
    makes its one store call, a [db.run] of the update statement with
    thirteen parameters of which the last is [req.params.id], and then
    sends one response, 200 or 500; on 500 the table is left as it was. *)
Theorem put_answers_once (table : list (App.Ogrenci Num)) (id_param : string)
    (body : JsValue Num) :
  (body = JUndefined ∨ body = JNull →
   ∃ msg,
     App.put_ogrenci sql_eq constraint_error table id_param body
     = ([], Abrupt (TypeError msg)))
  ∧ (body ≠ JUndefined → body ≠ JNull →
     ∃ ps status answer table',
       App.put_ogrenci sql_eq constraint_error table id_param body
       = ([ DbCall DbRun App.SQL_put_route (JArray ps); Respond status answer ],
          Normal table')
       ∧ length ps = 13
       ∧ last ps = Some (JString id_param)
       ∧ (status = 200 ∨ (status = 500 ∧ table' = table))).
Proof.
  split.
  - intros [-> | ->]; by eexists.
  - intros Hu Hn. rewrite (put_ogrenci_body _ _ body Hu Hn).
    rewrite put_ogrenci_object. cbv zeta.
    destruct (constraint_error _) as [err|];
      eexists _, _, _, _; (split; [reflexivity|]); (split; [reflexivity|]);
      (split; [reflexivity|]); [right | left]; done.
Qed.

End Writes.

(** ** The routing table *)

(** X16. Where a GET for [/api/ogrenciler/a/b] ends, for segments that are
    not empty and any [decodeURIComponent]. The three routes registered
    before the search route take [/api/ogrenciler/ara/notlar],
    [.../ara/devamsizlik] and [.../ara/odemeler] with [ara] as the student
    identifier, so these three terms cannot be searched; the search route
    in turn takes [/api/ogrenciler/ara/ortalama], so that the average of a
    student [ara] cannot be asked for. The route that takes the path
    decodes the segment of its parameter: when that does not decode the
    request is answered 400 and no handler runs. *)
Theorem route_student_subpaths (decodeURIComponent : string → option string)
    (a b : string) :
  a ≠ "" → b ≠ "" →
  let by_id endpoint :=
    match decodeURIComponent a with
    | Some v => Rest.routed endpoint [("id", v)]
    | None => Rest.bad_request
    end in
  Rest.route decodeURIComponent HttpGet ["api"; "ogrenciler"; a; b]
  = if Rest.same_literal "notlar" b then by_id Rest.ep_notlar
    else if Rest.same_literal "devamsizlik" b then by_id Rest.ep_devamsizlik
    else if Rest.same_literal "odemeler" b then by_id Rest.ep_odemeler
    else if Rest.same_literal "ara" a then
           match decodeURIComponent b with
           | Some v => Rest.routed Rest.ep_ara [("search", v)]
           | None => Rest.bad_request
           end
    else if Rest.same_literal "ortalama" b then by_id Rest.ep_ortalama
    else Rest.not_found.
Proof.
  intros Ha%String.eqb_neq Hb%String.eqb_neq by_id. subst by_id.
  unfold Rest.route, Rest.registrations, Rest.first_match, Rest.match_path, Rest.method_eqb.
  change (Rest.same_literal "api" "api") with true.
  change (Rest.same_literal "ogrenciler" "ogrenciler") with true.
  change (Rest.same_literal "siniflar" "ogrenciler") with false.
  cbv iota beta. rewrite Ha, Hb.
  destruct (Rest.same_literal "notlar" b);
    [by destruct (decodeURIComponent a)|].
  destruct (Rest.same_literal "devamsizlik" b);
    [by destruct (decodeURIComponent a)|].
  destruct (Rest.same_literal "odemeler" b);
    [by destruct (decodeURIComponent a)|].
  destruct (Rest.same_literal "ara" a);
    [by destruct (decodeURIComponent b)|].
  destruct (Rest.same_literal "ortalama" b);
    [by destruct (decodeURIComponent a) | done].
Qed.

Lemma delete_is_idempotent_witness :
  Rest.delete_ogrenci Sample.sql_eq Sample.unconstrained
    (Rest.update_aktif Sample.sql_eq (App.SqlText "1") Sample.table) "1"
  = ([ DbCall DbRun Rest.SQL_sil (JArray [JString "1"]);
       Respond 200 (JObject [("message", JString "Öğrenci başarıyla silindi");
                             ("changes", JNumber 1%Z)]) ],
     Normal (Rest.update_aktif Sample.sql_eq (App.SqlText "1") Sample.table)).
Proof.
  apply (delete_is_idempotent Sample.sql_eq Sample.unconstrained Sample.table).
  reflexivity.
Defined.

Lemma delete_unknown_id_witness :
  Rest.delete_ogrenci Sample.sql_eq Sample.unconstrained Sample.table "9"
  = ([ DbCall DbRun Rest.SQL_sil (JArray [JString "9"]);
       Respond 200 (JObject [("message", JString "Öğrenci başarıyla silindi");
                             ("changes", JNumber 0%Z)]) ],
     Normal Sample.table).
Proof.
  refine (delete_unknown_id Sample.sql_eq Sample.unconstrained Sample.table "9" _ _).
  - intros r [<- | [<- | []]]; reflexivity.
  - reflexivity.
Defined.

Lemma put_is_idempotent_witness :
  ∃ events table',
    App.put_ogrenci Sample.sql_eq Sample.unconstrained Sample.table "1"
      (JObject [("ad", JArray [JString "Veli"])])
      = (events, Normal table')
    ∧ App.put_ogrenci Sample.sql_eq Sample.unconstrained table' "1"
        (JObject [("ad", JArray [JString "Veli"])])
      = (events, Normal table').
Proof.
  apply (put_is_idempotent Sample.sql_eq Sample.unconstrained Sample.table "1"
           (JObject [("ad", JArray [JString "Veli"])])); discriminate.
Defined.

Lemma put_unknown_id_witness :
  App.put_ogrenci Sample.sql_eq Sample.unconstrained Sample.table "9"
    (JObject [("ad", JString "Veli")])
  = ([ DbCall DbRun App.SQL_put_route
         (JArray [ JUndefined; JString "Veli"; JUndefined; JUndefined; JUndefined;
                   JUndefined; JUndefined; JUndefined; JUndefined; JUndefined;
                   JUndefined; JUndefined; JString "9" ]);
       Respond 200 (JObject [("message", JString "Öğrenci başarıyla güncellendi");
                             ("changes", JNumber 0%Z)]) ],
     Normal Sample.table).
Proof.
  refine (put_unknown_id Sample.sql_eq Sample.unconstrained Sample.table "9"
            [("ad", JString "Veli")] _ _).
  - intros r [<- | [<- | []]]; reflexivity.
  - reflexivity.
Defined.

Lemma route_student_subpaths_witness :
  Rest.route Fixture.decodeURIComponent HttpGet ["api"; "ogrenciler"; "ara"; "Notlar"]
  = Rest.routed Rest.ep_notlar [("id", "ara")]
  ∧ Rest.route Fixture.decodeURIComponent HttpGet ["api"; "ogrenciler"; "%zz"; "notlar"]
    = Rest.bad_request
  ∧ Rest.route Fixture.decodeURIComponent HttpGet ["api"; "ogrenciler"; "%31"; "ortalama"]
    = Rest.routed Rest.ep_ortalama [("id", "1")].
Proof.
  split; [|split].
  - apply (route_student_subpaths Fixture.decodeURIComponent "ara" "Notlar");
      discriminate.
  - apply (route_student_subpaths Fixture.decodeURIComponent "%zz" "notlar");
      discriminate.
  - apply (route_student_subpaths Fixture.decodeURIComponent "%31" "ortalama");
      discriminate.
Defined.

(** ** The session map *)

Section Sessions.
Context {Num : Type} `{!JsEngine Num}.

Lemma registry_ok_insert (transports : gmap string App.SSEServerTransport) (sid : string) :
  registry_ok transports →
  registry_ok (<[sid := {| App.sessionId := sid |}]> transports).
Proof.
  intros Hok k t. destruct (decide (k = sid)) as [-> | Hne].
  - rewrite lookup_insert_eq. by intros [= <-].
  - rewrite lookup_insert_ne by done. apply Hok.
Qed.

Lemma registry_ok_delete (transports : gmap string App.SSEServerTransport) (sid : string) :
  registry_ok transports → registry_ok (delete sid transports).
Proof.
  intros Hok k t. destruct (decide (k = sid)) as [-> | Hne].
  - by rewrite lookup_delete_eq.
  - rewrite lookup_delete_ne by done. apply Hok.
Qed.

Lemma post_message_keeps_map (transports : gmap string App.SSEServerTransport)
    (q : option App.QueryValue) (body : JsValue Num) :
  ∃ events, App.post_message transports q body = (events, Normal transports).
Proof.
  unfold App.post_message. destruct (App.transports_get transports q); simpl.
  - by eexists.
  - destruct (template_query q) as (s & ->). by eexists.
Qed.

(** X17. Every session map the server can reach holds each transport under
    its own identifier: whatever requests and close events came, in whatever
    order, a lookup by identifier finds the transport with that identifier
    or nothing. *)
Theorem sessions_keyed_by_identifier (transports : gmap string App.SSEServerTransport) :
  reachable (Num := Num) transports → registry_ok transports.
Proof.
  induction 1 as [ |transports q newSessionId events transports' _ IH Hstep
                   |transports transport events transports' _ IH Hstep
                   |transports q body events transports' _ IH Hstep].
  - intros k t. by rewrite lookup_empty.
  - unfold App.get_sse in Hstep. destruct (App.query_truthy q); simpl in Hstep.
    + by injection Hstep as _ <-.
    + injection Hstep as _ <-. by apply registry_ok_insert.
  - unfold App.onclose in Hstep. simpl in Hstep. injection Hstep as _ <-.
    by apply registry_ok_delete.
  - destruct (post_message_keeps_map transports q body) as (events' & Hpost).
    rewrite Hpost in Hstep. by injection Hstep as _ <-.
Qed.

(** X18. A POST to [/message] never changes the session map, and it hands
    the body to a transport exactly when [sessionId] is a string that is a
    key of the map: then to the transport with that identifier, the body as
    it came. *)
Theorem post_message_delivery (transports : gmap string App.SSEServerTransport)
    (q : option App.QueryValue) (body : JsValue Num) :
  registry_ok transports →
  ∃ events,
    App.post_message transports q body = (events, Normal transports)
    ∧ ∀ sid b,
        In (HandlePostMessage sid b) events
        ↔ q = Some (App.QString sid) ∧ is_Some (transports !! sid) ∧ b = body.
Proof.
  intros Hok. unfold App.post_message.
  destruct (App.transports_get transports q) as [t|] eqn:Hget; simpl.
  - eexists. split; [reflexivity|]. intros sid b.
    destruct q as [[s|items|]|]; simpl in Hget; try discriminate.
    apply Hok in Hget as Hs. split.
    + intros [[=] | [[= <- <-] | []]]. rewrite Hs. by rewrite Hget.
    + intros ([= ->] & _ & ->). right. left. by rewrite Hs.
  - destruct (template_query q) as (s & ->). simpl.
    eexists. split; [reflexivity|]. intros sid b. split.
    + intros [[=] | [[=] | []]].
    + intros (-> & [t Ht] & _). simpl in Hget. congruence.
Qed.

(** X19. No message reaches a closed session. A GET to [/sse] without a
    truthy [sessionId] opens a session to which a POST with its identifier
    delivers; once the close handler of that session has run, the same POST
    is answered 404 and delivers nothing. *)
Theorem closed_session_is_gone (transports : gmap string App.SSEServerTransport)
    (q : option App.QueryValue) (newSessionId : string) (body : JsValue Num) :
  App.query_truthy q = false →
  ∃ (e1 e2 : list (Event Num)) opened closed delivered refused,
    App.get_sse transports q newSessionId = (e1, Normal opened)
    ∧ App.post_message opened (Some (App.QString newSessionId)) body
      = (delivered, Normal opened)
    ∧ In (HandlePostMessage newSessionId body) delivered
    ∧ App.onclose {| App.sessionId := newSessionId |} opened = (e2, Normal closed)
    ∧ App.post_message closed (Some (App.QString newSessionId)) body
      = (refused, Normal closed)
    ∧ Exists (λ ev, is_Respond 404 ev = true) refused
    ∧ ∀ sid b, ¬ In (HandlePostMessage sid b) refused.
Proof.
  intros Hq. unfold App.get_sse, App.onclose, App.post_message. rewrite Hq. simpl.
  eexists _, _, _, _, _, _. split; [reflexivity|].
  rewrite lookup_insert_eq. simpl. split; [reflexivity|].
  split; [right; by left|]. split; [reflexivity|].
  rewrite lookup_delete_eq. split; [reflexivity|].
  split; [apply Exists_cons; right; apply Exists_cons; by left|].
  intros sid b [[=] | [[=] | []]].
Qed.

(** X20. A GET to [/sse] without a truthy [sessionId] connects one
    transport and changes the session map at the new identifier only:
    every other session stays as it was, and a session that had the
    identifier before is replaced. *)
Theorem get_sse_mints_one_session (transports : gmap string App.SSEServerTransport)
    (q : option App.QueryValue) (newSessionId : string) :
  App.query_truthy q = false →
  ∃ (events : list (Event Num)) opened,
    App.get_sse transports q newSessionId = (events, Normal opened)
    ∧ filter (λ ev, is_Connect ev = true) events
      = [Connect newSessionId]
    ∧ opened !! newSessionId = Some {| App.sessionId := newSessionId |}
    ∧ (∀ sid, sid ≠ newSessionId → opened !! sid = transports !! sid)
    ∧ size opened
      = if decide (is_Some (transports !! newSessionId))
        then size transports else S (size transports).
Proof.
  intros Hq. unfold App.get_sse. rewrite Hq. simpl.
  eexists _, _. split; [reflexivity|]. split; [reflexivity|].
  split; [apply lookup_insert_eq|].
  split; [intros sid Hne; by apply lookup_insert_ne|].
  destruct (decide _) as [[t Ht] | Hnone].
  - rewrite <- (insert_delete_id transports newSessionId t Ht) at 2.
    rewrite <- insert_delete_eq.
    rewrite !map_size_insert_None by apply lookup_delete_eq. done.
  - apply map_size_insert_None. by apply eq_None_not_Some.
Qed.

End Sessions.

Lemma registry_ok_one_session : registry_ok Sample.one_session.
Proof.
  apply registry_ok_insert. intros k t. by rewrite lookup_empty.
Qed.

Lemma sessions_keyed_by_identifier_witness : registry_ok Sample.one_session.
Proof.
  apply (sessions_keyed_by_identifier (Num := Z) Sample.one_session).
  apply (reach_get_sse ∅ None "a1"
           [ Connect "a1"; ConsoleError [JString "Client Connected: "; JString "a1"] ]).
  - apply reach_start.
  - reflexivity.
Defined.

Lemma post_message_delivery_witness :
  ∃ events,
    App.post_message Sample.one_session (Some (App.QString "a1")) (JNumber 1%Z)
    = (events, Normal Sample.one_session)
    ∧ ∀ sid b,
        In (HandlePostMessage sid b) events
        ↔ Some (App.QString "a1") = Some (App.QString sid)
          ∧ is_Some (Sample.one_session !! sid) ∧ b = JNumber 1%Z.
Proof.
  apply (post_message_delivery Sample.one_session (Some (App.QString "a1"))
           (JNumber 1%Z)).
  apply registry_ok_one_session.
Defined.

Lemma closed_session_is_gone_witness :
  ∃ (e1 e2 : list (Event Z)) opened closed delivered refused,
    App.get_sse Sample.one_session None "b2" = (e1, Normal opened)
    ∧ App.post_message opened (Some (App.QString "b2")) (JNumber 1%Z)
      = (delivered, Normal opened)
    ∧ In (HandlePostMessage "b2" (JNumber 1%Z)) delivered
    ∧ App.onclose {| App.sessionId := "b2" |} opened = (e2, Normal closed)
    ∧ App.post_message closed (Some (App.QString "b2")) (JNumber 1%Z)
      = (refused, Normal closed)
    ∧ Exists (λ ev, is_Respond 404 ev = true) refused
    ∧ ∀ sid b, ¬ In (HandlePostMessage sid b) refused.
Proof.
  apply (closed_session_is_gone Sample.one_session None "b2" (JNumber 1%Z)).
  reflexivity.
Defined.

Lemma get_sse_mints_one_session_witness :
  ∃ (events : list (Event Z)) opened,
    App.get_sse Sample.one_session (Some (App.QString "")) "a1"
    = (events, Normal opened)
    ∧ filter (λ ev, is_Connect ev = true) events = [Connect "a1"]
    ∧ opened !! "a1" = Some {| App.sessionId := "a1" |}
    ∧ (∀ sid, sid ≠ "a1" → opened !! sid = Sample.one_session !! sid)
    ∧ size opened
      = if decide (is_Some (Sample.one_session !! "a1"))
        then size Sample.one_session else S (size Sample.one_session).
Proof.
  apply (get_sse_mints_one_session Sample.one_session (Some (App.QString "")) "a1").
  reflexivity.
Defined.

(** ** The proxy of [src/mcp-server.js] *)

Lemma mcp_switch_name (name : string) (c : McpServer.Case) :
  McpServer.switch name = Some c → In (name, c) McpServer.labels.
Proof.
  unfold McpServer.switch. intros Hsw.
  apply fmap_Some in Hsw as ([k c'] & Hfind & ->).
  apply List.find_some in Hfind as [Hin Heq]. simpl in Heq.
  apply String.eqb_eq in Heq as ->. exact Hin.
Qed.

Section Proxy.
Context {Num : Type} `{!JsEngine Num}.
Variable API_BASE_URL : string.
Variable axios : HttpMethod → string → JsValue Num → string + JsValue Num.

(** The body of the [try] block throws before any request, or makes one
    request and returns what it answers. *)
Lemma mcp_call_body_cases (name : string) (args : JsValue Num) :
  (∃ e, McpServer.call_body API_BASE_URL axios name args = ([], Abrupt e))
  ∨ (∃ m url body,
       McpServer.call_body API_BASE_URL axios name args
       = ([HttpCall m url body],
          match axios m url body with
          | inl err => Abrupt (Error err)
          | inr data => Normal (json_result data)
          end)
       ∧ String.prefix API_BASE_URL url = true
       ∧ request_shape name args m body).
Proof.
  unfold McpServer.call_body, McpServer.request.
  destruct (McpServer.switch name) as [c|] eqn:Hsw; [|left; by eexists].
  apply mcp_switch_name in Hsw. simpl in Hsw.
  assert (Hpre : ∀ rest, String.prefix API_BASE_URL (API_BASE_URL +:+ rest) = true).
  { intros rest. apply prefix_app. by eexists. }
  assert (Hone : ∀ (v : JsValue Num) (k : string → M Num CallToolResult),
            (∀ s, ∃ m url body,
               k s = ([HttpCall m url body],
                      match axios m url body with
                      | inl err => Abrupt (Error err)
                      | inr data => Normal (json_result data)
                      end)
               ∧ String.prefix API_BASE_URL url = true
               ∧ request_shape name args m body) →
            (∃ e, (s ← template v; k s) = ([], Abrupt e))
            ∨ (∃ m url body,
                 (s ← template v; k s)
                 = ([HttpCall m url body],
                    match axios m url body with
                    | inl err => Abrupt (Error err)
                    | inr data => Normal (json_result data)
                    end)
                 ∧ String.prefix API_BASE_URL url = true
                 ∧ request_shape name args m body)).
  { intros v k Hk. unfold template. destruct (ToString v) as [e|s]; simpl.
    - left. by eexists.
    - right. destruct (Hk s) as (m & url & body & Hks & Hurl & Hshape).
      exists m, url, body. by rewrite Hks. }
  assert (Hget : ∀ (key : string) (k : string → M Num CallToolResult),
            (∀ s, ∃ m url body,
               k s = ([HttpCall m url body],
                      match axios m url body with
                      | inl err => Abrupt (Error err)
                      | inr data => Normal (json_result data)
                      end)
               ∧ String.prefix API_BASE_URL url = true
               ∧ request_shape name args m body) →
            (∃ e, (v ← get args key; s ← template v; k s) = ([], Abrupt e))
            ∨ (∃ m url body,
                 (v ← get args key; s ← template v; k s)
                 = ([HttpCall m url body],
                    match axios m url body with
                    | inl err => Abrupt (Error err)
                    | inr data => Normal (json_result data)
                    end)
                 ∧ String.prefix API_BASE_URL url = true
                 ∧ request_shape name args m body)).
  { intros key k Hk. destruct args; try (left; by eexists);
      unfold get; cbv iota; rewrite bind_ret; by apply Hone. }
  assert (Hreq : ∀ m url body,
            (data ← (emit (HttpCall m url body);;
                     match axios m url body with
                     | inl err => throw (Error err)
                     | inr data => mret data
                     end);
             mret (json_result data))
            = ([HttpCall m url body],
               match axios m url body with
               | inl err => Abrupt (Error err)
               | inr data => Normal (json_result data)
               end)).
  { intros m url body. by destruct (axios m url body). }
  repeat (destruct Hsw as [Hsw | Hsw]; [injection Hsw as <- <-|]); [..|done].
  - right. eexists _, _, _. split; [apply Hreq|]. split; [apply Hpre|].
    simpl. split; [by left | done].
  - apply Hget. intros s. eexists _, _, _. split; [apply Hreq|].
    split; [apply Hpre|]. simpl. split; [tauto | done].
  - apply Hget. intros s. eexists _, _, _. split; [apply Hreq|].
    split; [apply Hpre|]. simpl. split; [tauto | done].
  - apply Hget. intros s. eexists _, _, _. split; [apply Hreq|].
    split; [apply Hpre|]. simpl. split; [tauto | done].
  - apply Hget. intros s. eexists _, _, _. split; [apply Hreq|].
    split; [apply Hpre|]. simpl. split; [tauto | done].
  - apply Hget. intros s. eexists _, _, _. split; [apply Hreq|].
    split; [apply Hpre|]. simpl. split; [tauto | done].
  - apply Hget. intros s. eexists _, _, _. split; [apply Hreq|].
    split; [apply Hpre|]. simpl. split; [tauto | done].
  - apply Hget. intros s. eexists _, _, _. split; [apply Hreq|].
    split; [apply Hpre|]. simpl. split; [tauto | done].
  - right. eexists _, _, _. split; [apply Hreq|]. split; [apply Hpre|].
    simpl. by left.
  - apply Hget. intros s. eexists _, _, _. split; [apply Hreq|].
    split; [apply Hpre|]. by simpl.
  - apply Hget. intros s. eexists _, _, _. split; [apply Hreq|].
    split; [apply Hpre|]. by simpl.
  - assert (Hbody : ∀ query params : JsValue Num, ∃ m url body,
              (let params := if truthy params then params else JArray [] in
               customResult ←
                 (emit (HttpCall HttpPost (API_BASE_URL +:+ "/custom-query")
                          (JObject [("query", query); ("params", params)]));;
                  match axios HttpPost (API_BASE_URL +:+ "/custom-query")
                          (JObject [("query", query); ("params", params)]) with
                  | inl err => throw (Error err)
                  | inr data => mret data
                  end);
               mret (json_result customResult))
              = ([HttpCall m url body],
                 match axios m url body with
                 | inl err => Abrupt (Error err)
                 | inr data => Normal (json_result data)
                 end)
              ∧ String.prefix API_BASE_URL url = true
              ∧ request_shape "custom_query" args m body).
    { intros query params. eexists _, _, _. split; [apply Hreq|].
      split; [apply Hpre|]. simpl. right. split; [done|].
      eexists _, _. split; [reflexivity|]. by destruct (truthy params) eqn:Ht. }
    destruct args; try (left; by eexists); unfold get; cbv iota;
      rewrite !bind_ret; right; apply Hbody.
Qed.

(** X21. The tool call handler of the proxy never throws. It returns one
    text block, after at most one HTTP request, whose URL starts with
    [API_BASE_URL]. The result is without [isError] exactly when that
    request was made and answered: it is then the JSON text of the answer;
    every other result is the one the [catch] clause builds. *)
Theorem proxy_outcomes (name : string) (args : JsValue Num) :
  ∃ events result,
    McpServer.callTool API_BASE_URL axios name args = (events, Normal result)
    ∧ (events = []
       ∨ ∃ m url body, events = [HttpCall m url body]
                       ∧ String.prefix API_BASE_URL url = true)
    ∧ (∃ txt, content result = [ {| type := "text"; text := txt |} ])
    ∧ ((∃ m url body data, events = [HttpCall m url body]
                           ∧ axios m url body = inr data
                           ∧ result = json_result data)
       ∨ (∃ e, result = McpServer.error_result e
               ∧ ∀ m url body data, events = [HttpCall m url body] →
                                    axios m url body ≠ inr data)).
Proof.
  unfold McpServer.callTool.
  destruct (mcp_call_body_cases name args)
    as [(e & ->) | (m & url & body & -> & Hurl & _)].
  - rewrite try_catch_mret. eexists _, _. split; [reflexivity|].
    split; [by left|]. split; [by eexists|]. right. eexists. split; [done|].
    intros ? ? ? ? [=].
  - destruct (axios m url body) as [err|data] eqn:Hax.
    + rewrite try_catch_mret. eexists _, _. split; [reflexivity|].
      split; [right; by eexists _, _, _|]. split; [by eexists|].
      right. eexists. split; [done|]. intros ? ? ? ? [= <- <- <-]. congruence.
    + rewrite try_catch_Normal. eexists _, _. split; [reflexivity|].
      split; [right; by eexists _, _, _|]. split; [by eexists|].
      left. by eexists _, _, _, _.
Qed.

(** X22. The method of a request tells the tool: a GET comes from one of
    the eight reading tools and has no body, so a reading tool never writes;
    a DELETE comes from [delete_student], without body; a PUT from
    [update_student] and a POST from [add_student] carry the arguments as
    they came; the POST of [custom_query] carries a [query] and a truthy
    [params]. *)
Theorem proxy_request_methods (name : string) (args : JsValue Num)
    (m : HttpMethod) (url : string) (body : JsValue Num) :
  In (HttpCall m url body) (fst (McpServer.callTool API_BASE_URL axios name args)) →
  request_shape name args m body.
Proof.
  unfold McpServer.callTool.
  destruct (mcp_call_body_cases name args)
    as [(e & ->) | (m' & url' & body' & -> & _ & Hshape)].
  - rewrite try_catch_mret. by intros [].
  - destruct (axios m' url' body').
    + rewrite try_catch_mret. by intros [[= <- <- <-] | []].
    + rewrite try_catch_Normal. by intros [[= <- <- <-] | []].
Qed.

(** X23. A request that fails gives the error result with the message of
    the failure after "Hata: ". *)
Theorem proxy_wraps_http_failure (name : string) (args : JsValue Num)
    (m : HttpMethod) (url : string) (body : JsValue Num) (err : string) :
  In (HttpCall m url body) (fst (McpServer.callTool API_BASE_URL axios name args)) →
  axios m url body = inl err →
  snd (McpServer.callTool API_BASE_URL axios name args)
  = Normal {| content := [ {| type := "text"; text := "Hata: " +:+ err |} ];
              isError := Some true |}.
Proof.
  unfold McpServer.callTool.
  destruct (mcp_call_body_cases name args)
    as [(e & ->) | (m' & url' & body' & -> & _ & _)].
  - rewrite try_catch_mret. by intros [].
  - destruct (axios m' url' body') eqn:Hax.
    + rewrite try_catch_mret. intros [[= <- <- <-] | []] Herr.
      rewrite Hax in Herr. by injection Herr as ->.
    + rewrite try_catch_Normal. intros [[= <- <- <-] | []] Herr. congruence.
Qed.

(** X24. A call without arguments ([undefined] or [null]) of a tool that
    reads a field of them makes no request: the [TypeError] of the property
    access is returned as the error result. All tools but
    [get_all_students] and [add_student] read a field. *)
Theorem proxy_without_arguments (name : string) (args : JsValue Num) :
  args = JUndefined ∨ args = JNull →
  In name (map McpServer.name McpServer.tools) →
  name ≠ "get_all_students" → name ≠ "add_student" →
  ∃ msg,
    McpServer.callTool API_BASE_URL axios name args
    = ([], Normal (McpServer.error_result (TypeError msg))).
Proof.
  intros Hargs Hin Hne1 Hne2. simpl in Hin.
  unfold McpServer.callTool, McpServer.call_body.
  repeat (destruct Hin as [<- | Hin]; [try done|]); [..|done];
    destruct Hargs as [-> | ->]; by eexists.
Qed.

End Proxy.

Lemma proxy_request_methods_witness :
  request_shape (Num := Z) "delete_student" (JObject [("id", JNumber 3%Z)])
    HttpDelete JUndefined.
Proof.
  apply (proxy_request_methods "http://localhost:3000/api" Engine.api_ok
           "delete_student" (JObject [("id", JNumber 3%Z)])
           HttpDelete "http://localhost:3000/api/ogrenciler/3" JUndefined).
  vm_compute. left. reflexivity.
Defined.

Lemma proxy_wraps_http_failure_witness :
  snd (McpServer.callTool "http://localhost:3000/api" Engine.api_404
         "get_all_students" JUndefined)
  = Normal {| content := [ {| type := "text";
                              text := "Hata: Request failed with status code 404" |} ];
              isError := Some true |}.
Proof.
  apply (proxy_wraps_http_failure "http://localhost:3000/api" Engine.api_404
           "get_all_students" JUndefined
           HttpGet "http://localhost:3000/api/ogrenciler" JUndefined).
  - vm_compute. left. reflexivity.
  - reflexivity.
Defined.

Lemma proxy_without_arguments_witness :
  ∃ msg,
    McpServer.callTool "http://localhost:3000/api" Engine.api_ok
      "get_student_by_id" JUndefined
    = ([], Normal (McpServer.error_result (TypeError msg))).
Proof.
  apply (proxy_without_arguments "http://localhost:3000/api" Engine.api_ok
           "get_student_by_id" JUndefined).
  - left. reflexivity.
  - simpl. right. left. reflexivity.
  - discriminate.
  - discriminate.
Defined.

(** ** The server of [src/unnamed/part_000] *)

Section SampleTools.
Context {Num : Type} `{!JsEngine Num}.
Variable db : Database Num.
Variable plus : JsValue Num → JsValue Num → JsValue Num.

Lemma part000_switch_name (name : string) (c : Part000.Case) :
  Part000.switch name = Some c → In (name, c) Part000.labels.
Proof.
  unfold Part000.switch. intros Hsw.
  apply fmap_Some in Hsw as ([k c'] & Hfind & ->).
  apply List.find_some in Hfind as [Hin Heq]. simpl in Heq.
  apply String.eqb_eq in Heq as ->. exact Hin.
Qed.

(** X25. A tool list request to this server always fails: the handler
    throws the [ReferenceError] for [EchoSchema] while it builds the first
    entry, and it has no [try]. No tool is listed. *)
Theorem part000_tool_list_fails :
  Part000.listTools (Num := Num)
  = ([], Abrupt (ReferenceError "EchoSchema is not defined"))
  ∧ ∀ x, In x ["EchoSchema"; "AddSchema"] →
         ∀ locals, (∀ b, In b locals → fst b ≠ x) →
                   App.resolve (Part000.handler_scope (Num := Num) locals) x
                   = ([], Abrupt (ReferenceError (x +:+ " is not defined"))).
Proof.
  split; [reflexivity|].
  intros x Hx locals Hlocals. unfold App.resolve, Part000.handler_scope.
  assert (Hfind : ∀ rest,
            List.find (λ b : string * JsValue Num, String.eqb (fst b) x) rest = None →
            List.find (λ b : string * JsValue Num, String.eqb (fst b) x) (locals ++ rest)
            = None).
  { intros rest Hrest. induction locals as [|b locals IH]; simpl; [done|].
    destruct (String.eqb_spec (fst b) x) as [Heq | Hne].
    - destruct (Hlocals b); [by left | done].
    - apply IH. intros b' Hb'. apply Hlocals. by right. }
  rewrite Hfind; [done|].
  destruct Hx as [<- | [<- | []]]; reflexivity.
Qed.

(** X26. A tool call to this server never throws, and only
    [get_all_students] can succeed: [echo] and [add] end in the
    [ReferenceError] for their schema before anything else happens, every
    other name, [get_student_by_id] of the tool list included, is an unknown
    tool; and [get_all_students] succeeds exactly when the store answers. *)
Theorem part000_tool_calls (name : string) (args : JsValue Num) :
  ∃ events result,
    Part000.callTool db plus name args = (events, Normal result)
    ∧ (name = "echo" →
       events = [] ∧ result = App.error_result (ReferenceError "EchoSchema is not defined"))
    ∧ (name = "add" →
       events = [] ∧ result = App.error_result (ReferenceError "AddSchema is not defined"))
    ∧ (name ≠ "echo" → name ≠ "add" → name ≠ "get_all_students" →
       events = [] ∧ result = App.error_result (Error ("Unknown tool: " +:+ name)))
    ∧ (isError result = None
       ↔ name = "get_all_students"
         ∧ ∃ rows, db_all db App.SQL_getAllStudents (JArray []) = inr rows).
Proof.
  unfold Part000.callTool, Part000.call_body.
  destruct (Part000.switch name) as [c|] eqn:Hsw.
  - apply part000_switch_name in Hsw. simpl in Hsw.
    destruct Hsw as [[= <- <-] | [[= <- <-] | [[= <- <-] | []]]].
    + eexists _, _. split; [reflexivity|]. repeat split; try done.
      intros (? & _). discriminate.
    + eexists _, _. split; [reflexivity|]. repeat split; try done.
      intros (? & _). discriminate.
    + unfold App.getAllStudents, App.all_rows. simpl.
      destruct (db_all db App.SQL_getAllStudents (JArray [])) as [err|rows]; simpl.
      * eexists _, _. split; [reflexivity|]. repeat split; try done.
        intros (_ & ? & [=]).
      * eexists _, _. split; [reflexivity|]. repeat split; try done. by eexists.
  - simpl. eexists _, _. split; [reflexivity|].
    assert (Hlabel : ∀ c, ¬ In (name, c) Part000.labels).
    { intros c Hin. unfold Part000.switch in Hsw.
      apply fmap_None in Hsw.
      eapply List.find_none in Hsw; [|exact Hin]. simpl in Hsw.
      by rewrite String.eqb_refl in Hsw. }
    split; [intros ->; destruct (Hlabel Part000.case_ECHO); simpl; tauto|].
    split; [intros ->; destruct (Hlabel Part000.case_ADD); simpl; tauto|].
    split; [done|]. split; [discriminate|].
    intros (-> & _). destruct (Hlabel Part000.case_GET_ALL_STUDENTS). simpl. tauto.
Qed.

(** X27. The prompt handlers agree: a prompt request returns a message
    exactly for the names the prompt list gives; for any other name it
    throws "Unknown prompt: <name>", which nothing in the handler catches. *)
Theorem part000_prompts (name : string) :
  (In name (map Part000.prompt_name Part000.listPrompts) →
   ∃ message,
     Part000.getPrompt (Num := Num) name = ([], Normal [message])
     ∧ Part000.role message = "user")
  ∧ (¬ In name (map Part000.prompt_name Part000.listPrompts) →
     Part000.getPrompt (Num := Num) name
     = ([], Abrupt (Error ("Unknown prompt: " +:+ name)))).
Proof.
  unfold Part000.getPrompt. simpl. split.
  - intros [<- | []]. by eexists.
  - intros Hn. destruct (String.eqb_spec name Part000.PromptName.SIMPLE) as [-> | Hne].
    + destruct Hn. by left.
    + done.
Qed.

End SampleTools.

(** The sample tool [add], on the numbers 1 and 2. *)
Example part000_add_fails :
  Part000.callTool Fixture.one_row Fixture.plus "add"
    (JObject [("a", JNumber 1%Z); ("b", JNumber 2%Z)])
  = ([], Normal {| content := [ {| type := "text";
                                   text := "Error: AddSchema is not defined" |} ];
                   isError := Some true |}).
Proof. reflexivity. Qed.
